(** * PayRollPro: the payroll and leave-balance engine

    A shallow embedding of the calculation core of [app.py]
    ([calculate_salary_components], [calculate_leave_balance],
    [process_individual_payroll], [apply_hike]), of the routes that add
    employees and process sheets ([add_employee], [bulk_add_employees],
    [bulk_process_payroll]) and of the queries behind [api_payslip] and
    [download_payslip], over the tables of [models.py] ([Employee],
    [Payroll], [LeaveTransaction]).

    Numbers.  The program computes on Python floats.  Here every float is
    an exact rational ([Q]); [round(x, 2)] is rounding to the nearest
    multiple of 0.01 with ties going to the even multiple, and [int(x)]
    is truncation towards zero.  Equality of computed amounts is [Qeq]
    ([==]); a value that is only passed on is compared with Leibniz
    equality.

    Where the program rounds or truncates a product, a sum or a
    difference of floats (the loss-of-pay scaling, the scaling by days
    worked, the totals, the day counts), the float may lie on the other
    side of a tie or of a whole number than the exact value.  What is
    proved of such a value is therefore what holds on either side: that
    it is within a paisa of the exact product or sum, or less than a day
    from the exact difference, and the exact value itself where the float
    arithmetic is exact (amounts of at most two decimals, whole and half
    days).

    Store.  The three tables are lists of rows in insertion order.  A
    request runs against the committed store and returns the store it
    commits. *)

From Stdlib Require Import QArith Qround Qminmax Qabs ZArith Lia Lqa.
From Stdlib Require Import Bool String Ascii List.
Import ListNotations.

Open Scope Q_scope.

(** ** Python builtins on numbers *)

(** [round(x, 2)]: the nearest multiple of 1/100, ties to even. *)
Definition round2 (x : Q) : Q :=
  let y := x * 100 in
  let f := Qfloor y in
  let k := match (y - inject_Z f) ?= 1 # 2 with
           | Lt => f
           | Gt => (f + 1)%Z
           | Eq => if Z.even f then f else (f + 1)%Z
           end in
  k # 100.

(** [int(x)] on a float: truncation towards zero. *)
Definition int (x : Q) : Z :=
  if Qle_bool 0 x then Qfloor x else Qceiling x.

(** [min(a, b)] and [max(a, b)]: Python keeps the first argument unless the
    second is strictly smaller (resp. larger); [Qmin] and [Qmax] do the
    same. *)
Definition min (a b : Q) : Q := Qmin a b.
Definition max (a b : Q) : Q := Qmax a b.

(** A whole number of hundredths (an amount in rupees and paise). *)
Definition two_decimals (x : Q) : Prop := exists k : Z, x == k # 100.

(** A whole number. *)
Definition whole (x : Q) : Prop := exists k : Z, x == inject_Z k.

(** ** The salary breakdown

    [components] is a Python dict with a fixed set of string keys, written
    and overwritten key by key.  It is a map from keys to numbers; every
    key that is read has been written before. *)

Inductive key : Set :=
  | basic | hra | conveyance_allowance | medical_allowance
  | overtime_amount | expenses | bonus | leave_balance_amount
  | special_allowance
  | pf_employee | pf_employer
  | vpf | pt | charity | misc_deduction | additional_deduction
  | gross_salary | total_deductions | net_salary.

Definition key_eq_dec (a b : key) : {a = b} + {a <> b}.
Proof. decide equality. Defined.

Definition components : Type := key -> Q.

(** [{}] *)
Definition empty : components := fun _ => 0.

(** [components[k] = v] *)
Definition setitem (k : key) (v : Q) (c : components) : components :=
  fun k' => if key_eq_dec k k' then v else c k'.

Definition calculate_salary_components
    (ctc_monthly : Q) (pf_opted : bool) (additional_deduction_ : Q)
  : components :=
  let c := empty in
  (* Basic salary (50% of CTC) *)
  let c := setitem basic (round2 (ctc_monthly * 0.50)) c in
  (* HRA (20% of basic) *)
  let c := setitem hra (round2 (c basic * 0.20)) c in
  let c := setitem conveyance_allowance (round2 (ctc_monthly * 0.05)) c in
  let c := setitem medical_allowance (round2 (ctc_monthly * 0.05)) c in
  (* Variable components (0 by default) *)
  let c := setitem overtime_amount 0.0 c in
  let c := setitem expenses 0.0 c in
  let c := setitem bonus 0.0 c in
  let c := setitem leave_balance_amount 0.0 c in
  (* Special allowance balances the CTC *)
  let fixed_components :=
    c basic + c hra + c conveyance_allowance + c medical_allowance in
  let remaining := ctc_monthly - fixed_components in
  let c := setitem special_allowance (round2 remaining) c in
  (* PF: 12% of basic, capped at 1800 *)
  let c :=
    if pf_opted then
      let pf_amount := min (c basic * 0.12) 1800 in
      let c := setitem pf_employee (round2 pf_amount) c in
      setitem pf_employer (round2 pf_amount) c
    else
      let c := setitem pf_employee 0 c in
      setitem pf_employer 0 c in
  (* Other deductions (0 by default) *)
  let c := setitem vpf 0.0 c in
  let c := setitem pt 0.0 c in
  let c := setitem charity 0.0 c in
  let c := setitem misc_deduction 0.0 c in
  let c := setitem additional_deduction additional_deduction_ c in
  (* Totals *)
  let c := setitem gross_salary
             (round2 (c basic + c hra + c special_allowance
                      + c conveyance_allowance + c medical_allowance
                      + c overtime_amount + c expenses + c bonus
                      + c leave_balance_amount)) c in
  let c := setitem total_deductions
             (round2 (c pf_employee + c vpf + c pt + c charity
                      + c misc_deduction + c additional_deduction)) c in
  let c := setitem net_salary
             (round2 (c gross_salary - c total_deductions)) c in
  c.

(** ** The tables of [models.py]

    The surrogate key [id] of [Payroll] and [LeaveTransaction] rows, which
    the database assigns, is not modelled: a row is identified by its
    position in its table.  Dates and times are numbers. *)

Module Employee.
Record t : Type := mk {
  id : Z;
  emp_id : string;
  name : string;
  email : string;
  designation : option string;
  department : option string;
  joining_date : option Z;
  ctc_monthly : Q;
  ctc_annual : Q;
  pf_opted : bool;
  leave_balance : Q;
  created_by : string;
  created_at : Z
}.

Definition set_ctc_monthly (v : Q) (e : t) : t :=
  mk (id e) (emp_id e) (name e) (email e) (designation e) (department e)
     (joining_date e) v (ctc_annual e) (pf_opted e) (leave_balance e)
     (created_by e) (created_at e).

Definition set_ctc_annual (v : Q) (e : t) : t :=
  mk (id e) (emp_id e) (name e) (email e) (designation e) (department e)
     (joining_date e) (ctc_monthly e) v (pf_opted e) (leave_balance e)
     (created_by e) (created_at e).

Definition set_leave_balance (v : Q) (e : t) : t :=
  mk (id e) (emp_id e) (name e) (email e) (designation e) (department e)
     (joining_date e) (ctc_monthly e) (ctc_annual e) (pf_opted e) v
     (created_by e) (created_at e).
End Employee.

Module Payroll.
Record t : Type := mk {
  emp_id : string;
  month : string;
  year : Z;
  (* Attendance / leave *)
  total_days : Z;
  present_days : Z;
  leaves_taken : Q;
  paid_days : Z;
  loss_of_pay_days : Q;
  leave_balance_used : Q;
  (* Earnings *)
  basic_salary : Q;
  hra : Q;
  special_allowance : Q;
  conveyance_allowance : Q;
  medical_allowance : Q;
  overtime_amount : Q;
  expenses : Q;
  bonus : Q;
  leave_balance_amount : Q;
  (* Deductions *)
  pf_employee : Q;
  pf_employer : Q;
  vpf : Q;
  pt : Q;
  charity : Q;
  misc_deduction : Q;
  additional_deduction : Q;
  deduction_reason : string;
  (* Totals *)
  gross_salary : Q;
  total_deductions : Q;
  net_salary : Q;
  hike_amount : Q;
  processed_by : string;
  processed_at : Z
}.
End Payroll.

Module LeaveTransaction.
Record t : Type := mk {
  emp_id : string;
  month : string;
  year : Z;
  leaves_allocated : Q;
  leaves_used : Q;
  balance_before : Q;
  balance_after : Q;
  created_at : Z
}.
End LeaveTransaction.

(** The committed database. *)
Record DB : Type := mkDB {
  employees : list Employee.t;
  payroll : list Payroll.t;
  leave_transactions : list LeaveTransaction.t
}.

(** ** Queries *)

(** [query.first()] with no ordering: the first row, in table order, that
    passes the filter. *)
Definition first {A : Type} (filter_by : A -> bool) (rows : list A)
  : option A :=
  find filter_by rows.

(** [query.order_by(...).first()]: a row that no other row sorts strictly
    before.  SQL leaves the order among rows with equal sort keys open;
    here the earliest such row of the table is taken. *)
Definition order_by_first {A : Type} (before : A -> A -> bool)
    (rows : list A) : option A :=
  fold_left
    (fun best r =>
       match best with
       | None => Some r
       | Some b => if before r b then Some r else Some b
       end)
    rows None.

(** Writing the attributes of an object that [first()] returned changes
    the row it was loaded from. *)
Fixpoint update_first {A : Type} (filter_by : A -> bool) (f : A -> A)
    (rows : list A) : list A :=
  match rows with
  | [] => []
  | r :: rest =>
      if filter_by r then f r :: rest
      else r :: update_first filter_by f rest
  end.

(** [filter_by(emp_id=emp_id)] on [Employee]. *)
Definition is_employee (emp_id : string) (e : Employee.t) : bool :=
  String.eqb (Employee.emp_id e) emp_id.

(** [filter_by(emp_id=emp_id, month=month, year=year)] on [Payroll]. *)
Definition is_payroll (emp_id month : string) (year : Z) (p : Payroll.t)
  : bool :=
  String.eqb (Payroll.emp_id p) emp_id
  && String.eqb (Payroll.month p) month
  && Z.eqb (Payroll.year p) year.

(** [filter_by(emp_id=emp_id)] on [LeaveTransaction]. *)
Definition is_leave_of (emp_id : string) (t : LeaveTransaction.t) : bool :=
  String.eqb (LeaveTransaction.emp_id t) emp_id.

(** [ORDER BY year DESC, month DESC]: [month] is a string column (it holds
    the month's English name), compared as strings. *)
Definition year_month_desc (a b : LeaveTransaction.t) : bool :=
  match (LeaveTransaction.year a ?= LeaveTransaction.year b)%Z with
  | Gt => true
  | Lt => false
  | Eq =>
      match String.compare (LeaveTransaction.month a)
                           (LeaveTransaction.month b) with
      | Gt => true
      | _ => false
      end
  end.

(** ** The engine *)

(** The dict that [calculate_leave_balance] returns. *)
Module LeaveInfo.
Record t : Type := mk {
  leave_balance_used : Q;
  loss_of_pay_days : Q;
  remaining_balance : Q;
  paid_days : Q;
  present_days : Q
}.
End LeaveInfo.

(** The fields of the form posted to [/process_individual_payroll], after
    [float(...)] and [int(...)]. *)
Module Form.
Record t : Type := mk {
  emp_id : string;
  leaves_taken : Q;
  month : string;
  year : Z;
  pf_opted : bool;
  hike_amount : Q;
  deduction_amount : Q;
  deduction_reason : string;
  overtime_amount : Q;
  expenses : Q;
  bonus : Q
}.


End Form.

(** What a request answers: the flash message it leaves. *)
Inductive outcome : Set :=
  | EmployeeNotFound
  | Success.

Definition Qgtb (a b : Q) : bool := negb (Qle_bool a b).

(** Monthly leave allocation (1.5 days). *)
Definition monthly_allocation : Q := 1.5.

(** The most recent leave transaction of an employee, as the program
    looks it up. *)
Definition prev_transaction (emp_id : string) (st : DB)
  : option LeaveTransaction.t :=
  order_by_first year_month_desc
    (filter (is_leave_of emp_id) (leave_transactions st)).

(** The balance a settlement starts from, before this month's
    allocation. *)
Definition starting_balance (employee : Employee.t) (st : DB) : Q :=
  match prev_transaction (Employee.emp_id employee) st with
  | Some prev => LeaveTransaction.balance_after prev
  | None => Employee.leave_balance employee
  end.

Section Request.

(** The logged-in user's name and the clock of the request. *)
Variable current_user : string.
Variable utcnow : Z.

Definition calculate_leave_balance (employee : Employee.t)
    (leaves_taken : Q) (month : string) (year : Z) (st : DB)
  : LeaveInfo.t * DB :=
  (* Calculate current balance *)
  let current_balance :=
    match prev_transaction (Employee.emp_id employee) st with
    | Some prev => LeaveTransaction.balance_after prev + monthly_allocation
    | None => Employee.leave_balance employee + monthly_allocation
    end in
  (* How much leave the balance covers *)
  let leave_balance_used := min leaves_taken current_balance in
  let loss_of_pay_days := max 0 (leaves_taken - current_balance) in
  let remaining_balance := current_balance - leave_balance_used in
  (* Create leave transaction record *)
  let leave_transaction :=
    {| LeaveTransaction.emp_id := Employee.emp_id employee;
       LeaveTransaction.month := month;
       LeaveTransaction.year := year;
       LeaveTransaction.leaves_allocated := monthly_allocation;
       LeaveTransaction.leaves_used := leave_balance_used;
       LeaveTransaction.balance_before :=
         current_balance - monthly_allocation;
       LeaveTransaction.balance_after := remaining_balance;
       LeaveTransaction.created_at := utcnow |} in
  let st :=
    {| employees := employees st;
       payroll := payroll st;
       leave_transactions := leave_transactions st ++ [leave_transaction]
    |} in
  (* Update employee's leave balance *)
  let st :=
    {| employees :=
         update_first (is_employee (Employee.emp_id employee))
           (Employee.set_leave_balance remaining_balance) (employees st);
       payroll := payroll st;
       leave_transactions := leave_transactions st |} in
  ({| LeaveInfo.leave_balance_used := leave_balance_used;
      LeaveInfo.loss_of_pay_days := loss_of_pay_days;
      LeaveInfo.remaining_balance := remaining_balance;
      LeaveInfo.paid_days := 30 - loss_of_pay_days;
      LeaveInfo.present_days := 30 - leaves_taken |},
   st).

(** What [process_individual_payroll] does to the salary breakdown once
    the leave is settled: the loss-of-pay adjustment, the variable
    components and the recalculated totals. *)
Definition adjust_components (form : Form.t) (leave_info : LeaveInfo.t)
    (salary_components : components) : components :=
  (* Adjust salary for loss of pay days *)
  let salary_components :=
    if Qgtb (LeaveInfo.loss_of_pay_days leave_info) 0 then
      let loss_ratio := LeaveInfo.loss_of_pay_days leave_info / 30.0 in
      fold_left
        (fun c k => setitem k (round2 (c k * (1 - loss_ratio))) c)
        [basic; hra; special_allowance; conveyance_allowance;
         medical_allowance]
        salary_components
    else salary_components in
  (* Add variable components *)
  let c := salary_components in
  let c := setitem overtime_amount (Form.overtime_amount form) c in
  let c := setitem expenses (Form.expenses form) c in
  let c := setitem bonus (Form.bonus form) c in
  let c := setitem leave_balance_amount
             (LeaveInfo.remaining_balance leave_info * 100) c in
  (* Recalculate totals with adjustments *)
  let c := setitem gross_salary
             (round2 (c basic + c hra + c special_allowance
                      + c conveyance_allowance + c medical_allowance
                      + c overtime_amount + c expenses + c bonus
                      + c leave_balance_amount)) c in
  let c := setitem net_salary
             (round2 (c gross_salary - c total_deductions)) c in
  c.

(** The assignments made to a [Payroll] row, the same for the row that
    exists and for the new one; [emp_id], [month] and [year] are those
    of the row. *)
Definition assign_payroll (form : Form.t) (leave_info : LeaveInfo.t)
    (salary_components : components) (p : Payroll.t) : Payroll.t :=
  {| Payroll.emp_id := Payroll.emp_id p;
     Payroll.month := Payroll.month p;
     Payroll.year := Payroll.year p;
     Payroll.total_days := 30;
     Payroll.present_days := int (LeaveInfo.present_days leave_info);
     Payroll.leaves_taken := Form.leaves_taken form;
     Payroll.paid_days := int (LeaveInfo.paid_days leave_info);
     Payroll.loss_of_pay_days := LeaveInfo.loss_of_pay_days leave_info;
     Payroll.leave_balance_used := LeaveInfo.leave_balance_used leave_info;
     Payroll.basic_salary := salary_components basic;
     Payroll.hra := salary_components hra;
     Payroll.special_allowance := salary_components special_allowance;
     Payroll.conveyance_allowance :=
       salary_components conveyance_allowance;
     Payroll.medical_allowance := salary_components medical_allowance;
     Payroll.overtime_amount := salary_components overtime_amount;
     Payroll.expenses := salary_components expenses;
     Payroll.bonus := salary_components bonus;
     Payroll.leave_balance_amount :=
       salary_components leave_balance_amount;
     Payroll.pf_employee := salary_components pf_employee;
     Payroll.pf_employer := salary_components pf_employer;
     Payroll.vpf := salary_components vpf;
     Payroll.pt := salary_components pt;
     Payroll.charity := salary_components charity;
     Payroll.misc_deduction := salary_components misc_deduction;
     Payroll.additional_deduction :=
       salary_components additional_deduction;
     Payroll.deduction_reason := Form.deduction_reason form;
     Payroll.gross_salary := salary_components gross_salary;
     Payroll.total_deductions := salary_components total_deductions;
     Payroll.net_salary := salary_components net_salary;
     Payroll.hike_amount := Form.hike_amount form;
     Payroll.processed_by := current_user;
     Payroll.processed_at := utcnow |}.

(** [Payroll()] with [emp_id], [month] and [year] assigned; the other
    columns hold their defaults until they are assigned. *)
Definition new_payroll (emp_id month : string) (year : Z) : Payroll.t :=
  {| Payroll.emp_id := emp_id;
     Payroll.month := month;
     Payroll.year := year;
     Payroll.total_days := 30;
     Payroll.present_days := 30;
     Payroll.leaves_taken := 0.0;
     Payroll.paid_days := 30;
     Payroll.loss_of_pay_days := 0.0;
     Payroll.leave_balance_used := 0.0;
     Payroll.basic_salary := 0;
     Payroll.hra := 0;
     Payroll.special_allowance := 0;
     Payroll.conveyance_allowance := 0;
     Payroll.medical_allowance := 0;
     Payroll.overtime_amount := 0.0;
     Payroll.expenses := 0.0;
     Payroll.bonus := 0.0;
     Payroll.leave_balance_amount := 0.0;
     Payroll.pf_employee := 0;
     Payroll.pf_employer := 0;
     Payroll.vpf := 0.0;
     Payroll.pt := 0.0;
     Payroll.charity := 0.0;
     Payroll.misc_deduction := 0.0;
     Payroll.additional_deduction := 0.0;
     Payroll.deduction_reason := EmptyString;
     Payroll.gross_salary := 0;
     Payroll.total_deductions := 0;
     Payroll.net_salary := 0;
     Payroll.hike_amount := 0;
     Payroll.processed_by := EmptyString;
     Payroll.processed_at := utcnow |}.

Definition process_individual_payroll (form : Form.t) (st : DB)
  : outcome * DB :=
  let emp_id := Form.emp_id form in
  let leaves_taken := Form.leaves_taken form in
  let month := Form.month form in
  let year := Form.year form in
  (* Get employee data *)
  match first (is_employee emp_id) (employees st) with
  | None => (EmployeeNotFound, st)
  | Some employee =>
      (* Apply hike if specified *)
      let ctc_monthly :=
        Employee.ctc_monthly employee + Form.hike_amount form in
      (* Calculate salary components *)
      let salary_components :=
        calculate_salary_components ctc_monthly (Form.pf_opted form)
          (Form.deduction_amount form) in
      (* Calculate leave balance and attendance *)
      let '(leave_info, st) :=
        calculate_leave_balance employee leaves_taken month year st in
      let salary_components :=
        adjust_components form leave_info salary_components in
      (* Check if payroll already exists for this employee/month/year *)
      let existing := first (is_payroll emp_id month year) (payroll st) in
      let payroll' :=
        match existing with
        | Some _ =>
            (* Update existing payroll *)
            update_first (is_payroll emp_id month year)
              (assign_payroll form leave_info salary_components)
              (payroll st)
        | None =>
            (* Insert new payroll *)
            payroll st
            ++ [assign_payroll form leave_info salary_components
                  (new_payroll emp_id month year)]
        end in
      (Success,
       {| employees := employees st;
          payroll := payroll';
          leave_transactions := leave_transactions st |})
  end.

(** [/apply_hike]: the permanent hike. *)
Definition apply_hike (emp_id : string) (hike_amount : Q) (st : DB)
  : outcome * DB :=
  match first (is_employee emp_id) (employees st) with
  | None => (EmployeeNotFound, st)
  | Some _ =>
      (* Update employee CTC *)
      let hike (employee : Employee.t) : Employee.t :=
        let employee :=
          Employee.set_ctc_monthly
            (Employee.ctc_monthly employee + hike_amount) employee in
        Employee.set_ctc_annual
          (Employee.ctc_monthly employee * 12) employee in
      (Success,
       {| employees := update_first (is_employee emp_id) hike (employees st);
          payroll := payroll st;
          leave_transactions := leave_transactions st |})
  end.

End Request.

(** ** The values of one run

    What [process_individual_payroll] holds in its local variables once
    the employee is found, as functions of the request and the store. *)

Section Locals.

Variable current_user : string.
Variable utcnow : Z.
Variable form : Form.t.
Variable employee : Employee.t.
Variable st : DB.

(** [leave_info] *)
Definition leave_info_of : LeaveInfo.t :=
  fst (calculate_leave_balance utcnow employee (Form.leaves_taken form)
         (Form.month form) (Form.year form) st).

(** [salary_components], as [calculate_salary_components] returns it *)
Definition unadjusted_components_of : components :=
  calculate_salary_components
    (Employee.ctc_monthly employee + Form.hike_amount form)
    (Form.pf_opted form) (Form.deduction_amount form).

(** [salary_components], as it is stored *)
Definition salary_components_of : components :=
  adjust_components form leave_info_of unadjusted_components_of.

(** The payroll row that the run stores for its key. *)
Definition payroll_row_of : Payroll.t :=
  assign_payroll current_user utcnow form leave_info_of
    salary_components_of
    (new_payroll utcnow (Form.emp_id form) (Form.month form)
       (Form.year form)).

End Locals.

(** ** Runs *)

(** One posted request: who posts it, when, and the form. *)
Module Request.
Record t : Type := mk {
  current_user : string;
  utcnow : Z;
  form : Form.t
}.
End Request.

Definition run (st : DB) (r : Request.t) : DB :=
  snd (process_individual_payroll (Request.current_user r)
         (Request.utcnow r) (Request.form r) st).

Definition run_all (requests : list Request.t) (st : DB) : DB :=
  fold_left run requests st.

(** The natural key of a payroll row. *)
Definition payroll_key (p : Payroll.t) : string * string * Z :=
  (Payroll.emp_id p, Payroll.month p, Payroll.year p).

(** At most one payroll row per (employee, month, year). *)
Definition unique_keys (rows : list Payroll.t) : Prop :=
  NoDup (map payroll_key rows).

(** The sum of the earning components and of the deduction components of
    a breakdown. *)
Definition earnings (c : components) : Q :=
  c basic + c hra + c special_allowance + c conveyance_allowance
  + c medical_allowance + c overtime_amount + c expenses + c bonus
  + c leave_balance_amount.


(** The five keys that the loss-of-pay adjustment scales. *)
Definition scaled_key (k : key) : Prop :=
  In k [basic; hra; special_allowance; conveyance_allowance;
        medical_allowance].

(** The deduction lines and their total. *)
Definition deduction_key (k : key) : Prop :=
  In k [pf_employee; pf_employer; vpf; pt; charity; misc_deduction;
        additional_deduction; total_deductions].

(** ** Sample data *)

Module Sample.
Local Open Scope string_scope.

(** An employee as [/add_employee] creates one: the annual CTC is twelve
    times the monthly one. *)
Definition john (ctc_monthly leave_balance : Q) : Employee.t :=
  {| Employee.id := 1;
     Employee.emp_id := "EMP001";
     Employee.name := "John Doe";
     Employee.email := "john@example.com";
     Employee.designation := Some "Engineer";
     Employee.department := Some "IT";
     Employee.joining_date := None;
     Employee.ctc_monthly := ctc_monthly;
     Employee.ctc_annual := ctc_monthly * 12;
     Employee.pf_opted := true;
     Employee.leave_balance := leave_balance;
     Employee.created_by := "admin";
     Employee.created_at := 0 |}.

(** A database that holds one employee and nothing else. *)
Definition only (e : Employee.t) : DB :=
  {| employees := [e]; payroll := []; leave_transactions := [] |}.

(** A form for John with PF opted and no adjustment. *)
Definition form (leaves_taken : Q) (month : string) : Form.t :=
  {| Form.emp_id := "EMP001";
     Form.leaves_taken := leaves_taken;
     Form.month := month;
     Form.year := 2024;
     Form.pf_opted := true;
     Form.hike_amount := 0;
     Form.deduction_amount := 0;
     Form.deduction_reason := EmptyString;
     Form.overtime_amount := 0;
     Form.expenses := 0;
     Form.bonus := 0 |}.

Definition request (leaves_taken : Q) (month : string) : Request.t :=
  {| Request.current_user := "hr";
     Request.utcnow := 0;
     Request.form := form leaves_taken month |}.
End Sample.

(** ** Users and roles *)

Module User.
Record t : Type := mk {
  id : Z;
  username : string;
  email : string;
  password_hash : option string;
  role : string;
  created_at : Z
}.
End User.

(** What a route decorated with [role_required] answers. *)
Inductive response (A : Type) : Type :=
  | RedirectToLogin
  | NoPermission
  | Handled (a : A).

Arguments RedirectToLogin {A}.
Arguments NoPermission {A}.
Arguments Handled {A} a.

(** The decorator [role_required], applied to [roles] and then to [f]:
    [current_user] is [None] when nobody is logged in; the decorated
    function reads [current_user] too, so it is given the user. *)
Definition role_required {A : Type} (roles : list string)
    (f : User.t -> A) (current_user : option User.t) : response A :=
  match current_user with
  | None => RedirectToLogin
  | Some user =>
      if negb (existsb (String.eqb (User.role user)) roles)
      then NoPermission
      else Handled (f user)
  end.

(** ** The dict, by the names of its keys *)

Definition key_name (k : key) : string :=
  match k with
  | basic => "basic"
  | hra => "hra"
  | conveyance_allowance => "conveyance_allowance"
  | medical_allowance => "medical_allowance"
  | overtime_amount => "overtime_amount"
  | expenses => "expenses"
  | bonus => "bonus"
  | leave_balance_amount => "leave_balance_amount"
  | special_allowance => "special_allowance"
  | pf_employee => "pf_employee"
  | pf_employer => "pf_employer"
  | vpf => "vpf"
  | pt => "pt"
  | charity => "charity"
  | misc_deduction => "misc_deduction"
  | additional_deduction => "additional_deduction"
  | gross_salary => "gross_salary"
  | total_deductions => "total_deductions"
  | net_salary => "net_salary"
  end%string.

(** The keys of the dict that [calculate_salary_components] returns, in
    the order in which they are inserted. *)
Definition keys : list key :=
  [basic; hra; conveyance_allowance; medical_allowance; overtime_amount;
   expenses; bonus; leave_balance_amount; special_allowance; pf_employee;
   pf_employer; vpf; pt; charity; misc_deduction; additional_deduction;
   gross_salary; total_deductions; net_salary].

(** [components[name]] for a key given as a string: [None] is the
    [KeyError] of a name that is not a key. *)
Definition getitem (c : components) (name : string) : option Q :=
  option_map c (find (fun k => String.eqb (key_name k) name) keys).

(** ** Adding an employee *)

(** The fields of the form posted to [/add_employee]: the text fields
    after [.strip()], [joining_date] with its default filled in, and
    whether the PF box is ticked. *)
Module EmployeeForm.
Record t : Type := mk {
  emp_id : string;
  name : string;
  email : string;
  ctc_monthly_str : string;
  designation : string;
  department : string;
  joining_date_str : string;
  pf_opted : bool
}.
End EmployeeForm.

(** The message that [add_employee] flashes. *)
Inductive add_employee_flash : Set :=
  | EmployeeIdRequired
  | EmployeeNameRequired
  | EmailRequired
  | MonthlyCtcRequired
  | EmployeeIdExists
  | EmailExists
  | MonthlyCtcNotPositive
  | MonthlyCtcNotANumber
  | EmailNotValid
  | JoiningDateNotValid
  | EmployeeAdded.

(** [filter_by(email=email)] on [Employee]. *)
Definition has_email (email : string) (e : Employee.t) : bool :=
  String.eqb (Employee.email e) email.

(** [not s] for a string. *)
Definition is_empty (s : string) : bool :=
  match s with
  | EmptyString => true
  | String _ _ => false
  end.

Definition email_pattern : string :=
  "^[a-zA-Z0-9._%+-]+@[a-zA-Z0-9.-]+\.[a-zA-Z]{2,}$".

Section AddEmployee.

(** Library functions: [float(s)] and
    [datetime.strptime(s, fmt).date()], with [None] for [ValueError];
    [re.match(pattern, s)] as a truth value; and the primary key that the
    database gives a new [Employee] row. *)
Variable float : string -> option Q.
Variable strptime_date : string -> string -> option Z.
Variable re_match : string -> string -> bool.
Variable new_employee_id : list Employee.t -> Z.

Variable current_user : User.t.
Variable utcnow : Z.

Definition add_employee (form : EmployeeForm.t) (st : DB)
  : add_employee_flash * DB :=
  let emp_id := EmployeeForm.emp_id form in
  let name := EmployeeForm.name form in
  let email := EmployeeForm.email form in
  let ctc_monthly_str := EmployeeForm.ctc_monthly_str form in
  (* Validate required fields *)
  if is_empty emp_id then (EmployeeIdRequired, st)
  else if is_empty name then (EmployeeNameRequired, st)
  else if is_empty email then (EmailRequired, st)
  else if is_empty ctc_monthly_str then (MonthlyCtcRequired, st)
  else
    (* Check if employee ID already exists *)
    match first (is_employee emp_id) (employees st) with
    | Some _ => (EmployeeIdExists, st)
    | None =>
    (* Check if email already exists *)
    match first (has_email email) (employees st) with
    | Some _ => (EmailExists, st)
    | None =>
    (* Validate CTC amount *)
    match float ctc_monthly_str with
    | None => (MonthlyCtcNotANumber, st)
    | Some ctc_monthly =>
    if Qle_bool ctc_monthly 0 then (MonthlyCtcNotPositive, st)
    (* Validate email format *)
    else if negb (re_match email_pattern email) then (EmailNotValid, st)
    else
      (* Parse joining date *)
      match strptime_date (EmployeeForm.joining_date_str form) "%Y-%m-%d" with
      | None => (JoiningDateNotValid, st)
      | Some joining_date =>
          let ctc_annual := ctc_monthly * 12 in
          let new_employee :=
            {| Employee.id := new_employee_id (employees st);
               Employee.emp_id := emp_id;
               Employee.name := name;
               Employee.email := email;
               Employee.designation := Some (EmployeeForm.designation form);
               Employee.department := Some (EmployeeForm.department form);
               Employee.joining_date := Some joining_date;
               Employee.ctc_monthly := ctc_monthly;
               Employee.ctc_annual := ctc_annual;
               Employee.pf_opted := EmployeeForm.pf_opted form;
               Employee.leave_balance := 1.5;
               Employee.created_by := User.username current_user;
               Employee.created_at := utcnow |} in
          (EmployeeAdded,
           {| employees := employees st ++ [new_employee];
              payroll := payroll st;
              leave_transactions := leave_transactions st |})
      end
    end end end.

End AddEmployee.

(** ** Adding employees from a sheet *)

(** [s.lower()], on the letters A to Z. *)
Definition lower_ascii (a : ascii) : ascii :=
  let n := nat_of_ascii a in
  if ((65 <=? n) && (n <=? 90))%nat then ascii_of_nat (n + 32) else a.

Fixpoint lower (s : string) : string :=
  match s with
  | EmptyString => EmptyString
  | String a s => String (lower_ascii a) (lower s)
  end.

(** [s.endswith(suffix)] *)
Definition endswith (s suffix : string) : bool :=
  let n := String.length s in
  let m := String.length suffix in
  ((m <=? n)%nat && String.eqb (substring (n - m) m s) suffix)%bool.

(** A row of the sheet, cell by cell as [bulk_add_employees] reads it:
    [emp_id], [name] and [email] are the cell as a string, stripped, or
    the empty string for a cell without a value; [ctc_monthly] is
    [float(row['ctc_monthly'])], [None] when it raises (a CTC cell
    without a value reads as NaN, which is no number here: such a row is
    not among these rows); [pf_opted] is whether the cell reads yes, 1
    or true; [joining_date] is the date parsed from the cell, or
    today's. *)
Module EmployeeRow.
Record t : Type := mk {
  emp_id : string;
  name : string;
  email : string;
  ctc_monthly : option Q;
  pf_opted : bool;
  designation : string;
  department : string;
  joining_date : Z
}.
End EmployeeRow.

(** What [pd.read_excel] reads: the names of the columns and the rows. *)
Module Sheet.
Record t : Type := mk {
  columns : list string;
  rows : list EmployeeRow.t
}.
End Sheet.

(** The uploaded file: its name and its sheet ([None] when
    [pd.read_excel] raises). *)
Module EmployeeUpload.
Record t : Type := mk {
  filename : string;
  sheet : option Sheet.t
}.
End EmployeeUpload.

(** The message that [bulk_add_employees] flashes. *)
Inductive bulk_add_flash : Set :=
  | NoEmployeeFileSelected
  | NotAnExcelFile
  | MissingColumns (missing_columns : list string)
  | AddedAll (success_count : nat)
  | AddedSome (success_count error_count : nat)
  | AddedNone (error_count : nat)
  | FailedToProcess.

Definition required_columns : list string :=
  ["emp_id"; "name"; "email"; "ctc_monthly"]%string.

Section BulkAddEmployees.

Variable re_match : string -> string -> bool.
Variable new_employee_id : list Employee.t -> Z.
Variable current_user : User.t.
Variable utcnow : Z.

(** The body of the loop: whether the row counts as a success, and the
    session after it.  The session flushes before each query, so that a
    row sees the employees that earlier rows of the sheet added. *)
Definition bulk_add_row (st : DB) (row : EmployeeRow.t) : bool * DB :=
  let emp_id := EmployeeRow.emp_id row in
  let name := EmployeeRow.name row in
  let email := EmployeeRow.email row in
  (* Validate required fields *)
  if is_empty emp_id then (false, st)
  else if is_empty name then (false, st)
  else if is_empty email then (false, st)
  else
    (* Check for duplicates *)
    match first (is_employee emp_id) (employees st) with
    | Some _ => (false, st)
    | None =>
    match first (has_email email) (employees st) with
    | Some _ => (false, st)
    | None =>
    (* Validate CTC *)
    match EmployeeRow.ctc_monthly row with
    | None => (false, st)
    | Some ctc_monthly =>
    if Qle_bool ctc_monthly 0 then (false, st)
    (* Validate email format *)
    else if negb (re_match email_pattern email) then (false, st)
    else
      let ctc_annual := ctc_monthly * 12 in
      let new_employee :=
        {| Employee.id := new_employee_id (employees st);
           Employee.emp_id := emp_id;
           Employee.name := name;
           Employee.email := email;
           Employee.designation := Some (EmployeeRow.designation row);
           Employee.department := Some (EmployeeRow.department row);
           Employee.joining_date := Some (EmployeeRow.joining_date row);
           Employee.ctc_monthly := ctc_monthly;
           Employee.ctc_annual := ctc_annual;
           Employee.pf_opted := EmployeeRow.pf_opted row;
           Employee.leave_balance := 1.5;
           Employee.created_by := User.username current_user;
           Employee.created_at := utcnow |} in
      (true,
       {| employees := employees st ++ [new_employee];
          payroll := payroll st;
          leave_transactions := leave_transactions st |})
    end end end.

(** The loop over the rows: the two counts and the session. *)
Definition bulk_add_rows (rows : list EmployeeRow.t) (st : DB)
  : nat * nat * DB :=
  fold_left
    (fun '(success_count, error_count, st) row =>
       let '(ok, st) := bulk_add_row st row in
       if ok then (S success_count, error_count, st)
       else (success_count, S error_count, st))
    rows (O, O, st).

Definition bulk_add_employees (upload : option EmployeeUpload.t) (st : DB)
  : bulk_add_flash * DB :=
  match upload with
  | None => (NoEmployeeFileSelected, st)
  | Some file =>
      if is_empty (EmployeeUpload.filename file)
      then (NoEmployeeFileSelected, st)
      else
        (* Check file extension *)
        let filename := lower (EmployeeUpload.filename file) in
        if negb (endswith filename ".xlsx" || endswith filename ".xls")
        then (NotAnExcelFile, st)
        else
          match EmployeeUpload.sheet file with
          | None => (FailedToProcess, st)
          | Some df =>
              (* Validate required columns *)
              let missing_columns :=
                filter
                  (fun col =>
                     negb (existsb (String.eqb col) (Sheet.columns df)))
                  required_columns in
              match missing_columns with
              | _ :: _ => (MissingColumns missing_columns, st)
              | [] =>
                  let '(success_count, error_count, session) :=
                    bulk_add_rows (Sheet.rows df) st in
                  let st := if (0 <? success_count)%nat then session else st in
                  (match success_count, error_count with
                   | S _, O => AddedAll success_count
                   | S _, S _ => AddedSome success_count error_count
                   | O, _ => AddedNone error_count
                   end,
                   st)
              end
          end
  end.

End BulkAddEmployees.

(** ** Bulk payroll *)

(** The columns of [Payroll] that [bulk_process_payroll] assigns from the
    dict. *)
Inductive column : Set :=
  | col_basic_salary | col_hra | col_conveyance_allowance
  | col_medical_allowance | col_special_allowance | col_overtime_amount
  | col_expenses | col_bonus | col_leave_balance_amount
  | col_pf_employer | col_pf_employee
  | col_gross_salary | col_total_deductions | col_net_salary.

Definition column_eq_dec (a b : column) : {a = b} + {a <> b}.
Proof. decide equality. Defined.

Definition get_column (col : column) (p : Payroll.t) : Q :=
  match col with
  | col_basic_salary => Payroll.basic_salary p
  | col_hra => Payroll.hra p
  | col_conveyance_allowance => Payroll.conveyance_allowance p
  | col_medical_allowance => Payroll.medical_allowance p
  | col_special_allowance => Payroll.special_allowance p
  | col_overtime_amount => Payroll.overtime_amount p
  | col_expenses => Payroll.expenses p
  | col_bonus => Payroll.bonus p
  | col_leave_balance_amount => Payroll.leave_balance_amount p
  | col_pf_employer => Payroll.pf_employer p
  | col_pf_employee => Payroll.pf_employee p
  | col_gross_salary => Payroll.gross_salary p
  | col_total_deductions => Payroll.total_deductions p
  | col_net_salary => Payroll.net_salary p
  end.

(** The row with these columns replaced. *)
Definition with_columns (f : column -> Q) (p : Payroll.t) : Payroll.t :=
  {| Payroll.emp_id := Payroll.emp_id p;
     Payroll.month := Payroll.month p;
     Payroll.year := Payroll.year p;
     Payroll.total_days := Payroll.total_days p;
     Payroll.present_days := Payroll.present_days p;
     Payroll.leaves_taken := Payroll.leaves_taken p;
     Payroll.paid_days := Payroll.paid_days p;
     Payroll.loss_of_pay_days := Payroll.loss_of_pay_days p;
     Payroll.leave_balance_used := Payroll.leave_balance_used p;
     Payroll.basic_salary := f col_basic_salary;
     Payroll.hra := f col_hra;
     Payroll.special_allowance := f col_special_allowance;
     Payroll.conveyance_allowance := f col_conveyance_allowance;
     Payroll.medical_allowance := f col_medical_allowance;
     Payroll.overtime_amount := f col_overtime_amount;
     Payroll.expenses := f col_expenses;
     Payroll.bonus := f col_bonus;
     Payroll.leave_balance_amount := f col_leave_balance_amount;
     Payroll.pf_employee := f col_pf_employee;
     Payroll.pf_employer := f col_pf_employer;
     Payroll.vpf := Payroll.vpf p;
     Payroll.pt := Payroll.pt p;
     Payroll.charity := Payroll.charity p;
     Payroll.misc_deduction := Payroll.misc_deduction p;
     Payroll.additional_deduction := Payroll.additional_deduction p;
     Payroll.deduction_reason := Payroll.deduction_reason p;
     Payroll.gross_salary := f col_gross_salary;
     Payroll.total_deductions := f col_total_deductions;
     Payroll.net_salary := f col_net_salary;
     Payroll.hike_amount := Payroll.hike_amount p;
     Payroll.processed_by := Payroll.processed_by p;
     Payroll.processed_at := Payroll.processed_at p |}.

(** [row.<column> = v] *)
Definition set_column (col : column) (v : Q) (p : Payroll.t) : Payroll.t :=
  with_columns
    (fun c => if column_eq_dec col c then v else get_column c p) p.

(** The assignments [row.<column> = salary_components['<key>']] of
    [bulk_process_payroll], in the order of the source. *)
Definition bulk_assignments : list (column * string) :=
  [(col_basic_salary, "basic");
   (col_hra, "hra");
   (col_conveyance_allowance, "conveyance_allowance");
   (col_medical_allowance, "medical_allowance");
   (col_special_allowance, "special_allowance");
   (col_overtime_amount, "overtime_amount");
   (col_expenses, "expenses");
   (col_bonus, "bonus");
   (col_leave_balance_amount, "leave_balance_amount");
   (col_pf_employer, "employer_pf");
   (col_pf_employee, "employee_pf");
   (col_gross_salary, "gross_salary");
   (col_total_deductions, "total_deductions");
   (col_net_salary, "net_salary")]%string.

(** The assignments are made one after the other; a key that the dict
    does not have raises [KeyError], and what was assigned before stays
    assigned.  The result is the row and the key that raised, if any. *)
Fixpoint assign_columns (salary_components : components)
    (assignments : list (column * string)) (p : Payroll.t)
  : Payroll.t * option string :=
  match assignments with
  | [] => (p, None)
  | (col, name) :: rest =>
      match getitem salary_components name with
      | None => (p, Some name)
      | Some v => assign_columns salary_components rest (set_column col v p)
      end
  end.

(** The attendance columns, as [bulk_process_payroll] assigns them. *)
Definition bulk_attendance (days_worked : Z) (p : Payroll.t) : Payroll.t :=
  {| Payroll.emp_id := Payroll.emp_id p;
     Payroll.month := Payroll.month p;
     Payroll.year := Payroll.year p;
     Payroll.total_days := days_worked;
     Payroll.present_days := days_worked;
     Payroll.leaves_taken := 0;
     Payroll.paid_days := days_worked;
     Payroll.loss_of_pay_days :=
       if (days_worked <? 30)%Z then inject_Z (30 - days_worked) else 0;
     Payroll.leave_balance_used := 0;
     Payroll.basic_salary := Payroll.basic_salary p;
     Payroll.hra := Payroll.hra p;
     Payroll.special_allowance := Payroll.special_allowance p;
     Payroll.conveyance_allowance := Payroll.conveyance_allowance p;
     Payroll.medical_allowance := Payroll.medical_allowance p;
     Payroll.overtime_amount := Payroll.overtime_amount p;
     Payroll.expenses := Payroll.expenses p;
     Payroll.bonus := Payroll.bonus p;
     Payroll.leave_balance_amount := Payroll.leave_balance_amount p;
     Payroll.pf_employee := Payroll.pf_employee p;
     Payroll.pf_employer := Payroll.pf_employer p;
     Payroll.vpf := Payroll.vpf p;
     Payroll.pt := Payroll.pt p;
     Payroll.charity := Payroll.charity p;
     Payroll.misc_deduction := Payroll.misc_deduction p;
     Payroll.additional_deduction := Payroll.additional_deduction p;
     Payroll.deduction_reason := Payroll.deduction_reason p;
     Payroll.gross_salary := Payroll.gross_salary p;
     Payroll.total_deductions := Payroll.total_deductions p;
     Payroll.net_salary := Payroll.net_salary p;
     Payroll.hike_amount := Payroll.hike_amount p;
     Payroll.processed_by := Payroll.processed_by p;
     Payroll.processed_at := Payroll.processed_at p |}.

(** [row.hike_amount = hike_amount] (for a new row only),
    [row.processed_by = current_user.username] and
    [row.processed_at = datetime.utcnow()]. *)
Definition stamp (hike_amount : option Q) (processed_by : string)
    (processed_at : Z) (p : Payroll.t) : Payroll.t :=
  {| Payroll.emp_id := Payroll.emp_id p;
     Payroll.month := Payroll.month p;
     Payroll.year := Payroll.year p;
     Payroll.total_days := Payroll.total_days p;
     Payroll.present_days := Payroll.present_days p;
     Payroll.leaves_taken := Payroll.leaves_taken p;
     Payroll.paid_days := Payroll.paid_days p;
     Payroll.loss_of_pay_days := Payroll.loss_of_pay_days p;
     Payroll.leave_balance_used := Payroll.leave_balance_used p;
     Payroll.basic_salary := Payroll.basic_salary p;
     Payroll.hra := Payroll.hra p;
     Payroll.special_allowance := Payroll.special_allowance p;
     Payroll.conveyance_allowance := Payroll.conveyance_allowance p;
     Payroll.medical_allowance := Payroll.medical_allowance p;
     Payroll.overtime_amount := Payroll.overtime_amount p;
     Payroll.expenses := Payroll.expenses p;
     Payroll.bonus := Payroll.bonus p;
     Payroll.leave_balance_amount := Payroll.leave_balance_amount p;
     Payroll.pf_employee := Payroll.pf_employee p;
     Payroll.pf_employer := Payroll.pf_employer p;
     Payroll.vpf := Payroll.vpf p;
     Payroll.pt := Payroll.pt p;
     Payroll.charity := Payroll.charity p;
     Payroll.misc_deduction := Payroll.misc_deduction p;
     Payroll.additional_deduction := Payroll.additional_deduction p;
     Payroll.deduction_reason := Payroll.deduction_reason p;
     Payroll.gross_salary := Payroll.gross_salary p;
     Payroll.total_deductions := Payroll.total_deductions p;
     Payroll.net_salary := Payroll.net_salary p;
     Payroll.hike_amount :=
       match hike_amount with
       | Some v => v
       | None => Payroll.hike_amount p
       end;
     Payroll.processed_by := processed_by;
     Payroll.processed_at := processed_at |}.

(** One row of the uploaded sheet, after [str(row['emp_id'])],
    [int(float(row.get('days_worked', 30)))] and the test of [pf_opted]
    against yes, 1 and true. *)
Module BulkRow.
Record t : Type := mk {
  emp_id : string;
  days_worked : Z;
  pf_opted : bool
}.
End BulkRow.

(** The uploaded file: its name and what [pd.read_excel] reads from it
    ([None] when it raises); a row is [None] when one of its conversions
    raises. *)
Module Upload.
Record t : Type := mk {
  filename : string;
  rows : option (list (option BulkRow.t))
}.
End Upload.

(** The message that [bulk_process_payroll] flashes. *)
Inductive bulk_flash : Set :=
  | NoFileSelected
  | ErrorProcessingFile
  | ProcessedPayrolls (success_count error_count : nat).

Section BulkPayroll.

Variable current_user : User.t.
Variable utcnow : Z.
Variable month : string.
Variable year : Z.

(** Adjust for days worked: every key of the dict except [employer_pf]
    (which is none of its keys) is scaled. *)
Definition adjust_for_days_worked (days_worked : Z)
    (salary_components : components) : components :=
  if negb (days_worked =? 30)%Z then
    let ratio := inject_Z days_worked / 30.0 in
    fold_left
      (fun c k =>
         if negb (String.eqb (key_name k) "employer_pf")
         then setitem k (round2 (c k * ratio)) c
         else c)
      keys salary_components
  else salary_components.

(** The body of the loop: whether the row counts as a success, and the
    store after it. *)
Definition bulk_process_row (st : DB) (row : option BulkRow.t)
  : bool * DB :=
  match row with
  | None => (false, st)
  | Some row =>
      let emp_id := BulkRow.emp_id row in
      let days_worked := BulkRow.days_worked row in
      (* Get employee data *)
      match first (is_employee emp_id) (employees st) with
      | None => (false, st)
      | Some employee =>
          (* Calculate salary components *)
          let salary_components :=
            calculate_salary_components (Employee.ctc_monthly employee)
              (BulkRow.pf_opted row) 0.0 in
          (* Adjust for days worked *)
          let salary_components :=
            adjust_for_days_worked days_worked salary_components in
          (* Check if payroll already exists *)
          match first (is_payroll emp_id month year) (payroll st) with
          | Some existing =>
              (* Update existing payroll *)
              let existing := bulk_attendance days_worked existing in
              let '(existing, key_error) :=
                assign_columns salary_components bulk_assignments existing in
              let '(existing, ok) :=
                match key_error with
                | Some _ => (existing, false)
                | None =>
                    (stamp None (User.username current_user) utcnow existing,
                     true)
                end in
              (ok,
               {| employees := employees st;
                  payroll :=
                    update_first (is_payroll emp_id month year)
                      (fun _ => existing) (payroll st);
                  leave_transactions := leave_transactions st |})
          | None =>
              (* Insert new payroll *)
              let new_payroll := new_payroll utcnow emp_id month year in
              let new_payroll := bulk_attendance days_worked new_payroll in
              let '(new_payroll, key_error) :=
                assign_columns salary_components bulk_assignments
                  new_payroll in
              match key_error with
              | Some _ => (false, st)
              | None =>
                  (true,
                   {| employees := employees st;
                      payroll :=
                        payroll st
                        ++ [stamp (Some 0) (User.username current_user)
                              utcnow new_payroll];
                      leave_transactions := leave_transactions st |})
              end
          end
      end
  end.

Definition bulk_process_payroll (upload : option Upload.t) (st : DB)
  : bulk_flash * DB :=
  match upload with
  | None => (NoFileSelected, st)
  | Some file =>
      if is_empty (Upload.filename file) then (NoFileSelected, st)
      else
        match Upload.rows file with
        | None => (ErrorProcessingFile, st)
        | Some rows =>
            let '(success_count, error_count, st) :=
              fold_left
                (fun '(success_count, error_count, st) row =>
                   let '(ok, st) := bulk_process_row st row in
                   if ok then (S success_count, error_count, st)
                   else (success_count, S error_count, st))
                rows (O, O, st) in
            (ProcessedPayrolls success_count error_count, st)
        end
  end.

End BulkPayroll.

(** ** Who sees which payroll record *)

Definition is_admin (user : User.t) : bool :=
  String.eqb (User.role user) "admin".

(** [query(Payroll, Employee).join(Employee,
    Payroll.emp_id == Employee.emp_id)] *)
Definition join_employee (st : DB) : list (Payroll.t * Employee.t) :=
  flat_map
    (fun p =>
       map (pair p)
         (filter (fun e => String.eqb (Payroll.emp_id p) (Employee.emp_id e))
            (employees st)))
    (payroll st).

(** The record that [api_payslip] renders: an admin sees all payroll
    records, the others those they processed. *)
Definition api_payslip_record (current_user : User.t)
    (emp_id month : string) (year : Z) (st : DB)
  : option (Payroll.t * Employee.t) :=
  if is_admin current_user then
    first (fun pe => is_payroll emp_id month year (fst pe))
      (join_employee st)
  else
    first
      (fun pe =>
         is_payroll emp_id month year (fst pe)
         && String.eqb (Payroll.processed_by (fst pe))
              (User.username current_user))
      (join_employee st).

(** The employee and the payroll record that [download_payslip] renders;
    [None] is the answer that one of them was not found. *)
Definition download_payslip_records (current_user : User.t)
    (emp_id month : string) (year : Z) (st : DB)
  : option (Employee.t * Payroll.t) :=
  let '(employee, payroll) :=
    if is_admin current_user then
      (first (is_employee emp_id) (employees st),
       first (is_payroll emp_id month year) (payroll st))
    else
      (first
         (fun e =>
            is_employee emp_id e
            && String.eqb (Employee.created_by e)
                 (User.username current_user))
         (employees st),
       first
         (fun p =>
            is_payroll emp_id month year p
            && String.eqb (Payroll.processed_by p)
                 (User.username current_user))
         (payroll st)) in
  match employee, payroll with
  | Some e, Some p => Some (e, p)
  | _, _ => None
  end.

(** ** The routes that write *)

Inductive post : Type :=
  | AddEmployee (form : EmployeeForm.t)
  | ProcessIndividualPayroll (form : Form.t)
  | BulkProcessPayroll (upload : option Upload.t) (month : string) (year : Z)
  | ApplyHike (emp_id : string) (hike_amount : Q)
  | BulkAddEmployees (upload : option EmployeeUpload.t).

(** The store that a request leaves: the one its function commits, or the
    one it found when the decorator answers itself. *)
Definition committed {F : Type} (st : DB) (r : response (F * DB)) : DB :=
  match r with
  | Handled (_, st') => st'
  | _ => st
  end.

Section Routes.

Variable float : string -> option Q.
Variable strptime_date : string -> string -> option Z.
Variable re_match : string -> string -> bool.
Variable new_employee_id : list Employee.t -> Z.

(** A request to one of the five routes that write, each behind its
    [role_required]. *)
Definition serve (current_user : option User.t) (utcnow : Z) (r : post)
    (st : DB) : DB :=
  match r with
  | AddEmployee form =>
      committed st
        (role_required ["admin"; "hr"]%string
           (fun user =>
              add_employee float strptime_date re_match new_employee_id
                user utcnow form st)
           current_user)
  | ProcessIndividualPayroll form =>
      committed st
        (role_required ["admin"; "hr"; "accounts"]%string
           (fun user =>
              process_individual_payroll (User.username user) utcnow form st)
           current_user)
  | BulkProcessPayroll upload month year =>
      committed st
        (role_required ["admin"; "hr"; "accounts"]%string
           (fun user => bulk_process_payroll user utcnow month year upload st)
           current_user)
  | ApplyHike emp_id hike_amount =>
      committed st
        (role_required ["admin"]%string
           (fun _ => apply_hike emp_id hike_amount st)
           current_user)
  | BulkAddEmployees upload =>
      committed st
        (role_required ["admin"; "hr"]%string
           (fun user =>
              bulk_add_employees re_match new_employee_id user utcnow upload
                st)
           current_user)
  end.

(** One request: who makes it, when, and what it posts. *)
Record visit : Type := mkVisit {
  visitor : option User.t;
  clock : Z;
  posted : post
}.

Definition serve_all (visits : list visit) (st : DB) : DB :=
  fold_left (fun st v => serve (visitor v) (clock v) (posted v) st) visits st.


End Routes.

(** What the assignments of [bulk_process_payroll] leave of a row: the
    nine earnings columns come from the dict, the other columns are those
    of the row. *)
Definition with_earnings (c : components) (p : Payroll.t) : Payroll.t :=
  with_columns
    (fun col =>
       match col with
       | col_basic_salary => c basic
       | col_hra => c hra
       | col_conveyance_allowance => c conveyance_allowance
       | col_medical_allowance => c medical_allowance
       | col_special_allowance => c special_allowance
       | col_overtime_amount => c overtime_amount
       | col_expenses => c expenses
       | col_bonus => c bonus
       | col_leave_balance_amount => c leave_balance_amount
       | other => get_column other p
       end)
    p.

(** ** More sample data *)

Module Demo.
Local Open Scope string_scope.

Definition user (username role : string) : User.t :=
  {| User.id := 1;
     User.username := username;
     User.email := username ++ "@payrollpro.com";
     User.password_hash := None;
     User.role := role;
     User.created_at := 0 |}.

Definition admin : User.t := user "admin" "admin".
Definition hr : User.t := user "hr" "hr".
Definition accounts : User.t := user "accounts" "accounts".

(** John after January 2024 was processed by the user hr, with no leave
    taken. *)
Definition january : DB :=
  run (Sample.only (Sample.john 50000 1.5)) (Sample.request 0 "January").

(** A sheet with one row for John. *)
Definition sheet (days_worked : Z) : option Upload.t :=
  Some {| Upload.filename := "payroll.xlsx";
          Upload.rows :=
            Some [Some {| BulkRow.emp_id := "EMP001";
                          BulkRow.days_worked := days_worked;
                          BulkRow.pf_opted := true |}] |}.

(** The form that adds Asha. *)
Definition asha : EmployeeForm.t :=
  {| EmployeeForm.emp_id := "EMP002";
     EmployeeForm.name := "Asha Rao";
     EmployeeForm.email := "asha@example.com";
     EmployeeForm.ctc_monthly_str := "40000";
     EmployeeForm.designation := "Analyst";
     EmployeeForm.department := "Finance";
     EmployeeForm.joining_date_str := "2024-01-01";
     EmployeeForm.pf_opted := true |}.

(** Library functions that read these two strings (and accept any
    email). *)
Definition float (s : string) : option Q :=
  if String.eqb s "40000" then Some 40000 else None.
Definition strptime_date (s fmt : string) : option Z :=
  if String.eqb s "2024-01-01" then Some 19723%Z else None.
Definition re_match (pattern s : string) : bool := true.
Definition new_employee_id (rows : list Employee.t) : Z :=
  Z.of_nat (S (length rows)).



(** Four requests: the admin adds Asha, hr processes January for John,
    accounts uploads a sheet for January, the admin raises John's CTC. *)
Definition visits : list visit :=
  [ mkVisit (Some admin) 1 (AddEmployee asha);
    mkVisit (Some hr) 2 (ProcessIndividualPayroll (Sample.form 0 "January"));
    mkVisit (Some accounts) 3 (BulkProcessPayroll (sheet 15) "January" 2024);
    mkVisit (Some admin) 4 (ApplyHike "EMP001" 5000) ].
End Demo.

(** The roles named in the [role_required] of each route. *)
Definition allowed_roles (r : post) : list string :=
  match r with
  | AddEmployee _ => ["admin"; "hr"]
  | ProcessIndividualPayroll _ => ["admin"; "hr"; "accounts"]
  | BulkProcessPayroll _ _ _ => ["admin"; "hr"; "accounts"]
  | ApplyHike _ _ => ["admin"]
  | BulkAddEmployees _ => ["admin"; "hr"]
  end%string.

(** ** Invariants of the store *)

(** No two employees share an employee ID, and no two share an email. *)
Definition distinct_employees (st : DB) : Prop :=
  NoDup (map Employee.emp_id (employees st))
  /\ NoDup (map Employee.email (employees st)).

(** Every payroll row and every leave transaction belongs to a stored
    employee. *)
Definition referential (st : DB) : Prop :=
  (forall p, In p (payroll st) ->
     In (Payroll.emp_id p) (map Employee.emp_id (employees st)))
  /\ (forall t, In t (leave_transactions st) ->
        In (LeaveTransaction.emp_id t) (map Employee.emp_id (employees st))).

(** The annual CTC of every employee is twelve times the monthly one. *)
Definition annual_is_twelve_months (st : DB) : Prop :=
  forall e, In e (employees st) ->
    Employee.ctc_annual e = Employee.ctc_monthly e * 12.

(** The columns of an employee that say who it is. *)
Definition particulars (e : Employee.t) :=
  (Employee.id e, Employee.emp_id e, Employee.name e, Employee.email e,
   Employee.designation e, Employee.department e, Employee.joining_date e,
   Employee.pf_opted e, Employee.created_by e, Employee.created_at e).

(** The two CTC columns of an employee. *)
Definition ctc (e : Employee.t) : Q * Q :=
  (Employee.ctc_monthly e, Employee.ctc_annual e).

Definition is_hike (r : post) : bool :=
  match r with
  | ApplyHike _ _ => true
  | _ => false
  end.

(** An employee as the two routes that add employees create one, under
    the name of the logged-in user. *)
Definition added_by (username : string) (e : Employee.t) : Prop :=
  Employee.created_by e = username
  /\ Employee.ctc_annual e = Employee.ctc_monthly e * 12
  /\ Employee.leave_balance e = 1.5.

(** The empty database. *)
Definition empty_db : DB :=
  {| employees := []; payroll := []; leave_transactions := [] |}.

(** ** Rounding *)

(** Linear arithmetic over [Q] where integers occur injected: each
    injection is first named, so that it counts as an unknown. *)
Ltac name_injections :=
  repeat match goal with
    | H : context [inject_Z ?k] |- _ =>
        let z := fresh "z" in set (z := inject_Z k) in *; clearbody z
    | |- context [inject_Z ?k] =>
        let z := fresh "z" in set (z := inject_Z k) in *; clearbody z
    end.
Ltac qlra := name_injections; lra.

Section Rounding.

Lemma hundredths (k : Z) : (k # 100) * 100 == inject_Z k.
Proof. unfold Qeq, Qmult, inject_Z; simpl; lia. Qed.

Lemma hundredths_inv (x : Q) (k : Z) : x * 100 == inject_Z k -> x == k # 100.
Proof.
  destruct x as [a b]. unfold Qeq, Qmult, inject_Z. simpl.
  rewrite Pos.mul_1_r. lia.
Qed.

(** [round2] returns a whole number of hundredths, at most half a
    hundredth away from its argument. *)
Lemma round2_hundredth (x : Q) :
  exists k : Z, round2 x = k # 100
                /\ inject_Z k - (1 # 2) <= x * 100 <= inject_Z k + (1 # 2).
Proof.
  unfold round2.
  pose proof (Qfloor_le (x * 100)) as Hlo.
  pose proof (Qlt_floor (x * 100)) as Hhi.
  rewrite inject_Z_plus in Hhi.
  change (inject_Z 1) with 1 in Hhi.
  destruct (Qcompare_spec (x * 100 - inject_Z (Qfloor (x * 100))) (1 # 2))
    as [He | Hl | Hg].
  - destruct (Z.even (Qfloor (x * 100))).
    + exists (Qfloor (x * 100)). split; [reflexivity | qlra].
    + exists (Qfloor (x * 100) + 1)%Z. split; [reflexivity |].
      rewrite inject_Z_plus; change (inject_Z 1) with 1; qlra.
  - exists (Qfloor (x * 100)). split; [reflexivity | qlra].
  - exists (Qfloor (x * 100) + 1)%Z. split; [reflexivity |].
    rewrite inject_Z_plus; change (inject_Z 1) with 1; qlra.
Qed.

Lemma round2_two_decimals (x : Q) : two_decimals (round2 x).
Proof.
  destruct (round2_hundredth x) as (k & -> & _). exists k. reflexivity.
Qed.

Lemma round2_error (x : Q) : Qabs (round2 x - x) <= 0.005.
Proof.
  destruct (round2_hundredth x) as (k & -> & Hk).
  pose proof (hundredths k) as Hh.
  apply Qabs_Qle_condition. set (r := k # 100) in *. clearbody r. qlra.
Qed.

(** Rounding does not move an amount that already has two decimals. *)
Lemma round2_fixed (x : Q) : two_decimals x -> round2 x == x.
Proof.
  intros [k Hk]. unfold round2.
  assert (Hx : x * 100 == inject_Z k) by (rewrite Hk; apply hundredths).
  rewrite (Qfloor_comp _ _ Hx), Qfloor_Z.
  assert (Hc : (x * 100 - inject_Z k ?= 1 # 2) = Lt)
    by (rewrite <- Qlt_alt; clear Hk; qlra).
  rewrite Hc. symmetry. exact Hk.
Qed.

(** Equal arguments give the very same result. *)
Lemma round2_ext (x y : Q) : x == y -> round2 x = round2 y.
Proof.
  intros H. unfold round2.
  assert (Hm : x * 100 == y * 100) by (rewrite H; reflexivity).
  rewrite (Qfloor_comp _ _ Hm).
  assert (Hr : x * 100 - inject_Z (Qfloor (y * 100))
               == y * 100 - inject_Z (Qfloor (y * 100)))
    by (rewrite Hm; reflexivity).
  rewrite Hr. reflexivity.
Qed.

Lemma two_decimals_ext (x y : Q) : x == y -> two_decimals x -> two_decimals y.
Proof. intros H [k Hk]. exists k. rewrite <- H. exact Hk. Qed.


Lemma two_decimals_minus (x y : Q) :
  two_decimals x -> two_decimals y -> two_decimals (x - y).
Proof.
  intros [a Ha] [b Hb]. exists (a - b)%Z.
  apply hundredths_inv.
  unfold Z.sub. rewrite inject_Z_plus, inject_Z_opp, Ha, Hb.
  pose proof (hundredths a). pose proof (hundredths b).
  set (p := a # 100) in *. set (q := b # 100) in *. clearbody p q. qlra.
Qed.

Lemma two_decimals_whole (n : Z) : two_decimals (inject_Z n).
Proof.
  exists (100 * n)%Z. apply hundredths_inv. rewrite inject_Z_mult.
  change (inject_Z 100) with 100. qlra.
Qed.

End Rounding.

(** ** The salary breakdown *)

Section Salary.

Variable ctc_monthly : Q.
Variable pf_opted : bool.
Variable deduction : Q.

Let c := calculate_salary_components ctc_monthly pf_opted deduction.

(** The value under each key, read off the definition. *)

Lemma basic_eq : c basic = round2 (ctc_monthly * 0.50).
Proof. subst c. destruct pf_opted; reflexivity. Qed.

Lemma hra_eq : c hra = round2 (c basic * 0.20).
Proof. subst c. destruct pf_opted; reflexivity. Qed.

Lemma conveyance_eq : c conveyance_allowance = round2 (ctc_monthly * 0.05).
Proof. subst c. destruct pf_opted; reflexivity. Qed.

Lemma medical_eq : c medical_allowance = round2 (ctc_monthly * 0.05).
Proof. subst c. destruct pf_opted; reflexivity. Qed.

Lemma special_eq :
  c special_allowance
  = round2 (ctc_monthly
            - (c basic + c hra + c conveyance_allowance
               + c medical_allowance)).
Proof. subst c. destruct pf_opted; reflexivity. Qed.

Lemma pf_employee_eq :
  c pf_employee
  = if pf_opted then round2 (min (c basic * 0.12) 1800) else 0.
Proof. subst c. destruct pf_opted; reflexivity. Qed.

Lemma pf_employer_eq :
  c pf_employer
  = if pf_opted then round2 (min (c basic * 0.12) 1800) else 0.
Proof. subst c. destruct pf_opted; reflexivity. Qed.

Lemma variable_eq :
  c overtime_amount = 0.0 /\ c expenses = 0.0 /\ c bonus = 0.0
  /\ c leave_balance_amount = 0.0.
Proof. subst c. destruct pf_opted; repeat split. Qed.

Lemma other_deductions_eq :
  c vpf = 0.0 /\ c pt = 0.0 /\ c charity = 0.0 /\ c misc_deduction = 0.0
  /\ c additional_deduction = deduction.
Proof. subst c. destruct pf_opted; repeat split. Qed.


Lemma total_deductions_eq :
  c total_deductions
  = round2 (c pf_employee + c vpf + c pt + c charity + c misc_deduction
            + c additional_deduction).
Proof. subst c. destruct pf_opted; reflexivity. Qed.


End Salary.

Lemma round2_exact (x : Q) (k : Z) : x * 100 == inject_Z k -> round2 x == x.
Proof. intros H. apply round2_fixed. exists k. apply hundredths_inv, H. Qed.

Lemma round2_near (x : Q) : - 0.005 <= round2 x - x <= 0.005.
Proof.
  pose proof (proj1 (Qabs_Qle_condition _ _) (round2_error x)). lra.
Qed.

(** C5.  For every positive monthly CTC (no loss of pay), each part of
    the split is its nominal share within the rounding epsilon of half a
    paisa: basic is 50% of the CTC, HRA 20% of basic, conveyance and
    medical 5% of the CTC each, the special allowance is the CTC less
    these four, and the five add up to the CTC.  When the CTC is a
    multiple of 0.20 (any whole number of rupees is) nothing is rounded
    and all six equations hold exactly. *)
Theorem C5_salary_split_balances
    (ctc_monthly : Q) (pf_opted : bool) (deduction : Q) :
  0 < ctc_monthly ->
  let c := calculate_salary_components ctc_monthly pf_opted deduction in
  (Qabs (c basic - ctc_monthly * 0.50) <= 0.005
   /\ Qabs (c hra - c basic * 0.20) <= 0.005
   /\ Qabs (c conveyance_allowance - ctc_monthly * 0.05) <= 0.005
   /\ Qabs (c medical_allowance - ctc_monthly * 0.05) <= 0.005
   /\ Qabs (c special_allowance
            - (ctc_monthly - c basic - c hra - c conveyance_allowance
               - c medical_allowance)) <= 0.005
   /\ Qabs (c basic + c hra + c conveyance_allowance + c medical_allowance
            + c special_allowance - ctc_monthly) <= 0.005)
  /\ (forall n : Z, ctc_monthly * 5 == inject_Z n ->
      c basic == ctc_monthly * 0.50
      /\ c hra == c basic * 0.20
      /\ c conveyance_allowance == ctc_monthly * 0.05
      /\ c medical_allowance == ctc_monthly * 0.05
      /\ c special_allowance
         == ctc_monthly - c basic - c hra - c conveyance_allowance
            - c medical_allowance
      /\ c basic + c hra + c conveyance_allowance + c medical_allowance
         + c special_allowance == ctc_monthly).
Proof.
  intros _ c.
  pose proof (basic_eq ctc_monthly pf_opted deduction) as Eb.
  pose proof (hra_eq ctc_monthly pf_opted deduction) as Eh.
  pose proof (conveyance_eq ctc_monthly pf_opted deduction) as Ec.
  pose proof (medical_eq ctc_monthly pf_opted deduction) as Em.
  pose proof (special_eq ctc_monthly pf_opted deduction) as Es.
  fold c in Eb, Eh, Ec, Em, Es.
  split.
  - pose proof (round2_near (ctc_monthly * 0.50)) as Hb.
    pose proof (round2_near (c basic * 0.20)) as Hh.
    pose proof (round2_near (ctc_monthly * 0.05)) as Hc.
    pose proof (round2_near
                  (ctc_monthly
                   - (c basic + c hra + c conveyance_allowance
                      + c medical_allowance))) as Hs.
    rewrite <- Eb in Hb. rewrite <- Eh in Hh. rewrite <- Es in Hs.
    assert (Hm := Hc). rewrite <- Ec in Hc. rewrite <- Em in Hm.
    repeat split; apply Qabs_Qle_condition; lra.
  - intros n Hn.
    assert (Hb : c basic == ctc_monthly * 0.50).
    { rewrite Eb. apply (round2_exact _ (10 * n)).
      rewrite inject_Z_mult. change (inject_Z 10) with 10. qlra. }
    assert (Hh : c hra == c basic * 0.20).
    { rewrite Eh. apply (round2_exact _ (2 * n)).
      rewrite inject_Z_mult. change (inject_Z 2) with 2. qlra. }
    assert (Hc : c conveyance_allowance == ctc_monthly * 0.05).
    { rewrite Ec. apply (round2_exact _ n). qlra. }
    assert (Hm : c medical_allowance == ctc_monthly * 0.05).
    { rewrite Em. apply (round2_exact _ n). qlra. }
    assert (Hs : c special_allowance
                 == ctc_monthly
                    - (c basic + c hra + c conveyance_allowance
                       + c medical_allowance)).
    { rewrite Es. apply (round2_exact _ (6 * n)).
      rewrite inject_Z_mult. change (inject_Z 6) with 6. qlra. }
    repeat split; lra.
Qed.

Lemma C5_salary_split_balances_witness :
  let c := calculate_salary_components 50000 true 0 in
  c basic == 25000 /\ c hra == 5000 /\ c conveyance_allowance == 2500
  /\ c medical_allowance == 2500 /\ c special_allowance == 15000
  /\ c basic + c hra + c conveyance_allowance + c medical_allowance
     + c special_allowance == 50000.
Proof.
  intros c.
  assert (Hpos : 0 < 50000) by reflexivity.
  destruct (C5_salary_split_balances 50000 true 0 Hpos) as [_ Hexact].
  destruct (Hexact 250000%Z ltac:(reflexivity))
    as (Hb & Hh & Hc & Hm & Hs & Hsum).
  fold c in Hb, Hh, Hc, Hm, Hs, Hsum.
  repeat split; try assumption; lra.
Defined.

(** ** Provident fund *)

Lemma min_cases (a b : Q) :
  (a <= b /\ min a b == a) \/ (b <= a /\ min a b == b).
Proof.
  unfold min. destruct (Q.min_spec a b) as [[H E] | [H E]]; [left | right];
    split; try assumption; lra.
Qed.

(** With a CTC of 25000.02 the basic salary is 12500.01 and 12% of it is
    1500.0012; the PF stored is 1500.00. *)
Lemma C6_pf_counterexample :
  let c := calculate_salary_components 25000.02 true 0 in
  c basic == 12500.01
  /\ min (c basic * 0.12) 1800 == 1500.0012
  /\ c pf_employee == 1500
  /\ ~ c pf_employee == min (c basic * 0.12) 1800.
Proof.
  vm_compute. repeat split; intro H; discriminate H.
Qed.

(** C6 (amended).  With PF opted, the employee PF is min(basic * 12%, 1800)
    rounded to two decimals, the employer PF is the same amount, and both
    equal min(basic * 12%, 1800) itself whenever that has at most two
    decimals, as it has when the cap of 1800 applies; without PF both are
    0.  A CTC of 50000 with PF gives 1800. *)
Theorem C6_provident_fund
    (ctc_monthly : Q) (pf_opted : bool) (deduction : Q) :
  let c := calculate_salary_components ctc_monthly pf_opted deduction in
  (if pf_opted then
     c pf_employee = round2 (min (c basic * 0.12) 1800)
     /\ c pf_employer = c pf_employee
     /\ Qabs (c pf_employee - min (c basic * 0.12) 1800) <= 0.005
     /\ (two_decimals (c basic * 0.12) ->
         c pf_employee == min (c basic * 0.12) 1800)
     /\ (1800 <= c basic * 0.12 -> c pf_employee == 1800)
   else
     c pf_employee == 0 /\ c pf_employer == 0)
  /\ (ctc_monthly == 50000 -> pf_opted = true -> c pf_employee == 1800).
Proof.
  intros c.
  pose proof (pf_employee_eq ctc_monthly pf_opted deduction) as Ee.
  pose proof (pf_employer_eq ctc_monthly pf_opted deduction) as Er.
  pose proof (basic_eq ctc_monthly pf_opted deduction) as Eb.
  fold c in Ee, Er, Eb.
  assert (Hcap : 1800 <= c basic * 0.12 ->
                 round2 (min (c basic * 0.12) 1800) == 1800).
  { intros Hle.
    rewrite (round2_ext (min (c basic * 0.12) 1800) 1800).
    - reflexivity.
    - destruct (min_cases (c basic * 0.12) 1800) as [[H E] | [H E]];
        rewrite E; lra. }
  split.
  - destruct pf_opted.
    + rewrite Er, Ee. repeat split.
      * apply round2_error.
      * intros H2. apply round2_fixed.
        destruct (min_cases (c basic * 0.12) 1800) as [[H E] | [H E]];
          apply (two_decimals_ext _ _ (Qeq_sym _ _ E)).
        -- exact H2.
        -- apply (two_decimals_whole 1800).
      * exact Hcap.
    + rewrite Ee, Er. split; reflexivity.
  - intros Hctc Hpf. rewrite Ee, Hpf. apply Hcap.
    rewrite Eb, (round2_ext _ (50000 * 0.50)) by (rewrite Hctc; reflexivity).
    vm_compute. discriminate.
Qed.

(** ** Rows of a table *)

Section Rows.

Context {A : Type}.
Variable filter_by : A -> bool.

Lemma first_update_first (f : A -> A) (rows : list A) (r : A) :
  first filter_by rows = Some r ->
  filter_by (f r) = true ->
  first filter_by (update_first filter_by f rows) = Some (f r).
Proof.
  unfold first. induction rows as [| x rows IH]; simpl; [discriminate |].
  destruct (filter_by x) eqn:Hx.
  - intros [= ->] Hf. simpl. rewrite Hf. reflexivity.
  - intros Hr Hf. simpl. rewrite Hx. apply IH; assumption.
Qed.

Lemma update_first_none (f : A -> A) (rows : list A) :
  first filter_by rows = None -> update_first filter_by f rows = rows.
Proof.
  unfold first. induction rows as [| x rows IH]; simpl; [reflexivity |].
  destruct (filter_by x); [discriminate |].
  intros H. rewrite IH by assumption. reflexivity.
Qed.

Lemma first_app_new (rows : list A) (r : A) :
  first filter_by rows = None ->
  filter_by r = true ->
  first filter_by (rows ++ [r]) = Some r.
Proof.
  unfold first. induction rows as [| x rows IH]; simpl.
  - intros _ ->. reflexivity.
  - destruct (filter_by x); [discriminate | exact IH].
Qed.

Lemma first_some (rows : list A) (r : A) :
  first filter_by rows = Some r -> In r rows /\ filter_by r = true.
Proof. unfold first. apply find_some. Qed.

Lemma length_update_first (f : A -> A) (rows : list A) :
  length (update_first filter_by f rows) = length rows.
Proof.
  induction rows as [| x rows IH]; simpl; [reflexivity |].
  destruct (filter_by x); simpl; congruence.
Qed.

(** Updating a row in place leaves every projection that the update
    preserves as it was, row by row. *)
Lemma map_update_first {B : Type} (proj : A -> B) (f : A -> A)
    (rows : list A) :
  (forall r, proj (f r) = proj r) ->
  map proj (update_first filter_by f rows) = map proj rows.
Proof.
  intros Hf. induction rows as [| x rows IH]; simpl; [reflexivity |].
  destruct (filter_by x); simpl; congruence.
Qed.

End Rows.

(** ** Leave settlement *)

Lemma max_cases (a b : Q) :
  (b <= a /\ max a b == a) \/ (a <= b /\ max a b == b).
Proof.
  unfold max. destruct (Q.max_spec a b) as [[H E] | [H E]]; [right | left];
    split; try assumption; lra.
Qed.

Section Leave.

Variable utcnow : Z.
Variable employee : Employee.t.
Variable leaves_taken : Q.
Variable month : string.
Variable year : Z.
Variable st : DB.

Let available := starting_balance employee st + monthly_allocation.
Let settled := calculate_leave_balance utcnow employee leaves_taken month
                 year st.
Let used := min leaves_taken available.

(** The transaction that the settlement writes. *)
Let written : LeaveTransaction.t :=
  {| LeaveTransaction.emp_id := Employee.emp_id employee;
     LeaveTransaction.month := month;
     LeaveTransaction.year := year;
     LeaveTransaction.leaves_allocated := monthly_allocation;
     LeaveTransaction.leaves_used := used;
     LeaveTransaction.balance_before := available - monthly_allocation;
     LeaveTransaction.balance_after := available - used;
     LeaveTransaction.created_at := utcnow |}.

Lemma settled_info :
  fst settled
  = {| LeaveInfo.leave_balance_used := used;
       LeaveInfo.loss_of_pay_days := max 0 (leaves_taken - available);
       LeaveInfo.remaining_balance := available - used;
       LeaveInfo.paid_days := 30 - max 0 (leaves_taken - available);
       LeaveInfo.present_days := 30 - leaves_taken |}.
Proof.
  subst settled used available.
  unfold calculate_leave_balance, starting_balance.
  destruct (prev_transaction (Employee.emp_id employee) st); reflexivity.
Qed.

Lemma settled_store :
  snd settled
  = {| employees :=
         update_first (is_employee (Employee.emp_id employee))
           (Employee.set_leave_balance (available - used)) (employees st);
       payroll := payroll st;
       leave_transactions := leave_transactions st ++ [written] |}.
Proof.
  subst settled written used available.
  unfold calculate_leave_balance, starting_balance.
  destruct (prev_transaction (Employee.emp_id employee) st); reflexivity.
Qed.

(** The split of the leave taken into a covered and an unpaid part (for
    any [leaves_taken], negative ones included). *)
Lemma leave_split :
  LeaveInfo.leave_balance_used (fst settled)
  + LeaveInfo.loss_of_pay_days (fst settled) == leaves_taken
  /\ LeaveInfo.leave_balance_used (fst settled) <= available
  /\ 0 <= LeaveInfo.loss_of_pay_days (fst settled).
Proof.
  rewrite settled_info. simpl. subst used.
  destruct (min_cases leaves_taken available) as [[H1 E1] | [H1 E1]];
    destruct (max_cases 0 (leaves_taken - available)) as [[H2 E2] | [H2 E2]];
    rewrite E1, E2; repeat split; lra.
Qed.

End Leave.

(** C2.  For every employee and every [leaves_taken >= 0], the settlement
    computes available = balance before this month + 1.5,
    used = min(leaves_taken, available),
    loss_of_pay_days = max(0, leaves_taken - available),
    remaining_balance = available - used, and returns
    paid_days = 30 - loss_of_pay_days and present_days = 30 - leaves_taken.
    With a balance of 0 before and 2 days taken: available 1.5, used 1.5,
    loss of pay 0.5, remaining 0. *)
Theorem C2_leave_settlement
    (utcnow : Z) (employee : Employee.t) (leaves_taken : Q)
    (month : string) (year : Z) (st : DB) :
  0 <= leaves_taken ->
  let balance_before := starting_balance employee st in
  let available := balance_before + 1.5 in
  let info :=
    fst (calculate_leave_balance utcnow employee leaves_taken month year st) in
  LeaveInfo.leave_balance_used info = min leaves_taken available
  /\ LeaveInfo.loss_of_pay_days info = max 0 (leaves_taken - available)
  /\ LeaveInfo.remaining_balance info
     = available - LeaveInfo.leave_balance_used info
  /\ LeaveInfo.paid_days info = 30 - LeaveInfo.loss_of_pay_days info
  /\ LeaveInfo.present_days info = 30 - leaves_taken
  /\ (balance_before == 0 -> leaves_taken == 2 ->
      available == 1.5
      /\ LeaveInfo.leave_balance_used info == 1.5
      /\ LeaveInfo.loss_of_pay_days info == 0.5
      /\ LeaveInfo.remaining_balance info == 0).
Proof.
  intros _ balance_before available info. subst info.
  rewrite settled_info. simpl. fold balance_before.
  change (balance_before + monthly_allocation) with available.
  repeat (split; [reflexivity |]).
  intros Hb Ht.
  assert (Ha : available == 1.5) by (subst available; rewrite Hb; lra).
  destruct (min_cases leaves_taken available) as [[H1 E1] | [H1 E1]];
    destruct (max_cases 0 (leaves_taken - available)) as [[H2 E2] | [H2 E2]];
    rewrite E1, E2; repeat split; lra.
Qed.

Lemma C2_leave_settlement_witness :
  let info :=
    fst (calculate_leave_balance 0 (Sample.john 50000 0) 2 "January" 2024
           (Sample.only (Sample.john 50000 0))) in
  LeaveInfo.leave_balance_used info == 1.5
  /\ LeaveInfo.loss_of_pay_days info == 0.5
  /\ LeaveInfo.remaining_balance info == 0
  /\ LeaveInfo.paid_days info == 29.5
  /\ LeaveInfo.present_days info == 28.
Proof.
  intros info.
  assert (Hle : 0 <= 2) by discriminate.
  destruct (C2_leave_settlement 0 (Sample.john 50000 0) 2 "January" 2024
              (Sample.only (Sample.john 50000 0)) Hle)
    as (_ & Hl & _ & Hp & Hd & Hex).
  destruct (Hex ltac:(reflexivity) ltac:(reflexivity)) as (_ & Hu & Hl' & Hr).
  fold info in Hl, Hp, Hd, Hu, Hl', Hr.
  split; [exact Hu |].
  split; [exact Hl' |].
  split; [exact Hr |].
  split.
  - rewrite Hp, Hl'. reflexivity.
  - rewrite Hd. reflexivity.
Defined.

(** C10.  The leave transaction that a settlement writes has
    leaves_allocated = 1.5 and
    balance_after = balance_before + leaves_allocated - leaves_used, and
    the employee's stored leave balance after the settlement is the
    balance_after of that transaction. *)
Theorem C10_leave_ledger_entry
    (utcnow : Z) (employee : Employee.t) (leaves_taken : Q)
    (month : string) (year : Z) (st : DB) :
  first (is_employee (Employee.emp_id employee)) (employees st)
  = Some employee ->
  let st' :=
    snd (calculate_leave_balance utcnow employee leaves_taken month year st) in
  exists (t : LeaveTransaction.t) (e : Employee.t),
    leave_transactions st' = leave_transactions st ++ [t]
    /\ LeaveTransaction.emp_id t = Employee.emp_id employee
    /\ LeaveTransaction.month t = month
    /\ LeaveTransaction.year t = year
    /\ LeaveTransaction.leaves_allocated t = 1.5
    /\ LeaveTransaction.balance_after t
       == LeaveTransaction.balance_before t
          + LeaveTransaction.leaves_allocated t
          - LeaveTransaction.leaves_used t
    /\ first (is_employee (Employee.emp_id employee)) (employees st')
       = Some e
    /\ Employee.leave_balance e = LeaveTransaction.balance_after t.
Proof.
  intros Hfound st'. subst st'. rewrite settled_store.
  eexists. eexists. simpl.
  split; [reflexivity |]. simpl.
  repeat (split; [reflexivity |]).
  split; [unfold monthly_allocation; lra |].
  split.
  - apply first_update_first; [exact Hfound |].
    apply first_some in Hfound. exact (proj2 Hfound).
  - reflexivity.
Qed.

Lemma C10_leave_ledger_entry_witness :
  let st' :=
    snd (calculate_leave_balance 0 (Sample.john 50000 1.5) 2 "January" 2024
           (Sample.only (Sample.john 50000 1.5))) in
  exists (t : LeaveTransaction.t) (e : Employee.t),
    leave_transactions st' = [t]
    /\ employees st' = [e]
    /\ LeaveTransaction.balance_before t == 1.5
    /\ LeaveTransaction.leaves_used t == 2
    /\ LeaveTransaction.balance_after t == 1
    /\ Employee.leave_balance e = LeaveTransaction.balance_after t.
Proof.
  intros st'.
  destruct (C10_leave_ledger_entry 0 (Sample.john 50000 1.5) 2 "January" 2024
              (Sample.only (Sample.john 50000 1.5)) eq_refl)
    as (t & e & Ht & _ & _ & _ & _ & _ & He & Hbal).
  fold st' in Ht, He.
  exists t, e.
  assert (Ht' : [t] = leave_transactions st') by (symmetry; exact Ht).
  assert (He' : Some e = first (is_employee "EMP001") (employees st'))
    by (symmetry; exact He).
  vm_compute in Ht'. injection Ht' as ->.
  vm_compute in He'. injection He' as ->.
  repeat split.
Defined.

(** ** One run of [process_individual_payroll] *)

Lemma is_payroll_key (emp_id month : string) (year : Z) (p : Payroll.t) :
  is_payroll emp_id month year p = true <->
  payroll_key p = (emp_id, month, year).
Proof.
  unfold is_payroll, payroll_key.
  rewrite !andb_true_iff, !String.eqb_eq, Z.eqb_eq.
  split.
  - intros [[-> ->] ->]. reflexivity.
  - intros [= -> -> ->]. auto.
Qed.

Section Processing.

Variable current_user : string.
Variable utcnow : Z.
Variable form : Form.t.
Variable st : DB.
Variable employee : Employee.t.

Hypothesis found :
  first (is_employee (Form.emp_id form)) (employees st) = Some employee.

Let processed := process_individual_payroll current_user utcnow form st.
Let settled :=
  calculate_leave_balance utcnow employee (Form.leaves_taken form)
    (Form.month form) (Form.year form) st.
Let this_payroll :=
  is_payroll (Form.emp_id form) (Form.month form) (Form.year form).
Let assign :=
  assign_payroll current_user utcnow form (leave_info_of utcnow form employee st)
    (salary_components_of utcnow form employee st).
Let row := payroll_row_of current_user utcnow form employee st.

Lemma found_emp_id : Employee.emp_id employee = Form.emp_id form.
Proof.
  apply first_some in found. destruct found as [_ H].
  apply String.eqb_eq. exact H.
Qed.

Lemma processed_outcome : fst processed = Success.
Proof.
  subst processed. unfold process_individual_payroll.
  rewrite found.
  destruct (calculate_leave_balance _ _ _ _ _ _). reflexivity.
Qed.

Lemma processed_employees : employees (snd processed) = employees (snd settled).
Proof.
  subst processed settled. unfold process_individual_payroll.
  rewrite found.
  destruct (calculate_leave_balance _ _ _ _ _ _). reflexivity.
Qed.

Lemma processed_leave_transactions :
  leave_transactions (snd processed) = leave_transactions (snd settled).
Proof.
  subst processed settled. unfold process_individual_payroll.
  rewrite found.
  destruct (calculate_leave_balance _ _ _ _ _ _). reflexivity.
Qed.

Lemma processed_payroll :
  payroll (snd processed)
  = match first this_payroll (payroll st) with
    | Some _ => update_first this_payroll assign (payroll st)
    | None => payroll st ++ [row]
    end.
Proof.
  subst processed this_payroll assign row.
  unfold process_individual_payroll, payroll_row_of, salary_components_of,
    unadjusted_components_of, leave_info_of.
  rewrite found.
  pose proof (settled_store utcnow employee (Form.leaves_taken form)
                (Form.month form) (Form.year form) st) as Hs.
  destruct (calculate_leave_balance _ _ _ _ _ _) as [li st1].
  simpl in Hs. subst st1. reflexivity.
Qed.

(** Assigning the fields of a row that has this run's key gives this
    run's row, whatever the row held. *)
Lemma assign_existing (p : Payroll.t) :
  this_payroll p = true -> assign p = row.
Proof.
  subst this_payroll assign row. intros H.
  apply is_payroll_key in H. injection H as He Hm Hy.
  unfold payroll_row_of, assign_payroll. simpl.
  rewrite He, Hm, Hy. reflexivity.
Qed.

Lemma row_key : this_payroll row = true.
Proof. subst this_payroll row. apply is_payroll_key. reflexivity. Qed.

(** The row found under the key after the run is this run's row. *)
Lemma processed_row : first this_payroll (payroll (snd processed)) = Some row.
Proof.
  rewrite processed_payroll.
  destruct (first this_payroll (payroll st)) as [p |] eqn:Hp.
  - rewrite (first_update_first this_payroll assign _ p Hp).
    + f_equal. apply assign_existing.
      apply first_some in Hp. exact (proj2 Hp).
    + rewrite assign_existing by (apply first_some in Hp; exact (proj2 Hp)).
      apply row_key.
  - apply first_app_new; [exact Hp | apply row_key].
Qed.

End Processing.

(** ** The adjusted breakdown *)

Lemma Qgtb_lt (a b : Q) : Qgtb a b = true <-> b < a.
Proof.
  unfold Qgtb. rewrite negb_true_iff.
  split.
  - intros H. apply Qnot_le_lt. intros Hle.
    apply Qle_bool_iff in Hle. congruence.
  - intros H. destruct (Qle_bool a b) eqn:E; [| reflexivity].
    apply Qle_bool_iff in E. lra.
Qed.

Section Adjusted.

Variable form : Form.t.
Variable leave_info : LeaveInfo.t.
Variable c0 : components.

Let c := adjust_components form leave_info c0.
Let loss_of_pay_days := LeaveInfo.loss_of_pay_days leave_info.

Lemma scaled_component (k : key) :
  scaled_key k ->
  c k = if Qgtb loss_of_pay_days 0
        then round2 (c0 k * (1 - loss_of_pay_days / 30.0))
        else c0 k.
Proof.
  subst c loss_of_pay_days. unfold adjust_components, scaled_key.
  intros Hk. simpl in Hk.
  destruct (Qgtb (LeaveInfo.loss_of_pay_days leave_info) 0);
    repeat (destruct Hk as [<- | Hk]; [reflexivity |]); contradiction.
Qed.

(** The deduction lines and their total are those of
    [calculate_salary_components]: the adjustment does not touch them. *)
Lemma deduction_component (k : key) : deduction_key k -> c k = c0 k.
Proof.
  subst c. unfold adjust_components, deduction_key.
  intros Hk. simpl in Hk.
  destruct (Qgtb (LeaveInfo.loss_of_pay_days leave_info) 0);
    repeat (destruct Hk as [<- | Hk]; [reflexivity |]); contradiction.
Qed.


Lemma adjusted_gross : c gross_salary = round2 (earnings c).
Proof.
  subst c. unfold adjust_components, earnings.
  destruct (Qgtb (LeaveInfo.loss_of_pay_days leave_info) 0); reflexivity.
Qed.

Lemma adjusted_net :
  c net_salary = round2 (c gross_salary - c total_deductions).
Proof.
  subst c. unfold adjust_components.
  destruct (Qgtb (LeaveInfo.loss_of_pay_days leave_info) 0); reflexivity.
Qed.

End Adjusted.

(** ** Loss of pay *)

(** Reading a field of a stored row: only the projections of [Payroll]
    are reduced. *)
Ltac payroll_fields :=
  unfold payroll_row_of, assign_payroll;
  cbn [Payroll.emp_id Payroll.month Payroll.year Payroll.total_days
       Payroll.present_days Payroll.leaves_taken Payroll.paid_days
       Payroll.loss_of_pay_days Payroll.leave_balance_used
       Payroll.basic_salary Payroll.hra Payroll.special_allowance
       Payroll.conveyance_allowance Payroll.medical_allowance
       Payroll.overtime_amount Payroll.expenses Payroll.bonus
       Payroll.leave_balance_amount Payroll.pf_employee Payroll.pf_employer
       Payroll.vpf Payroll.pt Payroll.charity Payroll.misc_deduction
       Payroll.additional_deduction Payroll.deduction_reason
       Payroll.gross_salary Payroll.total_deductions Payroll.net_salary
       Payroll.hike_amount Payroll.processed_by Payroll.processed_at].

(** An employee on a CTC of 20000 with no leave balance takes 16.5 days:
    15 days are unpaid, the basic salary drops from 10000 to 5000, and the
    PF stored is still 1200, 12% of the unscaled basic, not 600. *)
Lemma C1_pf_counterexample :
  exists p : Payroll.t,
    first (is_payroll "EMP001" "January" 2024)
      (payroll (run (Sample.only (Sample.john 20000 0))
                  (Sample.request 16.5 "January")))
    = Some p
    /\ Payroll.loss_of_pay_days p == 15
    /\ Payroll.basic_salary p == 5000
    /\ Payroll.pf_employee p == 1200
    /\ min (Payroll.basic_salary p * 0.12) 1800 == 600
    /\ ~ Payroll.pf_employee p == min (Payroll.basic_salary p * 0.12) 1800.
Proof.
  eexists. split; [vm_compute; reflexivity |].
  vm_compute. repeat split; intro H; discriminate H.
Qed.

(** A rounded amount is less than a paisa away from what was rounded. *)
Lemma round2_within_a_paisa (x : Q) : Qabs (round2 x - x) < 0.01.
Proof.
  apply Qle_lt_trans with (y := 0.005); [apply round2_error | reflexivity].
Qed.

(** C1 (the code departs from the claim).  In every run with
    loss_of_pay_days > 0 (loss_of_pay_ratio = loss_of_pay_days / 30) each
    of basic, hra, special_allowance, conveyance and medical stored is
    the unscaled component times (1 - loss_of_pay_ratio) to the paisa,
    each rounded on its own.  The PF and the total deductions stored are
    those computed before the adjustment: the PF is
    min(unscaled basic * 12%, 1800) rounded to two decimals (0 without
    PF).  It is not recomputed off the scaled basic: whenever PF is
    opted, 12% of the unscaled basic is under the cap and
    unscaled basic * loss_of_pay_days exceeds 2, the PF stored is greater
    than min(stored basic * 12%, 1800). *)
Theorem C1_loss_of_pay_scaling
    (current_user : string) (utcnow : Z) (form : Form.t) (st : DB)
    (employee : Employee.t) :
  first (is_employee (Form.emp_id form)) (employees st) = Some employee ->
  let loss_of_pay_days :=
    LeaveInfo.loss_of_pay_days (leave_info_of utcnow form employee st) in
  0 < loss_of_pay_days ->
  let loss_of_pay_ratio := loss_of_pay_days / 30 in
  let unscaled := unadjusted_components_of form employee in
  exists p : Payroll.t,
    first (is_payroll (Form.emp_id form) (Form.month form) (Form.year form))
      (payroll (snd (process_individual_payroll current_user utcnow form st)))
    = Some p
    /\ Payroll.loss_of_pay_days p = loss_of_pay_days
    /\ Qabs (Payroll.basic_salary p
             - unscaled basic * (1 - loss_of_pay_ratio)) < 0.01
    /\ Qabs (Payroll.hra p - unscaled hra * (1 - loss_of_pay_ratio)) < 0.01
    /\ Qabs (Payroll.special_allowance p
             - unscaled special_allowance * (1 - loss_of_pay_ratio)) < 0.01
    /\ Qabs (Payroll.conveyance_allowance p
             - unscaled conveyance_allowance * (1 - loss_of_pay_ratio)) < 0.01
    /\ Qabs (Payroll.medical_allowance p
             - unscaled medical_allowance * (1 - loss_of_pay_ratio)) < 0.01
    /\ Payroll.pf_employee p
       = (if Form.pf_opted form
          then round2 (min (unscaled basic * 0.12) 1800) else 0)
    /\ Payroll.pf_employer p = Payroll.pf_employee p
    /\ Payroll.total_deductions p = unscaled total_deductions
    /\ (Form.pf_opted form = true ->
        unscaled basic * 0.12 <= 1800 ->
        2 < unscaled basic * loss_of_pay_days ->
        min (Payroll.basic_salary p * 0.12) 1800 < Payroll.pf_employee p).
Proof.
  intros Hfound lop Hlop ratio unscaled.
  exists (payroll_row_of current_user utcnow form employee st).
  split; [apply processed_row; exact Hfound |].
  split; [reflexivity |].
  assert (Hscaled : forall k, scaled_key k ->
            salary_components_of utcnow form employee st k
            = round2 (unscaled k * (1 - ratio))).
  { intros k Hk. unfold salary_components_of.
    rewrite scaled_component by exact Hk. fold lop.
    rewrite (proj2 (Qgtb_lt lop 0) Hlop).
    apply round2_ext. subst ratio. fold unscaled.
    assert (E : lop / 30.0 == lop / 30) by (apply Qdiv_comp; reflexivity).
    rewrite E. reflexivity. }
  assert (Hnear : forall k, scaled_key k ->
            Qabs (salary_components_of utcnow form employee st k
                  - unscaled k * (1 - ratio)) < 0.01).
  { intros k Hk. rewrite (Hscaled k Hk). apply round2_within_a_paisa. }
  assert (Hded : forall k, deduction_key k ->
            salary_components_of utcnow form employee st k = unscaled k).
  { intros k Hk. unfold salary_components_of.
    apply deduction_component. exact Hk. }
  assert (Hpf : salary_components_of utcnow form employee st pf_employee
                = (if Form.pf_opted form
                   then round2 (min (unscaled basic * 0.12) 1800) else 0)).
  { rewrite Hded by (unfold deduction_key; simpl; tauto).
    exact (pf_employee_eq
             (Employee.ctc_monthly employee + Form.hike_amount form)
             (Form.pf_opted form) (Form.deduction_amount form)). }
  payroll_fields.
  repeat (split; [apply Hnear; unfold scaled_key; simpl; tauto |]).
  split; [exact Hpf |].
  split; [| split].
  - rewrite !Hded by (unfold deduction_key; simpl; tauto).
    subst unscaled. unfold unadjusted_components_of.
    rewrite pf_employee_eq, pf_employer_eq. reflexivity.
  - apply Hded. unfold deduction_key; simpl; tauto.
  - intros Hopted Hcap Hbig. rewrite Hpf, Hopted.
    rewrite (Hscaled basic) by (unfold scaled_key; simpl; tauto).
    pose proof (round2_near (unscaled basic * (1 - ratio))) as Hb.
    pose proof (round2_near (min (unscaled basic * 0.12) 1800)) as Hp.
    destruct (min_cases (unscaled basic * 0.12) 1800) as [[_ Em] | [Hm Em]].
    + destruct (min_cases (round2 (unscaled basic * (1 - ratio)) * 0.12) 1800)
        as [[_ En] | [Hn En]]; rewrite En.
      * assert (Eprod : unscaled basic * (1 - ratio)
                        == unscaled basic - unscaled basic * lop * (1 # 30))
          by (subst ratio; field).
        set (sb := round2 (unscaled basic * (1 - ratio))) in *.
        set (pf := round2 (min (unscaled basic * 0.12) 1800)) in *.
        set (m := min (unscaled basic * 0.12) 1800) in *.
        set (x := unscaled basic * (1 - ratio)) in *.
        set (bl := unscaled basic * lop) in *.
        set (b := unscaled basic) in *.
        clearbody sb pf m x bl b. lra.
      * set (pf := round2 (min (unscaled basic * 0.12) 1800)) in *.
        set (m := min (unscaled basic * 0.12) 1800) in *.
        set (sb := round2 (unscaled basic * (1 - ratio))) in *.
        assert (Eprod : unscaled basic * (1 - ratio)
                        == unscaled basic - unscaled basic * lop * (1 # 30))
          by (subst ratio; field).
        set (x := unscaled basic * (1 - ratio)) in *.
        set (bl := unscaled basic * lop) in *.
        set (b := unscaled basic) in *.
        clearbody sb pf m x bl b. lra.
    + assert (Ecap : unscaled basic * 0.12 == 1800) by lra.
      assert (Eprod : unscaled basic * (1 - ratio)
                      == unscaled basic - unscaled basic * lop * (1 # 30))
        by (subst ratio; field).
      destruct (min_cases (round2 (unscaled basic * (1 - ratio)) * 0.12) 1800)
        as [[_ En] | [Hn En]]; rewrite En;
        set (sb := round2 (unscaled basic * (1 - ratio))) in *;
        set (pf := round2 (min (unscaled basic * 0.12) 1800)) in *;
        set (m := min (unscaled basic * 0.12) 1800) in *;
        set (x := unscaled basic * (1 - ratio)) in *;
        set (bl := unscaled basic * lop) in *;
        set (b := unscaled basic) in *;
        clearbody sb pf m x bl b; lra.
Qed.

(** The scenario CTC = 50000 with one unpaid day (ratio 1/30): each
    component is 29/30 of its unscaled value, to the paisa, and the PF
    stays at the cap. *)
Lemma C1_loss_of_pay_scaling_witness :
  exists p : Payroll.t,
    first (is_payroll "EMP001" "January" 2024)
      (payroll (run (Sample.only (Sample.john 50000 0))
                  (Sample.request 2.5 "January")))
    = Some p
    /\ Payroll.loss_of_pay_days p == 1
    /\ Qabs (Payroll.basic_salary p - 25000 * (29 / 30)) < 0.01
    /\ Qabs (Payroll.hra p - 5000 * (29 / 30)) < 0.01
    /\ Qabs (Payroll.special_allowance p - 15000 * (29 / 30)) < 0.01
    /\ Qabs (Payroll.conveyance_allowance p - 2500 * (29 / 30)) < 0.01
    /\ Qabs (Payroll.medical_allowance p - 2500 * (29 / 30)) < 0.01
    /\ Payroll.pf_employee p == 1800.
Proof.
  assert (Hlop : 0 < LeaveInfo.loss_of_pay_days
                       (leave_info_of 0 (Sample.form 2.5 "January")
                          (Sample.john 50000 0)
                          (Sample.only (Sample.john 50000 0))))
    by reflexivity.
  destruct (C1_loss_of_pay_scaling "hr" 0 (Sample.form 2.5 "January")
              (Sample.only (Sample.john 50000 0)) (Sample.john 50000 0)
              eq_refl Hlop)
    as (p & Hp & Hl & Hb & Hh & Hs & Hc & Hm & Hpf & _).
  exists p. split; [exact Hp |].
  split; [rewrite Hl; reflexivity |].
  assert (Eb : unadjusted_components_of (Sample.form 2.5 "January")
                 (Sample.john 50000 0) basic == 25000) by reflexivity.
  assert (Eh : unadjusted_components_of (Sample.form 2.5 "January")
                 (Sample.john 50000 0) hra == 5000) by reflexivity.
  assert (Es : unadjusted_components_of (Sample.form 2.5 "January")
                 (Sample.john 50000 0) special_allowance == 15000)
    by reflexivity.
  assert (Ec : unadjusted_components_of (Sample.form 2.5 "January")
                 (Sample.john 50000 0) conveyance_allowance == 2500)
    by reflexivity.
  assert (Em : unadjusted_components_of (Sample.form 2.5 "January")
                 (Sample.john 50000 0) medical_allowance == 2500)
    by reflexivity.
  assert (Er : 1 - LeaveInfo.loss_of_pay_days
                     (leave_info_of 0 (Sample.form 2.5 "January")
                        (Sample.john 50000 0)
                        (Sample.only (Sample.john 50000 0))) / 30
               == 29 / 30) by reflexivity.
  rewrite Eb, Er in Hb. rewrite Eh, Er in Hh. rewrite Es, Er in Hs.
  rewrite Ec, Er in Hc. rewrite Em, Er in Hm.
  repeat (split; [assumption |]).
  rewrite Hpf. reflexivity.
Defined.

(** Without loss of pay the five fixed components are stored as
    [calculate_salary_components] returns them. *)
Lemma stored_components_without_loss_of_pay
    (current_user : string) (utcnow : Z) (form : Form.t) (st : DB)
    (employee : Employee.t) (k : key) :
  LeaveInfo.loss_of_pay_days (leave_info_of utcnow form employee st) <= 0 ->
  scaled_key k ->
  salary_components_of utcnow form employee st k
  = unadjusted_components_of form employee k.
Proof.
  intros Hlop Hk. unfold salary_components_of.
  rewrite scaled_component by exact Hk.
  destruct (Qgtb (LeaveInfo.loss_of_pay_days
                    (leave_info_of utcnow form employee st)) 0) eqn:E;
    [| reflexivity].
  apply Qgtb_lt in E. lra.
Qed.

(** ** Attendance *)

Lemma int_whole (x : Q) (k : Z) : x == inject_Z k -> int x = k.
Proof.
  intros H. unfold int.
  destruct (Qle_bool 0 x).
  - rewrite (Qfloor_comp _ _ H). apply Qfloor_Z.
  - rewrite (Qceiling_comp _ _ H). apply Qceiling_Z.
Qed.

(** Truncating a number that is not negative drops less than one. *)
Lemma int_nonneg (x : Q) :
  0 <= x -> inject_Z (int x) <= x /\ x < inject_Z (int x) + 1.
Proof.
  intros H. unfold int.
  apply Qle_bool_iff in H. rewrite H.
  pose proof (Qfloor_le x) as Hlo.
  pose proof (Qlt_floor x) as Hhi.
  rewrite inject_Z_plus in Hhi. change (inject_Z 1) with 1 in Hhi.
  split; assumption.
Qed.

(** John holds 1.5 days of leave and takes 3.5: 3 days are available, so
    half a day is unpaid.  The row stores 26 present days and 29 paid
    days. *)
Lemma C4_fractional_days_counterexample :
  exists p : Payroll.t,
    first (is_payroll "EMP001" "January" 2024)
      (payroll (run (Sample.only (Sample.john 50000 1.5))
                  (Sample.request 3.5 "January")))
    = Some p
    /\ Payroll.total_days p = 30%Z
    /\ Payroll.leaves_taken p == 3.5
    /\ Payroll.loss_of_pay_days p == 0.5
    /\ Payroll.present_days p = 26%Z
    /\ Payroll.paid_days p = 29%Z
    /\ ~ inject_Z (Payroll.present_days p) + Payroll.leaves_taken p
         == inject_Z (Payroll.total_days p)
    /\ ~ inject_Z (Payroll.paid_days p)
         == inject_Z (Payroll.total_days p) - Payroll.loss_of_pay_days p.
Proof.
  eexists. split; [vm_compute; reflexivity |].
  vm_compute. repeat split; intro H; discriminate H.
Qed.

Lemma int_comp (x y : Q) : x == y -> int x = int y.
Proof.
  intros H. unfold int.
  assert (Hb : Qle_bool 0 x = Qle_bool 0 y).
  { destruct (Qle_bool 0 x) eqn:Ex, (Qle_bool 0 y) eqn:Ey; try reflexivity.
    - apply Qle_bool_iff in Ex. rewrite H in Ex.
      apply Qle_bool_iff in Ex. congruence.
    - apply Qle_bool_iff in Ey. rewrite <- H in Ey.
      apply Qle_bool_iff in Ey. congruence. }
  rewrite Hb. destruct (Qle_bool 0 y).
  - apply Qfloor_comp, H.
  - apply Qceiling_comp, H.
Qed.

(** Truncation moves a number by less than one. *)
Lemma int_near (x : Q) : Qabs (inject_Z (int x) - x) < 1.
Proof.
  unfold int. destruct (Qle_bool 0 x).
  - pose proof (Qfloor_le x) as Hlo.
    pose proof (Qlt_floor x) as Hhi.
    rewrite inject_Z_plus in Hhi. change (inject_Z 1) with 1 in Hhi.
    apply Qabs_case; intros _; qlra.
  - pose proof (Qle_ceiling x) as Hhi.
    pose proof (Qceiling_lt x) as Hlo.
    unfold Z.sub in Hlo. rewrite inject_Z_plus in Hlo.
    change (inject_Z (- (1))) with (- (1)) in Hlo.
    apply Qabs_case; intros _; qlra.
Qed.

(** Truncating a whole number and a half drops the half, towards zero. *)
Lemma int_and_a_half (n : Z) :
  int (inject_Z n + (1 # 2)) = if (0 <=? n)%Z then n else (n + 1)%Z.
Proof.
  unfold int.
  assert (Hfloor : Qfloor (inject_Z n + (1 # 2)) = n).
  { pose proof (Qfloor_le (inject_Z n + (1 # 2))) as Hlo.
    pose proof (Qlt_floor (inject_Z n + (1 # 2))) as Hhi.
    assert (H1 : inject_Z (Qfloor (inject_Z n + (1 # 2))) < inject_Z (n + 1)).
    { rewrite inject_Z_plus. change (inject_Z 1) with 1. qlra. }
    assert (H2 : inject_Z n < inject_Z (Qfloor (inject_Z n + (1 # 2)) + 1)).
    { rewrite inject_Z_plus in Hhi |- *. change (inject_Z 1) with 1 in *.
      qlra. }
    rewrite <- Zlt_Qlt in H1, H2. lia. }
  assert (Hceil : Qceiling (inject_Z n + (1 # 2)) = (n + 1)%Z).
  { pose proof (Qle_ceiling (inject_Z n + (1 # 2))) as Hhi.
    pose proof (Qceiling_lt (inject_Z n + (1 # 2))) as Hlo.
    assert (H1 : inject_Z n < inject_Z (Qceiling (inject_Z n + (1 # 2)))).
    { qlra. }
    assert (H2 : inject_Z (Qceiling (inject_Z n + (1 # 2)) - 1)
                 < inject_Z (n + 1)).
    { rewrite inject_Z_plus. change (inject_Z 1) with 1. qlra. }
    rewrite <- Zlt_Qlt in H1, H2. lia. }
  destruct (Qle_bool 0 (inject_Z n + (1 # 2))) eqn:E.
  - apply Qle_bool_iff in E. rewrite Hfloor.
    assert (H : inject_Z (-1) < inject_Z n).
    { change (inject_Z (-1)) with (- (1)). lra. }
    rewrite <- Zlt_Qlt in H.
    destruct (Z.leb_spec 0 n); [reflexivity | lia].
  - rewrite Hceil.
    assert (H : inject_Z n < inject_Z 0).
    { change (inject_Z 0) with 0.
      apply Qnot_le_lt. intros Hle.
      assert (Hq : 0 <= inject_Z n + (1 # 2)) by lra.
      apply Qle_bool_iff in Hq. congruence. }
    rewrite <- Zlt_Qlt in H.
    destruct (Z.leb_spec 0 n); [lia | reflexivity].
Qed.

(** A whole number of half days that is not a whole number of days is a
    whole number and a half. *)
Lemma half_days (x : Q) :
  whole (2 * x) -> ~ whole x -> exists h : Z, x == inject_Z h + (1 # 2).
Proof.
  intros [k Hk] Hnot.
  destruct (Z.Even_or_Odd k) as [[h ->] | [h ->]].
  - exfalso. apply Hnot. exists h.
    rewrite inject_Z_mult in Hk. change (inject_Z 2) with 2 in Hk.
    set (z := inject_Z h) in *. clearbody z. lra.
  - exists h.
    rewrite inject_Z_plus, inject_Z_mult in Hk.
    change (inject_Z 2) with 2 in Hk. change (inject_Z 1) with 1 in Hk.
    set (z := inject_Z h) in *. clearbody z. lra.
Qed.

(** 30 days less a number of days, truncated: exact for whole days, half
    a day short for half days up to 30, and always less than a day off. *)
Lemma attendance_days (x : Q) :
  (whole x <-> inject_Z (int (30 - x)) + x == 30)
  /\ Qabs (inject_Z (int (30 - x)) + x - 30) < 1
  /\ (whole (2 * x) -> ~ whole x -> x <= 30 ->
      inject_Z (int (30 - x)) + x == 30 - (1 # 2)).
Proof.
  split; [split | split].
  - intros [k Hk].
    rewrite (int_whole (30 - x) (30 - k)).
    + unfold Z.sub. rewrite inject_Z_plus, inject_Z_opp.
      change (inject_Z 30) with 30. rewrite Hk. ring.
    + unfold Z.sub. rewrite inject_Z_plus, inject_Z_opp.
      change (inject_Z 30) with 30. rewrite Hk. ring.
  - intros H. exists (30 - int (30 - x))%Z.
    unfold Z.sub. rewrite inject_Z_plus, inject_Z_opp.
    change (inject_Z 30) with 30.
    set (z := inject_Z (int (30 - x))) in *. clearbody z. lra.
  - pose proof (int_near (30 - x)) as H.
    assert (E : inject_Z (int (30 - x)) + x - 30
                == inject_Z (int (30 - x)) - (30 - x)) by ring.
    rewrite E. exact H.
  - intros Hhalf Hnot Hle.
    destruct (half_days x Hhalf Hnot) as (h & Hx).
    assert (E : 30 - x == inject_Z (29 - h) + (1 # 2)).
    { unfold Z.sub. rewrite inject_Z_plus, inject_Z_opp.
      change (inject_Z 29) with 29. rewrite Hx. ring. }
    rewrite (int_comp _ _ E), int_and_a_half.
    assert (Hh : inject_Z h < inject_Z 30).
    { change (inject_Z 30) with 30. lra. }
    rewrite <- Zlt_Qlt in Hh.
    destruct (Z.leb_spec 0 (29 - h)); [| lia].
    unfold Z.sub. rewrite inject_Z_plus, inject_Z_opp.
    change (inject_Z 29) with 29. rewrite Hx. ring.
Qed.

(** C4 (amended).  Every row that [process_individual_payroll] stores has
    total_days = 30, and whole numbers for present_days and paid_days:
    30 - leaves_taken and 30 - loss_of_pay_days truncated, which for
    whole and half days is int(30 - leaves_taken) and
    int(30 - loss_of_pay_days) of the exact differences.  So
    present_days + leaves_taken = total_days holds exactly when
    leaves_taken is a whole number of days, and
    paid_days = total_days - loss_of_pay_days exactly when
    loss_of_pay_days is one; for half days up to 30 each identity is
    short by half a day, and in every case it is off by less than one
    day. *)
Theorem C4_attendance
    (current_user : string) (utcnow : Z) (form : Form.t) (st : DB)
    (employee : Employee.t) :
  first (is_employee (Form.emp_id form)) (employees st) = Some employee ->
  exists p : Payroll.t,
    first (is_payroll (Form.emp_id form) (Form.month form) (Form.year form))
      (payroll (snd (process_individual_payroll current_user utcnow form st)))
    = Some p
    /\ Payroll.total_days p = 30%Z
    /\ Payroll.leaves_taken p = Form.leaves_taken form
    /\ Payroll.loss_of_pay_days p
       = LeaveInfo.loss_of_pay_days (leave_info_of utcnow form employee st)
    /\ (whole (2 * Payroll.leaves_taken p) ->
        Payroll.present_days p = int (30 - Payroll.leaves_taken p))
    /\ (whole (2 * Payroll.loss_of_pay_days p) ->
        Payroll.paid_days p = int (30 - Payroll.loss_of_pay_days p))
    /\ (whole (Payroll.leaves_taken p) <->
        inject_Z (Payroll.present_days p) + Payroll.leaves_taken p
        == inject_Z (Payroll.total_days p))
    /\ (whole (Payroll.loss_of_pay_days p) <->
        inject_Z (Payroll.paid_days p)
        == inject_Z (Payroll.total_days p) - Payroll.loss_of_pay_days p)
    /\ Qabs (inject_Z (Payroll.present_days p) + Payroll.leaves_taken p
             - inject_Z (Payroll.total_days p)) < 1
    /\ Qabs (inject_Z (Payroll.paid_days p) + Payroll.loss_of_pay_days p
             - inject_Z (Payroll.total_days p)) < 1
    /\ (whole (2 * Payroll.leaves_taken p) ->
        ~ whole (Payroll.leaves_taken p) ->
        Payroll.leaves_taken p <= 30 ->
        inject_Z (Payroll.present_days p) + Payroll.leaves_taken p
        == inject_Z (Payroll.total_days p) - (1 # 2))
    /\ (whole (2 * Payroll.loss_of_pay_days p) ->
        ~ whole (Payroll.loss_of_pay_days p) ->
        Payroll.loss_of_pay_days p <= 30 ->
        inject_Z (Payroll.paid_days p) + Payroll.loss_of_pay_days p
        == inject_Z (Payroll.total_days p) - (1 # 2)).
Proof.
  intros Hfound.
  exists (payroll_row_of current_user utcnow form employee st).
  split; [apply processed_row; exact Hfound |].
  payroll_fields.
  set (leaves := Form.leaves_taken form).
  assert (Hinfo :
    LeaveInfo.present_days (leave_info_of utcnow form employee st)
    = 30 - leaves
    /\ LeaveInfo.paid_days (leave_info_of utcnow form employee st)
       = 30 - LeaveInfo.loss_of_pay_days
                (leave_info_of utcnow form employee st)).
  { unfold leave_info_of. rewrite settled_info. split; reflexivity. }
  destruct Hinfo as [-> ->].
  set (lop := LeaveInfo.loss_of_pay_days
                (leave_info_of utcnow form employee st)).
  change (inject_Z 30) with 30.
  do 3 (split; [reflexivity |]).
  do 2 (split; [intros _; reflexivity |]).
  destruct (attendance_days leaves) as (Hw1 & Hn1 & Hh1).
  destruct (attendance_days lop) as (Hw2 & Hn2 & Hh2).
  split; [exact Hw1 |].
  split.
  { rewrite Hw2. set (z := inject_Z (int (30 - lop))). clearbody z.
    split; intros H; lra. }
  split; [exact Hn1 |].
  split; [exact Hn2 |].
  split; [exact Hh1 | exact Hh2].
Qed.

(** Two whole days of leave, all covered: 28 present days, 30 paid
    days, and both identities hold. *)
Lemma C4_attendance_witness :
  exists p : Payroll.t,
    first (is_payroll "EMP001" "January" 2024)
      (payroll (run (Sample.only (Sample.john 50000 1.5))
                  (Sample.request 2 "January")))
    = Some p
    /\ Payroll.present_days p = 28%Z
    /\ Payroll.paid_days p = 30%Z
    /\ inject_Z (Payroll.present_days p) + Payroll.leaves_taken p
       == inject_Z (Payroll.total_days p)
    /\ inject_Z (Payroll.paid_days p)
       == inject_Z (Payroll.total_days p) - Payroll.loss_of_pay_days p.
Proof.
  destruct (C4_attendance "hr" 0 (Sample.form 2 "January")
              (Sample.only (Sample.john 50000 1.5)) (Sample.john 50000 1.5)
              eq_refl)
    as (p & Hp & Ht & Hl & Hlop & Hpres & Hpaid & Hw1 & Hw2 & _).
  exists p. split; [exact Hp |].
  assert (W1 : whole (Payroll.leaves_taken p)).
  { rewrite Hl. exists 2%Z. reflexivity. }
  assert (W2 : whole (Payroll.loss_of_pay_days p)).
  { rewrite Hlop. exists 0%Z. reflexivity. }
  assert (H1 : whole (2 * Payroll.leaves_taken p)).
  { rewrite Hl. exists 4%Z. reflexivity. }
  assert (H2 : whole (2 * Payroll.loss_of_pay_days p)).
  { rewrite Hlop. exists 0%Z. reflexivity. }
  split; [rewrite (Hpres H1), Hl; reflexivity |].
  split; [rewrite (Hpaid H2), Hlop; reflexivity |].
  split; [exact (proj1 Hw1 W1) | exact (proj1 Hw2 W2)].
Defined.

(** ** Totals *)


Section Totals.

Variable ctc_monthly : Q.
Variable pf_opted : bool.
Variable deduction : Q.

Let c0 := calculate_salary_components ctc_monthly pf_opted deduction.

Lemma unadjusted_fixed_two_decimals (k : key) :
  scaled_key k -> two_decimals (c0 k).
Proof.
  unfold scaled_key. simpl. subst c0.
  intros [<- | [<- | [<- | [<- | [<- | []]]]]].
  - rewrite basic_eq. apply round2_two_decimals.
  - rewrite hra_eq. apply round2_two_decimals.
  - rewrite special_eq. apply round2_two_decimals.
  - rewrite conveyance_eq. apply round2_two_decimals.
  - rewrite medical_eq. apply round2_two_decimals.
Qed.





End Totals.




(** The totals of a stored row: net = gross - deductions. *)
Lemma stored_net_salary
    (current_user : string) (utcnow : Z) (form : Form.t) (st : DB)
    (employee : Employee.t) :
  let p := payroll_row_of current_user utcnow form employee st in
  Payroll.net_salary p == Payroll.gross_salary p - Payroll.total_deductions p.
Proof.
  intros p. subst p. payroll_fields.
  unfold salary_components_of, unadjusted_components_of.
  pose proof (adjusted_net form (leave_info_of utcnow form employee st)
                (calculate_salary_components
                   (Employee.ctc_monthly employee + Form.hike_amount form)
                   (Form.pf_opted form) (Form.deduction_amount form))) as En.
  pose proof (adjusted_gross form (leave_info_of utcnow form employee st)
                (calculate_salary_components
                   (Employee.ctc_monthly employee + Form.hike_amount form)
                   (Form.pf_opted form) (Form.deduction_amount form))) as Eg.
  rewrite En. apply round2_fixed, two_decimals_minus.
  - rewrite Eg. apply round2_two_decimals.
  - rewrite deduction_component by (unfold deduction_key; simpl; tauto).
    rewrite total_deductions_eq. apply round2_two_decimals.
Qed.

(** ** Hikes *)





(** ** One payroll row per key *)

Lemma update_first_ext {A : Type} (filter_by : A -> bool) (f g : A -> A)
    (rows : list A) :
  (forall r, filter_by r = true -> f r = g r) ->
  update_first filter_by f rows = update_first filter_by g rows.
Proof.
  intros Hfg. induction rows as [| x rows IH]; simpl; [reflexivity |].
  destruct (filter_by x) eqn:Hx.
  - rewrite (Hfg x Hx). reflexivity.
  - rewrite IH. reflexivity.
Qed.

Lemma first_none_key (emp_id month : string) (year : Z)
    (rows : list Payroll.t) :
  first (is_payroll emp_id month year) rows = None ->
  ~ In (emp_id, month, year) (map payroll_key rows).
Proof.
  unfold first. intros Hnone Hin.
  apply in_map_iff in Hin. destruct Hin as (p & Hkey & Hp).
  pose proof (find_none _ _ Hnone p Hp) as Hfalse.
  apply is_payroll_key in Hkey. congruence.
Qed.

Lemma NoDup_snoc {A : Type} (l : list A) (a : A) :
  NoDup l -> ~ In a l -> NoDup (l ++ [a]).
Proof.
  induction 1 as [| x l Hx Hl IH]; simpl; intros Ha.
  - constructor; [intros [] | constructor].
  - constructor.
    + rewrite in_app_iff. simpl. intros [H | [H | []]]; [tauto |].
      apply Ha. left. symmetry. exact H.
    + apply IH. tauto.
Qed.

Lemma assign_payroll_key
    (current_user : string) (utcnow : Z) (form : Form.t)
    (leave_info : LeaveInfo.t) (c : components) (p : Payroll.t) :
  payroll_key (assign_payroll current_user utcnow form leave_info c p)
  = payroll_key p.
Proof. reflexivity. Qed.

(** A run keeps the keys of the payroll table distinct. *)
Lemma run_unique_keys (st : DB) (r : Request.t) :
  unique_keys (payroll st) -> unique_keys (payroll (run st r)).
Proof.
  intros Huniq. unfold run.
  destruct (first (is_employee (Form.emp_id (Request.form r))) (employees st))
    as [employee |] eqn:Hfound.
  - rewrite (processed_payroll _ _ _ _ employee Hfound).
    destruct (first _ (payroll st)) as [old |] eqn:Hold.
    + unfold unique_keys.
      rewrite map_update_first by (intros p; apply assign_payroll_key).
      exact Huniq.
    + unfold unique_keys. rewrite map_app. simpl.
      apply NoDup_snoc; [exact Huniq |].
      apply first_none_key. exact Hold.
  - unfold process_individual_payroll. rewrite Hfound. exact Huniq.
Qed.

Lemma run_all_unique_keys (requests : list Request.t) (st : DB) :
  unique_keys (payroll st) -> unique_keys (payroll (run_all requests st)).
Proof.
  revert st. unfold run_all.
  induction requests as [| r requests IH]; simpl; intros st Huniq.
  - exact Huniq.
  - apply IH, run_unique_keys, Huniq.
Qed.

(** Distinct keys: no key has two rows. *)
Lemma unique_keys_count (rows : list Payroll.t)
    (emp_id month : string) (year : Z) :
  unique_keys rows ->
  (length (filter (is_payroll emp_id month year) rows) <= 1)%nat.
Proof.
  unfold unique_keys.
  induction rows as [| p rows IH]; simpl; intros Huniq; [lia |].
  inversion Huniq as [| k ks Hnotin Hrest]; subst.
  destruct (is_payroll emp_id month year p) eqn:Hp.
  - assert (Hnone : filter (is_payroll emp_id month year) rows = []).
    { destruct (filter (is_payroll emp_id month year) rows) as [| q qs] eqn:Hq;
        [reflexivity |].
      exfalso. apply Hnotin.
      assert (Hin : In q (filter (is_payroll emp_id month year) rows))
        by (rewrite Hq; left; reflexivity).
      apply filter_In in Hin. destruct Hin as [Hin Hkey].
      apply is_payroll_key in Hp. apply is_payroll_key in Hkey.
      rewrite Hp, <- Hkey. apply in_map. exact Hin. }
    rewrite Hnone. simpl. lia.
  - apply IH. exact Hrest.
Qed.

(** C9.  Processing a key that already has a payroll row replaces that
    row, in its place, by the row this run computes (no field of the old
    row is kept besides the key, and the table does not grow); a key with
    no row gets a new one.  So a table with at most one row per
    (employee, month, year) keeps that property through any sequence of
    runs.  Each run for an employee that exists also appends one leave
    transaction for its period. *)
Theorem C9_upsert (requests : list Request.t) (st : DB) :
  unique_keys (payroll st) ->
  (unique_keys (payroll (run_all requests st))
   /\ forall (emp_id month : string) (year : Z),
       (length (filter (is_payroll emp_id month year)
                  (payroll (run_all requests st))) <= 1)%nat)
  /\ forall (current_user : string) (utcnow : Z) (form : Form.t)
       (employee : Employee.t),
      first (is_employee (Form.emp_id form)) (employees st) = Some employee ->
      let st' := snd (process_individual_payroll current_user utcnow form st) in
      let row := payroll_row_of current_user utcnow form employee st in
      let this :=
        is_payroll (Form.emp_id form) (Form.month form) (Form.year form) in
      first this (payroll st') = Some row
      /\ (forall old : Payroll.t,
            first this (payroll st) = Some old ->
            payroll st' = update_first this (fun _ => row) (payroll st)
            /\ length (payroll st') = length (payroll st))
      /\ (first this (payroll st) = None ->
          payroll st' = payroll st ++ [row])
      /\ exists t : LeaveTransaction.t,
           leave_transactions st' = leave_transactions st ++ [t]
           /\ LeaveTransaction.emp_id t = Form.emp_id form
           /\ LeaveTransaction.month t = Form.month form
           /\ LeaveTransaction.year t = Form.year form.
Proof.
  intros Huniq. split.
  - pose proof (run_all_unique_keys requests st Huniq) as Hall.
    split; [exact Hall |].
    intros emp_id month year. apply unique_keys_count, Hall.
  - intros current_user utcnow form employee Hfound st' row this.
    subst st' row this.
    pose proof (processed_payroll current_user utcnow form st employee Hfound)
      as Hpay.
    split; [apply processed_row; exact Hfound |].
    split; [| split].
    + intros old Hold. rewrite Hold in Hpay.
      assert (Hrepl :
        payroll (snd (process_individual_payroll current_user utcnow form st))
        = update_first
            (is_payroll (Form.emp_id form) (Form.month form) (Form.year form))
            (fun _ => payroll_row_of current_user utcnow form employee st)
            (payroll st)).
      { rewrite Hpay. apply update_first_ext.
        intros p Hp. apply assign_existing. exact Hp. }
      split; [exact Hrepl |].
      rewrite Hrepl. apply length_update_first.
    + intros Hnone. rewrite Hnone in Hpay. exact Hpay.
    + rewrite (processed_leave_transactions current_user utcnow form st
                 employee Hfound).
      rewrite settled_store. cbn [leave_transactions].
      eexists. split; [reflexivity |].
      cbn [LeaveTransaction.emp_id LeaveTransaction.month
           LeaveTransaction.year].
      split; [apply (found_emp_id form st employee Hfound) |].
      split; reflexivity.
Qed.

(** January is processed twice for John: one payroll row, two leave
    transactions. *)
Lemma C9_upsert_witness :
  let st :=
    run_all [Sample.request 0 "January"; Sample.request 2 "January"]
      (Sample.only (Sample.john 50000 1.5)) in
  unique_keys (payroll st)
  /\ length (payroll st) = 1%nat
  /\ length (leave_transactions st) = 2%nat.
Proof.
  intros st.
  destruct (C9_upsert
              [Sample.request 0 "January"; Sample.request 2 "January"]
              (Sample.only (Sample.john 50000 1.5)) (NoDup_nil _))
    as [[Huniq _] _].
  split; [exact Huniq |].
  split; vm_compute; reflexivity.
Defined.

(** ** The previous leave transaction *)

Lemma string_compare_refl (s : string) : String.compare s s = Eq.
Proof.
  induction s as [| a s IH]; simpl; [reflexivity |].
  unfold Ascii.compare. rewrite N.compare_refl. exact IH.
Qed.

Lemma string_gt_trans (a b c : string) :
  String.compare a b = Gt -> String.compare b c = Gt ->
  String.compare a c = Gt.
Proof.
  revert b c.
  induction a as [| x a IH]; intros [| y b] [| z c]; simpl;
    try discriminate; try reflexivity.
  destruct (Ascii.compare x y) eqn:Hxy; try discriminate;
    destruct (Ascii.compare y z) eqn:Hyz; try discriminate;
    intros Hab Hbc.
  - apply Ascii.compare_eq_iff in Hxy. apply Ascii.compare_eq_iff in Hyz.
    subst. unfold Ascii.compare. rewrite N.compare_refl.
    apply (IH b c Hab Hbc).
  - apply Ascii.compare_eq_iff in Hxy. subst. rewrite Hyz. reflexivity.
  - apply Ascii.compare_eq_iff in Hyz. subst. rewrite Hxy. reflexivity.
  - unfold Ascii.compare in *.
    apply N.compare_gt_iff in Hxy. apply N.compare_gt_iff in Hyz.
    assert (H : (N_of_ascii z < N_of_ascii x)%N) by lia.
    apply N.compare_gt_iff in H. rewrite H. reflexivity.
Qed.

Lemma year_month_desc_irrefl (a : LeaveTransaction.t) :
  year_month_desc a a = false.
Proof.
  unfold year_month_desc.
  rewrite Z.compare_refl, string_compare_refl. reflexivity.
Qed.

Lemma year_month_desc_trans (a b c : LeaveTransaction.t) :
  year_month_desc a b = true -> year_month_desc b c = true ->
  year_month_desc a c = true.
Proof.
  unfold year_month_desc.
  destruct (Z.compare_spec (LeaveTransaction.year a) (LeaveTransaction.year b))
    as [Hab | Hab | Hab]; try discriminate;
    destruct (Z.compare_spec (LeaveTransaction.year b)
                (LeaveTransaction.year c))
      as [Hbc | Hbc | Hbc]; try discriminate;
    intros H1 H2.
  - rewrite Hab, Hbc, Z.compare_refl.
    destruct (String.compare (LeaveTransaction.month a)
                (LeaveTransaction.month b)) eqn:E1; try discriminate.
    destruct (String.compare (LeaveTransaction.month b)
                (LeaveTransaction.month c)) eqn:E2; try discriminate.
    rewrite (string_gt_trans _ _ _ E1 E2). reflexivity.
  - rewrite Hab. apply Z.lt_gt in Hbc. rewrite Hbc. reflexivity.
  - rewrite <- Hbc. apply Z.lt_gt in Hab. rewrite Hab. reflexivity.
  - assert (H : (LeaveTransaction.year a > LeaveTransaction.year c)%Z) by lia.
    rewrite H. reflexivity.
Qed.

Section OrderByFirst.

Context {A : Type}.
Variable before : A -> A -> bool.
Hypothesis irrefl : forall a, before a a = false.
Hypothesis trans :
  forall a b c, before a b = true -> before b c = true -> before a c = true.

Let step (best : option A) (r : A) : option A :=
  match best with
  | None => Some r
  | Some b => if before r b then Some r else Some b
  end.

Lemma not_before_step (x y z : A) :
  before x y = false -> before z y = true -> before x z = false.
Proof.
  intros Hxy Hzy. destruct (before x z) eqn:Hxz; [| reflexivity].
  rewrite (trans x z y Hxz Hzy) in Hxy. discriminate.
Qed.

Lemma fold_best (rows seen : list A) (best : option A) (r : A) :
  match best with
  | None => seen = []
  | Some b => In b seen /\ forall x, In x seen -> before x b = false
  end ->
  fold_left step rows best = Some r ->
  In r (seen ++ rows)
  /\ forall x, In x (seen ++ rows) -> before x r = false.
Proof.
  revert seen best.
  induction rows as [| y rows IH]; intros seen best Hinv; simpl.
  - intros ->. rewrite app_nil_r. exact Hinv.
  - intros Hfold.
    replace (seen ++ y :: rows) with ((seen ++ [y]) ++ rows)
      by (rewrite <- app_assoc; reflexivity).
    apply (IH (seen ++ [y]) (step best y)); [| exact Hfold].
    destruct best as [b |]; simpl.
    + destruct Hinv as [Hb Hmax].
      destruct (before y b) eqn:Hyb.
      * split; [apply in_or_app; right; left; reflexivity |].
        intros x Hx. apply in_app_or in Hx.
        destruct Hx as [Hx | [<- | []]].
        -- apply (not_before_step x b y (Hmax x Hx) Hyb).
        -- apply irrefl.
      * split; [apply in_or_app; left; exact Hb |].
        intros x Hx. apply in_app_or in Hx.
        destruct Hx as [Hx | [<- | []]]; [apply Hmax, Hx | exact Hyb].
    + subst seen. simpl. split; [left; reflexivity |].
      intros x [<- | []]. apply irrefl.
Qed.

(** [order_by(...).first()] returns a row of the table that no row
    sorts before. *)
Lemma order_by_first_max (rows : list A) (r : A) :
  order_by_first before rows = Some r ->
  In r rows /\ forall x, In x rows -> before x r = false.
Proof.
  intros H. apply (fold_best rows [] None r eq_refl H).
Qed.

Lemma order_by_first_none (rows : list A) :
  order_by_first before rows = None -> rows = [].
Proof.
  unfold order_by_first. destruct rows as [| y rows]; [reflexivity |].
  simpl. intros H. exfalso. revert H.
  generalize y. induction rows as [| z rows IH]; simpl; intros b.
  - discriminate.
  - destruct (before z b); apply IH.
Qed.

End OrderByFirst.

(** The transaction that [calculate_leave_balance] starts from is one of
    the employee's, and none of the employee's sorts before it: none has
    a later year, and none of the same year has a month name that is
    greater as a string. *)
Lemma prev_transaction_max (emp_id : string) (st : DB)
    (t : LeaveTransaction.t) :
  prev_transaction emp_id st = Some t ->
  In t (leave_transactions st)
  /\ LeaveTransaction.emp_id t = emp_id
  /\ forall x : LeaveTransaction.t,
       In x (leave_transactions st) ->
       LeaveTransaction.emp_id x = emp_id ->
       year_month_desc x t = false.
Proof.
  unfold prev_transaction. intros H.
  apply (order_by_first_max year_month_desc year_month_desc_irrefl
           year_month_desc_trans) in H.
  destruct H as [Hin Hmax].
  apply filter_In in Hin. destruct Hin as [Hin Hemp].
  split; [exact Hin |].
  split; [apply String.eqb_eq; exact Hemp |].
  intros x Hx Hxe. apply Hmax. apply filter_In.
  split; [exact Hx |]. unfold is_leave_of. apply String.eqb_eq. exact Hxe.
Qed.

(** An employee with no leave transaction starts from the stored
    balance. *)
Lemma starting_balance_no_transaction (employee : Employee.t) (st : DB) :
  (forall x : LeaveTransaction.t,
     In x (leave_transactions st) ->
     LeaveTransaction.emp_id x <> Employee.emp_id employee) ->
  starting_balance employee st = Employee.leave_balance employee.
Proof.
  intros Hnone. unfold starting_balance.
  destruct (prev_transaction (Employee.emp_id employee) st) as [t |] eqn:Ht;
    [| reflexivity].
  apply prev_transaction_max in Ht. destruct Ht as (Hin & Hemp & _).
  destruct (Hnone t Hin Hemp).
Qed.

(** An employee with a leave transaction starts from the closing balance
    of one of them, not from the stored balance. *)
Lemma starting_balance_some_transaction (employee : Employee.t) (st : DB)
    (x : LeaveTransaction.t) :
  In x (leave_transactions st) ->
  LeaveTransaction.emp_id x = Employee.emp_id employee ->
  exists t : LeaveTransaction.t,
    prev_transaction (Employee.emp_id employee) st = Some t
    /\ starting_balance employee st = LeaveTransaction.balance_after t.
Proof.
  intros Hin Hemp. unfold starting_balance.
  destruct (prev_transaction (Employee.emp_id employee) st) as [t |] eqn:Ht.
  - exists t. split; reflexivity.
  - unfold prev_transaction in Ht. apply order_by_first_none in Ht.
    assert (Hx : In x (filter (is_leave_of (Employee.emp_id employee))
                         (leave_transactions st))).
    { apply filter_In. split; [exact Hin |].
      unfold is_leave_of. apply String.eqb_eq. exact Hemp. }
    rewrite Ht in Hx. destruct Hx.
Qed.

(** C3.  January 2024 (no leave) and then February 2024 (2 days) are
    processed for John, who starts with 1.5 days.  January closes at 3,
    February at 2.5, and 2.5 is the stored balance.  The transaction
    found as the previous one is January's, since the string January is
    greater than February: a settlement for March starts from 3, not from
    2.5, and closes at 4.5 instead of 4. *)
Theorem C3_month_names_order :
  let st :=
    run_all [Sample.request 0 "January"; Sample.request 2 "February"]
      (Sample.only (Sample.john 50000 1.5)) in
  exists (january february : LeaveTransaction.t) (e : Employee.t),
    leave_transactions st = [january; february]
    /\ LeaveTransaction.month january = "January"%string
    /\ LeaveTransaction.balance_after january == 3
    /\ LeaveTransaction.month february = "February"%string
    /\ LeaveTransaction.balance_after february == 2.5
    /\ first (is_employee "EMP001") (employees st) = Some e
    /\ Employee.leave_balance e == 2.5
    /\ year_month_desc january february = true
    /\ prev_transaction "EMP001" st = Some january
    /\ starting_balance e st == 3
    /\ LeaveInfo.remaining_balance
         (fst (calculate_leave_balance 0 e 0 "March" 2024 st)) == 4.5.
Proof.
  intros st.
  eexists. eexists. eexists.
  split; [vm_compute; reflexivity |].
  split; [reflexivity |].
  split; [reflexivity |].
  split; [reflexivity |].
  split; [reflexivity |].
  split; [vm_compute; reflexivity |].
  vm_compute. repeat split.
Qed.

(** * Further properties of the engine *)

(** ** Rounding is monotone *)

Lemma round2_le (x y : Q) : x <= y -> round2 x <= round2 y.
Proof.
  intros Hxy.
  destruct (round2_hundredth x) as (kx & Ex & Hx).
  destruct (round2_hundredth y) as (ky & Ey & Hy).
  destruct (Z_le_gt_dec kx ky) as [Hle | Hgt].
  - rewrite Ex, Ey. unfold Qle. simpl. lia.
  - assert (Hk : inject_Z ky + 1 <= inject_Z kx).
    { change (inject_Z ky + inject_Z 1 <= inject_Z kx).
      rewrite <- inject_Z_plus, <- Zle_Qle. lia. }
    assert (Heq : x == y).
    { set (a := inject_Z kx) in *. set (b := inject_Z ky) in *.
      clearbody a b. lra. }
    pose proof (round2_ext x y Heq) as H. rewrite H. apply Qle_refl.
Qed.

Lemma round2_whole (n : Z) : round2 (inject_Z n) == inject_Z n.
Proof. apply round2_fixed, two_decimals_whole. Qed.

Lemma round2_nonneg (x : Q) : 0 <= x -> 0 <= round2 x.
Proof.
  intros H. pose proof (round2_le 0 x H) as Hr.
  pose proof (round2_whole 0) as H0. change (inject_Z 0) with 0 in H0.
  lra.
Qed.

Lemma round2_nonpos (x : Q) : x <= 0 -> round2 x <= 0.
Proof.
  intros H. pose proof (round2_le x 0 H) as Hr.
  pose proof (round2_whole 0) as H0. change (inject_Z 0) with 0 in H0.
  lra.
Qed.

(** ** The provident fund stays within its cap *)

(** X1.  Whatever the CTC, the employee PF and the employer PF computed
    by [calculate_salary_components] never exceed the cap of 1800, also
    after rounding; they are not negative when the CTC is not negative,
    and then the total deductions are at least the additional deduction
    rounded to two decimals. *)
Theorem pf_within_cap (ctc_monthly : Q) (pf_opted : bool) (deduction : Q) :
  let c := calculate_salary_components ctc_monthly pf_opted deduction in
  c pf_employee <= 1800
  /\ c pf_employer <= 1800
  /\ (0 <= ctc_monthly ->
      0 <= c basic /\ 0 <= c pf_employee /\ 0 <= c pf_employer
      /\ round2 deduction <= c total_deductions).
Proof.
  intros c.
  pose proof (pf_employee_eq ctc_monthly pf_opted deduction) as Ee.
  pose proof (pf_employer_eq ctc_monthly pf_opted deduction) as Er.
  pose proof (basic_eq ctc_monthly pf_opted deduction) as Eb.
  pose proof (total_deductions_eq ctc_monthly pf_opted deduction) as Et.
  destruct (other_deductions_eq ctc_monthly pf_opted deduction)
    as (Ev & Ep & Ec & Em & Ea).
  fold c in Ee, Er, Eb, Et, Ev, Ep, Ec, Em, Ea.
  assert (Hcap : round2 (min (c basic * 0.12) 1800) <= 1800).
  { pose proof (round2_le (min (c basic * 0.12) 1800) 1800) as H.
    pose proof (round2_whole 1800) as H18.
    change (inject_Z 1800) with 1800 in H18.
    assert (Hm : min (c basic * 0.12) 1800 <= 1800).
    { destruct (min_cases (c basic * 0.12) 1800) as [[Hm E] | [Hm E]];
        set (m := min (c basic * 0.12) 1800) in *; clearbody m; lra. }
    specialize (H Hm). lra. }
  assert (Hpf : c pf_employee <= 1800).
  { rewrite Ee. destruct pf_opted; [exact Hcap | discriminate]. }
  split; [exact Hpf |].
  split; [rewrite Er, <- Ee; exact Hpf |].
  intros Hctc.
  assert (Hb : 0 <= c basic).
  { rewrite Eb. apply round2_nonneg. lra. }
  assert (Hlow : 0 <= c pf_employee).
  { rewrite Ee. destruct pf_opted; [| discriminate].
    apply round2_nonneg.
    destruct (min_cases (c basic * 0.12) 1800) as [[Hm E] | [Hm E]];
      set (m := min (c basic * 0.12) 1800) in *; clearbody m; lra. }
  split; [exact Hb |].
  split; [exact Hlow |].
  split; [rewrite Er, <- Ee; exact Hlow |].
  rewrite Et. apply round2_le. rewrite Ev, Ep, Ec, Em, Ea. lra.
Qed.

(** ** What a leave settlement conserves *)

(** X2.  Whatever the balance and the leave taken (negative values
    included), a settlement splits the leave taken into the part the
    balance covers and the unpaid part; the unpaid part and the remaining
    balance are never negative, the remaining balance is
    max(available - leaves_taken, 0), and at most one of the two is
    positive. *)
Theorem leave_settlement_split
    (utcnow : Z) (employee : Employee.t) (leaves_taken : Q)
    (month : string) (year : Z) (st : DB) :
  let available := starting_balance employee st + monthly_allocation in
  let info :=
    fst (calculate_leave_balance utcnow employee leaves_taken month year st) in
  LeaveInfo.leave_balance_used info + LeaveInfo.loss_of_pay_days info
  == leaves_taken
  /\ LeaveInfo.leave_balance_used info <= available
  /\ 0 <= LeaveInfo.loss_of_pay_days info
  /\ 0 <= LeaveInfo.remaining_balance info
  /\ LeaveInfo.remaining_balance info == max 0 (available - leaves_taken)
  /\ LeaveInfo.loss_of_pay_days info * LeaveInfo.remaining_balance info == 0.
Proof.
  intros available info. subst info.
  rewrite settled_info.
  cbn [LeaveInfo.leave_balance_used LeaveInfo.loss_of_pay_days
       LeaveInfo.remaining_balance].
  fold available.
  destruct (min_cases leaves_taken available) as [[H1 E1] | [H1 E1]];
    destruct (max_cases 0 (leaves_taken - available)) as [[H2 E2] | [H2 E2]];
    destruct (max_cases 0 (available - leaves_taken)) as [[H3 E3] | [H3 E3]];
    set (u := min leaves_taken available) in *;
    set (l := max 0 (leaves_taken - available)) in *;
    set (r := max 0 (available - leaves_taken)) in *;
    clearbody u l r;
    (repeat split; try lra);
    first [ assert (Z1 : l == 0) by lra; rewrite Z1; ring
          | assert (Z2 : available - u == 0) by lra; rewrite Z2; ring ].
Qed.

(** ** Loss of pay lowers what it scales *)

Lemma scaled_amount (x lop : Q) :
  0 <= x ->
  (0 <= lop -> lop <= 30 ->
   0 <= round2 (x * (1 - lop / 30.0)) <= round2 x)
  /\ (30 <= lop -> round2 (x * (1 - lop / 30.0)) <= 0).
Proof.
  intros Hx.
  set (r := lop / 30.0).
  assert (Hr : r * 30 == lop) by (unfold r; field).
  split.
  - intros H0 H30.
    assert (Hp : 0 <= x * r) by (apply Qmult_le_0_compat; lra).
    assert (Hq : 0 <= x * (1 - r)) by (apply Qmult_le_0_compat; lra).
    assert (E : x * (1 - r) == x - x * r) by ring.
    split.
    + apply round2_nonneg. exact Hq.
    + apply round2_le. rewrite E. lra.
  - intros H30.
    assert (Hp : 0 <= x * (r - 1)) by (apply Qmult_le_0_compat; lra).
    assert (E : x * (1 - r) == - (x * (r - 1))) by ring.
    apply round2_nonpos. rewrite E. lra.
Qed.

(** X3.  In a run of [process_individual_payroll], for each of the five
    scaled components whose unscaled value is not negative: with at most
    30 unpaid days the stored component lies between 0 and the unscaled
    value, so loss of pay never raises pay; with 30 unpaid days or more
    (more leave than the month has days is accepted) the stored
    component is zero or negative. *)
Theorem loss_of_pay_lowers_components
    (current_user : string) (utcnow : Z) (form : Form.t) (st : DB)
    (employee : Employee.t) (k : key) :
  first (is_employee (Form.emp_id form)) (employees st) = Some employee ->
  scaled_key k ->
  let loss_of_pay_days :=
    LeaveInfo.loss_of_pay_days (leave_info_of utcnow form employee st) in
  let unscaled := unadjusted_components_of form employee k in
  let stored := salary_components_of utcnow form employee st k in
  0 <= unscaled ->
  (loss_of_pay_days <= 30 -> 0 <= stored <= unscaled)
  /\ (30 <= loss_of_pay_days -> stored <= 0)
  /\ first (is_payroll (Form.emp_id form) (Form.month form) (Form.year form))
       (payroll (snd (process_individual_payroll current_user utcnow form st)))
     = Some (payroll_row_of current_user utcnow form employee st).
Proof.
  intros Hfound Hk lop unscaled stored Hx.
  assert (Hstored :
    stored = if Qgtb lop 0
             then round2 (unscaled * (1 - lop / 30.0)) else unscaled).
  { subst stored unscaled lop. unfold salary_components_of.
    apply scaled_component. exact Hk. }
  assert (Hfix : round2 unscaled == unscaled).
  { apply round2_fixed. subst unscaled. unfold unadjusted_components_of.
    apply unadjusted_fixed_two_decimals. exact Hk. }
  destruct (scaled_amount unscaled lop Hx) as [Hlow Hhigh].
  split; [| split].
  - intros H30. rewrite Hstored.
    destruct (Qgtb lop 0) eqn:E.
    + apply Qgtb_lt in E.
      destruct Hlow as [H1 H2]; [lra | exact H30 |].
      split; [exact H1 | lra].
    + split; [exact Hx | apply Qle_refl].
  - intros H30. rewrite Hstored.
    assert (E : Qgtb lop 0 = true) by (apply Qgtb_lt; lra).
    rewrite E. apply Hhigh. exact H30.
  - apply processed_row. exact Hfound.
Qed.

(** John on a CTC of 50000 with no balance takes 16.5 days: 15 days are
    unpaid, and the basic salary stored is between 0 and 25000. *)
Lemma loss_of_pay_lowers_components_witness :
  0 <= salary_components_of 0 (Sample.form 16.5 "January")
         (Sample.john 50000 0) (Sample.only (Sample.john 50000 0)) basic
    <= unadjusted_components_of (Sample.form 16.5 "January")
         (Sample.john 50000 0) basic.
Proof.
  assert (Hk : scaled_key basic) by (left; reflexivity).
  assert (Hx : 0 <= unadjusted_components_of (Sample.form 16.5 "January")
                      (Sample.john 50000 0) basic)
    by (vm_compute; discriminate).
  destruct (loss_of_pay_lowers_components "hr" 0 (Sample.form 16.5 "January")
              (Sample.only (Sample.john 50000 0)) (Sample.john 50000 0) basic
              eq_refl Hk Hx) as [Hlow _].
  apply Hlow. vm_compute. discriminate.
Defined.

(** ** The second run of an employee *)

Lemma filter_none {A : Type} (f : A -> bool) (l : list A) :
  (forall x, In x l -> f x = false) -> filter f l = [].
Proof.
  induction l as [| a l IH]; simpl; intros H; [reflexivity |].
  rewrite (H a (or_introl eq_refl)). apply IH.
  intros x Hx. apply H. right. exact Hx.
Qed.

(** After the first settlement of an employee the transaction it wrote
    is the one found as the previous one. *)
Lemma prev_transaction_after_first
    (utcnow : Z) (employee : Employee.t) (leaves_taken : Q)
    (month : string) (year : Z) (st : DB) :
  (forall t, In t (leave_transactions st) ->
     LeaveTransaction.emp_id t <> Employee.emp_id employee) ->
  let st' :=
    snd (calculate_leave_balance utcnow employee leaves_taken month year st) in
  exists t : LeaveTransaction.t,
    prev_transaction (Employee.emp_id employee) st' = Some t
    /\ LeaveTransaction.balance_after t
       = LeaveInfo.remaining_balance
           (fst (calculate_leave_balance utcnow employee leaves_taken month
                   year st)).
Proof.
  intros Hnone st'. subst st'.
  rewrite settled_store, settled_info. unfold prev_transaction.
  cbn [leave_transactions LeaveInfo.remaining_balance].
  rewrite filter_app.
  rewrite (filter_none _ (leave_transactions st)).
  - cbn [filter app]. unfold is_leave_of at 1.
    cbn [LeaveTransaction.emp_id]. rewrite String.eqb_refl.
    eexists. split; [reflexivity |]. reflexivity.
  - intros t Ht. unfold is_leave_of. apply String.eqb_neq.
    apply Hnone. exact Ht.
Qed.

(** X4.  For an employee without leave transactions, the second run
    starts from the closing balance of the first, whatever the periods of
    the two runs.  The two runs may be for the same period: processing a
    period again allocates its 1.5 days again, so two runs without leave
    leave the balance 3 days higher. *)
Theorem second_run_starts_from_first
    (user1 user2 : string) (now1 now2 : Z) (form1 form2 : Form.t) (st : DB)
    (employee : Employee.t) :
  first (is_employee (Form.emp_id form1)) (employees st) = Some employee ->
  Form.emp_id form2 = Form.emp_id form1 ->
  (forall t, In t (leave_transactions st) ->
     LeaveTransaction.emp_id t <> Form.emp_id form1) ->
  let st1 := snd (process_individual_payroll user1 now1 form1 st) in
  let closing := LeaveInfo.remaining_balance
                   (leave_info_of now1 form1 employee st) in
  exists e1 : Employee.t,
    first (is_employee (Form.emp_id form2)) (employees st1) = Some e1
    /\ Employee.leave_balance e1 = closing
    /\ starting_balance e1 st1 = closing
    /\ (0 <= Employee.leave_balance employee ->
        Form.leaves_taken form1 == 0 -> Form.leaves_taken form2 == 0 ->
        LeaveInfo.remaining_balance (leave_info_of now2 form2 e1 st1)
        == Employee.leave_balance employee + 3).
Proof.
  intros Hfound Hsame Hnone st1 closing.
  pose proof (found_emp_id form1 st employee Hfound) as Hid.
  assert (Hmatch : is_employee (Form.emp_id form1) employee = true)
    by (apply first_some in Hfound; exact (proj2 Hfound)).
  assert (Hnone' : forall t, In t (leave_transactions st) ->
            LeaveTransaction.emp_id t <> Employee.emp_id employee)
    by (rewrite Hid; exact Hnone).
  exists (Employee.set_leave_balance closing employee).
  assert (Hemp : employees st1
                 = update_first (is_employee (Form.emp_id form1))
                     (Employee.set_leave_balance closing) (employees st)).
  { subst st1.
    rewrite (processed_employees user1 now1 form1 st employee Hfound).
    rewrite settled_store. cbn [employees]. rewrite Hid.
    subst closing. unfold leave_info_of. rewrite settled_info. reflexivity. }
  assert (Hstart :
    starting_balance (Employee.set_leave_balance closing employee) st1
    = closing).
  { destruct (prev_transaction_after_first now1 employee
                (Form.leaves_taken form1) (Form.month form1)
                (Form.year form1) st Hnone') as (t & Ht & Hbal).
    unfold starting_balance, prev_transaction.
    cbn [Employee.emp_id Employee.set_leave_balance].
    subst st1.
    rewrite (processed_leave_transactions user1 now1 form1 st employee
               Hfound).
    unfold prev_transaction in Ht. rewrite Ht. exact Hbal. }
  split; [| split; [reflexivity | split; [exact Hstart |]]].
  - rewrite Hsame, Hemp.
    apply first_update_first; [exact Hfound | exact Hmatch].
  - intros Hb H1 H2.
    assert (Hno : starting_balance employee st
                  = Employee.leave_balance employee)
      by (apply starting_balance_no_transaction; exact Hnone').
    assert (Hclosing : closing == Employee.leave_balance employee + 1.5).
    { subst closing. unfold leave_info_of. rewrite settled_info.
      cbn [LeaveInfo.remaining_balance]. rewrite Hno.
      unfold monthly_allocation.
      destruct (min_cases (Form.leaves_taken form1)
                  (Employee.leave_balance employee + 1.5))
        as [[Hm E] | [Hm E]];
        set (m := min (Form.leaves_taken form1)
                    (Employee.leave_balance employee + 1.5)) in *;
        clearbody m; lra. }
    unfold leave_info_of. rewrite settled_info.
    cbn [LeaveInfo.remaining_balance]. rewrite Hstart.
    unfold monthly_allocation.
    destruct (min_cases (Form.leaves_taken form2) (closing + 1.5))
      as [[Hm E] | [Hm E]];
      set (m := min (Form.leaves_taken form2) (closing + 1.5)) in *;
      clearbody m; lra.
Qed.

(** January is processed twice for John without leave: the balance of
    1.5 becomes 4.5. *)
Lemma second_run_starts_from_first_witness :
  exists e1 : Employee.t,
    first (is_employee "EMP001")
      (employees (run (Sample.only (Sample.john 50000 1.5))
                    (Sample.request 0 "January")))
    = Some e1
    /\ LeaveInfo.remaining_balance
         (leave_info_of 0 (Sample.form 0 "January") e1
            (run (Sample.only (Sample.john 50000 1.5))
               (Sample.request 0 "January")))
       == 4.5.
Proof.
  destruct (second_run_starts_from_first "hr" "hr" 0 0
              (Sample.form 0 "January") (Sample.form 0 "January")
              (Sample.only (Sample.john 50000 1.5)) (Sample.john 50000 1.5)
              eq_refl eq_refl (fun t (H : In t []) => False_ind _ H))
    as (e1 & He & _ & _ & Hbal).
  exists e1. split; [exact He |].
  assert (H0 : 0 <= Employee.leave_balance (Sample.john 50000 1.5))
    by discriminate.
  rewrite (Hbal H0 ltac:(reflexivity) ltac:(reflexivity)). reflexivity.
Defined.

(** * The routes *)

(** ** Adding an employee *)

Section AddingEmployees.

Variable float : string -> option Q.
Variable strptime_date : string -> string -> option Z.
Variable re_match : string -> string -> bool.
Variable new_employee_id : list Employee.t -> Z.
Variable current_user : User.t.
Variable utcnow : Z.
Variable form : EmployeeForm.t.
Variable st : DB.

Let added :=
  add_employee float strptime_date re_match new_employee_id current_user
    utcnow form st.

(** The checks that [add_employee] makes, all passed. *)
Let accepted (ctc_monthly : Q) (joining_date : Z) : Prop :=
  is_empty (EmployeeForm.emp_id form) = false
  /\ is_empty (EmployeeForm.name form) = false
  /\ is_empty (EmployeeForm.email form) = false
  /\ is_empty (EmployeeForm.ctc_monthly_str form) = false
  /\ first (is_employee (EmployeeForm.emp_id form)) (employees st) = None
  /\ first (has_email (EmployeeForm.email form)) (employees st) = None
  /\ float (EmployeeForm.ctc_monthly_str form) = Some ctc_monthly
  /\ 0 < ctc_monthly
  /\ re_match email_pattern (EmployeeForm.email form) = true
  /\ strptime_date (EmployeeForm.joining_date_str form) "%Y-%m-%d"
     = Some joining_date.

(** The row that [add_employee] adds. *)
Let new_row (ctc_monthly : Q) (joining_date : Z) : Employee.t :=
  {| Employee.id := new_employee_id (employees st);
     Employee.emp_id := EmployeeForm.emp_id form;
     Employee.name := EmployeeForm.name form;
     Employee.email := EmployeeForm.email form;
     Employee.designation := Some (EmployeeForm.designation form);
     Employee.department := Some (EmployeeForm.department form);
     Employee.joining_date := Some joining_date;
     Employee.ctc_monthly := ctc_monthly;
     Employee.ctc_annual := ctc_monthly * 12;
     Employee.pf_opted := EmployeeForm.pf_opted form;
     Employee.leave_balance := 1.5;
     Employee.created_by := User.username current_user;
     Employee.created_at := utcnow |}.

Lemma Qle_bool_false (a b : Q) : Qle_bool a b = false <-> b < a.
Proof.
  split.
  - intros H. apply Qnot_le_lt. intros Hle.
    apply Qle_bool_iff in Hle. congruence.
  - intros H. destruct (Qle_bool a b) eqn:E; [| reflexivity].
    apply Qle_bool_iff in E. lra.
Qed.

(** Either a check fails and the store is as it was, or all checks pass
    and the new row is appended. *)
Lemma add_employee_cases :
  (fst added <> EmployeeAdded /\ snd added = st
   /\ forall ctc_monthly joining_date, ~ accepted ctc_monthly joining_date)
  \/ (exists ctc_monthly joining_date,
        accepted ctc_monthly joining_date
        /\ added
           = (EmployeeAdded,
              {| employees := employees st ++ [new_row ctc_monthly joining_date];
                 payroll := payroll st;
                 leave_transactions := leave_transactions st |})).
Proof.
  subst added accepted new_row. unfold add_employee.
  destruct (is_empty (EmployeeForm.emp_id form)) eqn:E1;
    [left; repeat split; try discriminate; intros c d H;
     decompose [and] H; congruence |].
  destruct (is_empty (EmployeeForm.name form)) eqn:E2;
    [left; repeat split; try discriminate; intros c d H;
     decompose [and] H; congruence |].
  destruct (is_empty (EmployeeForm.email form)) eqn:E3;
    [left; repeat split; try discriminate; intros c d H;
     decompose [and] H; congruence |].
  destruct (is_empty (EmployeeForm.ctc_monthly_str form)) eqn:E4;
    [left; repeat split; try discriminate; intros c d H;
     decompose [and] H; congruence |].
  destruct (first (is_employee (EmployeeForm.emp_id form)) (employees st))
    eqn:E5;
    [left; repeat split; try discriminate; intros c d H;
     decompose [and] H; congruence |].
  destruct (first (has_email (EmployeeForm.email form)) (employees st))
    eqn:E6;
    [left; repeat split; try discriminate; intros c d H;
     decompose [and] H; congruence |].
  destruct (float (EmployeeForm.ctc_monthly_str form)) as [ctc |] eqn:E7;
    [| left; repeat split; try discriminate; intros c d H;
       decompose [and] H; congruence].
  destruct (Qle_bool ctc 0) eqn:E8.
  { left. repeat split; try discriminate. intros c d H.
    decompose [and] H.
    assert (c = ctc) by congruence. subst c.
    apply Qle_bool_iff in E8. lra. }
  destruct (re_match email_pattern (EmployeeForm.email form)) eqn:E9;
    [| left; repeat split; try discriminate; intros c d H;
       decompose [and] H; congruence].
  cbn [negb].
  destruct (strptime_date (EmployeeForm.joining_date_str form) "%Y-%m-%d")
    as [date |] eqn:E10;
    [| left; repeat split; try discriminate; intros c d H;
       decompose [and] H; congruence].
  right. exists ctc, date. split; [| reflexivity].
  apply Qle_bool_false in E8. repeat split; assumption.
Qed.

End AddingEmployees.

(** X5.  [add_employee] adds an employee exactly when every check
    passes: the ID, name, email and CTC fields are not empty, no stored
    employee has the ID or the email, the CTC is a number greater than 0,
    the email matches the pattern and the joining date parses.  Then one
    row is appended, with the form's values, a leave balance of 1.5, an
    annual CTC of twelve times the monthly CTC and the logged-in user as
    creator, and nothing else changes; otherwise the store is as it
    was. *)
Theorem add_employee_checks
    (float : string -> option Q)
    (strptime_date : string -> string -> option Z)
    (re_match : string -> string -> bool)
    (new_employee_id : list Employee.t -> Z)
    (current_user : User.t) (utcnow : Z) (form : EmployeeForm.t) (st : DB) :
  let added :=
    add_employee float strptime_date re_match new_employee_id current_user
      utcnow form st in
  (fst added = EmployeeAdded <->
   exists ctc_monthly joining_date,
     is_empty (EmployeeForm.emp_id form) = false
     /\ is_empty (EmployeeForm.name form) = false
     /\ is_empty (EmployeeForm.email form) = false
     /\ is_empty (EmployeeForm.ctc_monthly_str form) = false
     /\ first (is_employee (EmployeeForm.emp_id form)) (employees st) = None
     /\ first (has_email (EmployeeForm.email form)) (employees st) = None
     /\ float (EmployeeForm.ctc_monthly_str form) = Some ctc_monthly
     /\ 0 < ctc_monthly
     /\ re_match email_pattern (EmployeeForm.email form) = true
     /\ strptime_date (EmployeeForm.joining_date_str form) "%Y-%m-%d"%string
        = Some joining_date)
  /\ (fst added <> EmployeeAdded -> snd added = st)
  /\ (fst added = EmployeeAdded ->
      exists e : Employee.t,
        employees (snd added) = employees st ++ [e]
        /\ payroll (snd added) = payroll st
        /\ leave_transactions (snd added) = leave_transactions st
        /\ Employee.emp_id e = EmployeeForm.emp_id form
        /\ Employee.name e = EmployeeForm.name form
        /\ Employee.email e = EmployeeForm.email form
        /\ float (EmployeeForm.ctc_monthly_str form)
           = Some (Employee.ctc_monthly e)
        /\ 0 < Employee.ctc_monthly e
        /\ Employee.ctc_annual e = Employee.ctc_monthly e * 12
        /\ Employee.pf_opted e = EmployeeForm.pf_opted form
        /\ Employee.leave_balance e = 1.5
        /\ Employee.created_by e = User.username current_user).
Proof.
  intros added.
  destruct (add_employee_cases float strptime_date re_match new_employee_id
              current_user utcnow form st)
    as [(Hflash & Hst & Hno) | (ctc & date & Hacc & Hadded)];
    fold added in Hflash, Hst || fold added in Hadded.
  - split; [split |].
    + intros H. contradiction.
    + intros (c & d & H). destruct (Hno c d H).
    + split; [intros _; exact Hst | intros H; contradiction].
  - rewrite Hadded. cbn [fst snd].
    split; [split |].
    + intros _. exists ctc, date. exact Hacc.
    + intros _. reflexivity.
    + split; [intros H; contradiction H; reflexivity |].
      intros _. eexists. cbn [employees payroll leave_transactions].
      split; [reflexivity |].
      cbn [Employee.emp_id Employee.name Employee.email Employee.ctc_monthly
           Employee.ctc_annual Employee.pf_opted Employee.leave_balance
           Employee.created_by].
      decompose [and] Hacc. repeat split; assumption.
Qed.

(** ** Bulk payroll *)

(** [employer_pf] and [employee_pf] are not keys of the dict (its PF keys
    are [pf_employer] and [pf_employee]). *)
Lemma getitem_employer_pf (c : components) :
  getitem c "employer_pf" = None /\ getitem c "employee_pf" = None.
Proof. split; reflexivity. Qed.

(** Every key is found under its name. *)
Lemma getitem_key_name (c : components) (k : key) :
  getitem c (key_name k) = Some (c k).
Proof. destruct k; reflexivity. Qed.

(** The assignments stop at [salary_components['employer_pf']]. *)
Lemma assign_columns_bulk (c : components) (p : Payroll.t) :
  assign_columns c bulk_assignments p = (with_earnings c p, Some "employer_pf"%string).
Proof. reflexivity. Qed.

(** Adjusting for days worked scales every key of the dict, the totals
    and the deductions too. *)
Lemma adjust_for_days_worked_key (days_worked : Z) (c : components) (k : key) :
  adjust_for_days_worked days_worked c k
  = if (days_worked =? 30)%Z then c k
    else round2 (c k * (inject_Z days_worked / 30.0)).
Proof.
  unfold adjust_for_days_worked.
  destruct (days_worked =? 30)%Z; cbn [negb]; [reflexivity |].
  destruct k; reflexivity.
Qed.

Section BulkRows.

Variable current_user : User.t.
Variable utcnow : Z.
Variable month : string.
Variable year : Z.

(** The dict of one row, after the adjustment for days worked. *)
Let row_components (employee : Employee.t) (row : BulkRow.t) : components :=
  adjust_for_days_worked (BulkRow.days_worked row)
    (calculate_salary_components (Employee.ctc_monthly employee)
       (BulkRow.pf_opted row) 0.0).

(** One row of the sheet never counts as a success.  It changes the store
    only when the employee and a payroll row for the period exist: then
    that row gets the attendance and the earnings of the sheet's row. *)
Lemma bulk_process_row_result (st : DB) (row : option BulkRow.t) :
  bulk_process_row current_user utcnow month year st row
  = (false,
     match row with
     | None => st
     | Some r =>
         match first (is_employee (BulkRow.emp_id r)) (employees st),
               first (is_payroll (BulkRow.emp_id r) month year) (payroll st)
         with
         | Some employee, Some existing =>
             {| employees := employees st;
                payroll :=
                  update_first (is_payroll (BulkRow.emp_id r) month year)
                    (fun _ =>
                       with_earnings (row_components employee r)
                         (bulk_attendance (BulkRow.days_worked r) existing))
                    (payroll st);
                leave_transactions := leave_transactions st |}
         | _, _ => st
         end
     end).
Proof.
  unfold bulk_process_row, row_components.
  destruct row as [r |]; [| reflexivity].
  destruct (first (is_employee (BulkRow.emp_id r)) (employees st))
    as [employee |]; [| reflexivity].
  destruct (first (is_payroll (BulkRow.emp_id r) month year) (payroll st))
    as [existing |]; rewrite assign_columns_bulk; reflexivity.
Qed.

Lemma map_update_first_on {A B : Type} (filter_by : A -> bool)
    (proj : A -> B) (f : A -> A) (rows : list A) :
  (forall r, filter_by r = true -> proj (f r) = proj r) ->
  map proj (update_first filter_by f rows) = map proj rows.
Proof.
  intros Hf. induction rows as [| x rows IH]; simpl; [reflexivity |].
  destruct (filter_by x) eqn:Hx; simpl.
  - rewrite (Hf x Hx). reflexivity.
  - rewrite IH. reflexivity.
Qed.

Lemma bulk_process_row_frame (st : DB) (row : option BulkRow.t) :
  let st' := snd (bulk_process_row current_user utcnow month year st row) in
  employees st' = employees st
  /\ leave_transactions st' = leave_transactions st
  /\ map payroll_key (payroll st') = map payroll_key (payroll st).
Proof.
  intros st'. subst st'. rewrite bulk_process_row_result. cbn [snd].
  destruct row as [r |]; [| repeat split].
  destruct (first (is_employee (BulkRow.emp_id r)) (employees st))
    as [employee |]; [| repeat split].
  destruct (first (is_payroll (BulkRow.emp_id r) month year) (payroll st))
    as [existing |] eqn:Hex; [| repeat split].
  cbn [employees payroll leave_transactions].
  split; [reflexivity | split; [reflexivity |]].
  apply map_update_first_on. intros p Hp.
  apply first_some in Hex. destruct Hex as [_ Hk].
  apply is_payroll_key in Hp. apply is_payroll_key in Hk.
  rewrite Hp, <- Hk. reflexivity.
Qed.

End BulkRows.

Lemma bulk_rows_fold
    (current_user : User.t) (utcnow : Z) (month : string) (year : Z)
    (rows : list (option BulkRow.t)) (s e : nat) (st : DB) :
  let result :=
    fold_left
      (fun '(success_count, error_count, st) row =>
         let '(ok, st) :=
           bulk_process_row current_user utcnow month year st row in
         if ok then (S success_count, error_count, st)
         else (success_count, S error_count, st))
      rows (s, e, st) in
  fst (fst result) = s
  /\ snd (fst result) = (e + length rows)%nat
  /\ employees (snd result) = employees st
  /\ leave_transactions (snd result) = leave_transactions st
  /\ map payroll_key (payroll (snd result)) = map payroll_key (payroll st).
Proof.
  revert s e st.
  induction rows as [| row rows IH]; intros s e st; cbn [fold_left].
  - cbn [fst snd length]. repeat split. lia.
  - destruct (bulk_process_row_frame current_user utcnow month year st row)
      as (He & Hl & Hk).
    rewrite bulk_process_row_result in *. cbn [snd] in He, Hl, Hk.
    destruct (IH s (S e)
                match row with
                | None => st
                | Some r =>
                    match first (is_employee (BulkRow.emp_id r)) (employees st),
                          first (is_payroll (BulkRow.emp_id r) month year)
                            (payroll st)
                    with
                    | Some employee, Some existing =>
                        {| employees := employees st;
                           payroll :=
                             update_first
                               (is_payroll (BulkRow.emp_id r) month year)
                               (fun _ =>
                                  with_earnings
                                    (adjust_for_days_worked
                                       (BulkRow.days_worked r)
                                       (calculate_salary_components
                                          (Employee.ctc_monthly employee)
                                          (BulkRow.pf_opted r) 0.0))
                                    (bulk_attendance (BulkRow.days_worked r)
                                       existing))
                               (payroll st);
                           leave_transactions := leave_transactions st |}
                    | _, _ => st
                    end
                end)
      as (H1 & H2 & H3 & H4 & H5).
    cbn [length].
    split; [exact H1 |].
    split; [rewrite H2; lia |].
    split; [rewrite H3; exact He |].
    split; [rewrite H4; exact Hl |].
    rewrite H5. exact Hk.
Qed.

(** What [bulk_process_payroll] leaves of the three tables. *)
Lemma bulk_process_payroll_store
    (current_user : User.t) (utcnow : Z) (month : string) (year : Z)
    (upload : option Upload.t) (st : DB) :
  let st' :=
    snd (bulk_process_payroll current_user utcnow month year upload st) in
  employees st' = employees st
  /\ leave_transactions st' = leave_transactions st
  /\ map payroll_key (payroll st') = map payroll_key (payroll st).
Proof.
  intros st'. subst st'. unfold bulk_process_payroll.
  destruct upload as [file |]; [| repeat split].
  destruct (is_empty (Upload.filename file)); [repeat split |].
  destruct (Upload.rows file) as [rows |]; [| repeat split].
  pose proof (bulk_rows_fold current_user utcnow month year rows 0 0 st)
    as Hfold.
  cbv zeta in Hfold.
  destruct (fold_left _ rows (0%nat, 0%nat, st)) as [[s e] st'].
  cbn [fst snd] in Hfold |- *.
  destruct Hfold as (_ & _ & H1 & H2 & H3).
  repeat split; assumption.
Qed.

(** X6.  [bulk_process_payroll] never counts a row as processed and never
    adds a payroll row: for every sheet that can be read, the message
    reports 0 payrolls processed and one error per row of the sheet, and
    the payroll table keeps its keys, row by row.  It never touches the
    employees or the leave ledger. *)
Theorem bulk_process_payroll_never_succeeds
    (current_user : User.t) (utcnow : Z) (month : string) (year : Z)
    (upload : option Upload.t) (st : DB) :
  let result :=
    bulk_process_payroll current_user utcnow month year upload st in
  employees (snd result) = employees st
  /\ leave_transactions (snd result) = leave_transactions st
  /\ map payroll_key (payroll (snd result)) = map payroll_key (payroll st)
  /\ length (payroll (snd result)) = length (payroll st)
  /\ forall (file : Upload.t) (rows : list (option BulkRow.t)),
       upload = Some file ->
       is_empty (Upload.filename file) = false ->
       Upload.rows file = Some rows ->
       fst result = ProcessedPayrolls 0 (length rows).
Proof.
  intros result.
  assert (H : employees (snd result) = employees st
              /\ leave_transactions (snd result) = leave_transactions st
              /\ map payroll_key (payroll (snd result))
                 = map payroll_key (payroll st)
              /\ forall file rows,
                   upload = Some file ->
                   is_empty (Upload.filename file) = false ->
                   Upload.rows file = Some rows ->
                   fst result = ProcessedPayrolls 0 (length rows)).
  { subst result. unfold bulk_process_payroll.
    destruct upload as [file |];
      [| repeat split; intros f r Hf; discriminate Hf].
    destruct (is_empty (Upload.filename file)) eqn:Hname;
      [repeat split; intros f r Hf; injection Hf as <-; congruence |].
    destruct (Upload.rows file) as [rows |] eqn:Hrows;
      [| repeat split; intros f r Hf; injection Hf as <-; congruence].
    pose proof (bulk_rows_fold current_user utcnow month year rows 0 0 st)
      as Hfold.
    cbv zeta in Hfold.
    destruct (fold_left _ rows (0%nat, 0%nat, st)) as [[s e] st'].
    cbn [fst snd] in Hfold |- *.
    destruct Hfold as (Hs & He & H1 & H2 & H3).
    repeat split; try assumption.
    intros f r Hf _ Hr. injection Hf as <-.
    assert (r = rows) by congruence. subst. reflexivity. }
  destruct H as (H1 & H2 & H3 & H4).
  repeat split; try assumption.
  rewrite <- (length_map payroll_key (payroll (snd result))), H3.
  apply length_map.
Qed.

(** X7.  When the sheet names an employee who has a payroll row for the
    period, [bulk_process_payroll] overwrites the attendance columns
    (total, present and paid days become the days worked, leaves 0) and
    the nine earnings columns (the five fixed components become the
    component times days_worked / 30 to the paisa, or the component
    itself for 30 days; the four variable ones 0), and then fails: the
    PF, the gross salary, the total deductions, the net salary, the hike
    and the processing stamp of the row stay as they were, so the totals
    no longer belong to the earnings. *)
Theorem bulk_process_payroll_partial_update
    (current_user : User.t) (utcnow : Z) (month : string) (year : Z)
    (st : DB) (r : BulkRow.t) (employee : Employee.t) (existing : Payroll.t) :
  first (is_employee (BulkRow.emp_id r)) (employees st) = Some employee ->
  first (is_payroll (BulkRow.emp_id r) month year) (payroll st)
  = Some existing ->
  let st' :=
    snd (bulk_process_row current_user utcnow month year st (Some r)) in
  let days_worked := BulkRow.days_worked r in
  let c :=
    calculate_salary_components (Employee.ctc_monthly employee)
      (BulkRow.pf_opted r) 0.0 in
  let scaled (k : key) (stored : Q) : Prop :=
    if (days_worked =? 30)%Z then stored = c k
    else Qabs (stored - c k * (inject_Z days_worked / 30)) < 0.01 in
  exists p : Payroll.t,
    first (is_payroll (BulkRow.emp_id r) month year) (payroll st') = Some p
    /\ length (payroll st') = length (payroll st)
    /\ (Payroll.total_days p = days_worked
        /\ Payroll.present_days p = days_worked
        /\ Payroll.paid_days p = days_worked
        /\ Payroll.leaves_taken p = 0
        /\ Payroll.leave_balance_used p = 0
        /\ Payroll.loss_of_pay_days p
           = if (days_worked <? 30)%Z then inject_Z (30 - days_worked) else 0)
    /\ (scaled basic (Payroll.basic_salary p)
        /\ scaled hra (Payroll.hra p)
        /\ scaled conveyance_allowance (Payroll.conveyance_allowance p)
        /\ scaled medical_allowance (Payroll.medical_allowance p)
        /\ scaled special_allowance (Payroll.special_allowance p)
        /\ Payroll.overtime_amount p == 0
        /\ Payroll.expenses p == 0
        /\ Payroll.bonus p == 0
        /\ Payroll.leave_balance_amount p == 0)
    /\ (Payroll.pf_employee p = Payroll.pf_employee existing
        /\ Payroll.pf_employer p = Payroll.pf_employer existing
        /\ Payroll.gross_salary p = Payroll.gross_salary existing
        /\ Payroll.total_deductions p = Payroll.total_deductions existing
        /\ Payroll.net_salary p = Payroll.net_salary existing
        /\ Payroll.hike_amount p = Payroll.hike_amount existing
        /\ Payroll.processed_by p = Payroll.processed_by existing
        /\ Payroll.processed_at p = Payroll.processed_at existing).
Proof.
  intros Hemp Hex st' days_worked c scaled. subst st'.
  rewrite bulk_process_row_result. rewrite Hemp, Hex.
  cbn [snd payroll].
  assert (Hkey : is_payroll (BulkRow.emp_id r) month year existing = true)
    by (apply first_some in Hex; exact (proj2 Hex)).
  assert (Hscaled : forall k,
            scaled k (adjust_for_days_worked days_worked c k)).
  { intros k. subst scaled. cbv beta.
    rewrite adjust_for_days_worked_key.
    destruct (days_worked =? 30)%Z; [reflexivity |].
    assert (E : c k * (inject_Z days_worked / 30)
                == c k * (inject_Z days_worked / 30.0))
      by (apply Qmult_comp; [reflexivity |];
          apply Qdiv_comp; reflexivity).
    rewrite E. apply round2_within_a_paisa. }
  assert (Hzero : forall k, c k = 0.0 ->
            adjust_for_days_worked days_worked c k == 0).
  { intros k Hk. rewrite adjust_for_days_worked_key, Hk.
    destruct (days_worked =? 30)%Z; [reflexivity |].
    rewrite round2_fixed.
    - set (q := inject_Z days_worked / 30.0). clearbody q. lra.
    - exists 0%Z. set (q := inject_Z days_worked / 30.0). clearbody q. lra. }
  destruct (variable_eq (Employee.ctc_monthly employee) (BulkRow.pf_opted r)
              0.0) as (Eo & Ee & Eb & El).
  fold c in Eo, Ee, Eb, El.
  eexists. split.
  - apply (first_update_first _ _ _ existing Hex).
    apply is_payroll_key. apply is_payroll_key in Hkey.
    rewrite <- Hkey. reflexivity.
  - split; [apply length_update_first |].
    unfold with_earnings, with_columns, bulk_attendance.
    cbn [Payroll.total_days Payroll.present_days Payroll.leaves_taken
         Payroll.paid_days Payroll.loss_of_pay_days
         Payroll.leave_balance_used Payroll.basic_salary Payroll.hra
         Payroll.special_allowance Payroll.conveyance_allowance
         Payroll.medical_allowance Payroll.overtime_amount Payroll.expenses
         Payroll.bonus Payroll.leave_balance_amount Payroll.pf_employee
         Payroll.pf_employer Payroll.gross_salary Payroll.total_deductions
         Payroll.net_salary Payroll.hike_amount Payroll.processed_by
         Payroll.processed_at get_column].
    fold days_worked. fold c.
    split; [repeat split |].
    split; [| repeat split].
    do 5 (split; [apply Hscaled |]).
    split; [exact (Hzero _ Eo) |].
    split; [exact (Hzero _ Ee) |].
    split; [exact (Hzero _ Eb) | exact (Hzero _ El)].
Qed.

(** January was processed for John (gross 50300, net 48500); a sheet
    then reports 15 days worked: the basic salary stored falls to 12500
    while the gross and net salary stay 50300 and 48500. *)
Lemma bulk_process_payroll_partial_update_witness :
  exists p : Payroll.t,
    first (is_payroll "EMP001" "January" 2024)
      (payroll
         (snd (bulk_process_payroll Demo.accounts 1 "January" 2024
                 (Demo.sheet 15) Demo.january)))
    = Some p
    /\ Qabs (Payroll.basic_salary p - 12500) < 0.01
    /\ Payroll.gross_salary p == 50300
    /\ Payroll.net_salary p == 48500
    /\ Payroll.processed_by p = "hr"%string.
Proof.
  assert (Hemp : first (is_employee "EMP001") (employees Demo.january)
                 = Some (Employee.set_leave_balance
                           (1.5 + 1.5 - Qmin 0 (1.5 + 1.5))
                           (Sample.john 50000 1.5)))
    by reflexivity.
  assert (Hex : exists old,
            first (is_payroll "EMP001" "January" 2024) (payroll Demo.january)
            = Some old
            /\ Payroll.gross_salary old == 50300
            /\ Payroll.net_salary old == 48500
            /\ Payroll.processed_by old = "hr"%string).
  { eexists. split; [vm_compute; reflexivity |].
    vm_compute. repeat split. }
  destruct Hex as (old & Hold & Hg & Hn & Hby).
  destruct (bulk_process_payroll_partial_update Demo.accounts 1 "January" 2024
              Demo.january
              {| BulkRow.emp_id := "EMP001"; BulkRow.days_worked := 15;
                 BulkRow.pf_opted := true |}
              _ old Hemp Hold)
    as (p & Hp & _ & _ & (Hb & _) & (_ & _ & Hgross & _ & Hnet & _ & Hpby & _)).
  exists p. split; [exact Hp |].
  rewrite Hgross, Hnet, Hpby.
  split; [| split; [exact Hg |]; split; [exact Hn | exact Hby]].
  cbn [BulkRow.days_worked Z.eqb Pos.eqb] in Hb.
  assert (E : calculate_salary_components
                (Employee.ctc_monthly
                   (Employee.set_leave_balance
                      (1.5 + 1.5 - Qmin 0 (1.5 + 1.5))
                      (Sample.john 50000 1.5)))
                true 0.0 basic * (inject_Z 15 / 30) == 12500)
    by reflexivity.
  cbn [BulkRow.pf_opted] in Hb. rewrite E in Hb. exact Hb.
Defined.

(** ** What a request can do to the store *)

Lemma in_update_first {A : Type} (filter_by : A -> bool) (f : A -> A)
    (rows : list A) (x : A) :
  In x (update_first filter_by f rows) ->
  In x rows \/ exists r, In r rows /\ filter_by r = true /\ x = f r.
Proof.
  induction rows as [| a rows IH]; simpl; [tauto |].
  destruct (filter_by a) eqn:Ha; simpl.
  - intros [<- | H]; [right; exists a; auto | left; right; exact H].
  - intros [<- | H]; [left; left; reflexivity |].
    destruct (IH H) as [H' | (r & Hr & Hf & E)]; [left; right; exact H' |].
    right. exists r. auto.
Qed.

Lemma first_none_not_in {A : Type} (proj : A -> string) (v : string)
    (rows : list A) :
  first (fun x => String.eqb (proj x) v) rows = None ->
  ~ In v (map proj rows).
Proof.
  unfold first. intros Hnone Hin.
  apply in_map_iff in Hin. destruct Hin as (x & Hv & Hx).
  pose proof (find_none _ _ Hnone x Hx) as Hfalse. cbv beta in Hfalse.
  rewrite Hv, String.eqb_refl in Hfalse. discriminate.
Qed.

Lemma first_in_map {A : Type} (proj : A -> string) (v : string)
    (rows : list A) (x : A) :
  first (fun x => String.eqb (proj x) v) rows = Some x ->
  In v (map proj rows).
Proof.
  intros H. apply first_some in H. destruct H as [Hin Hv].
  apply String.eqb_eq in Hv. rewrite <- Hv. apply in_map. exact Hin.
Qed.

(** What [apply_hike] does to the row it finds. *)
Lemma apply_hike_store (emp_id : string) (hike_amount : Q) (st : DB) :
  snd (apply_hike emp_id hike_amount st)
  = match first (is_employee emp_id) (employees st) with
    | None => st
    | Some _ =>
        {| employees :=
             update_first (is_employee emp_id)
               (fun e =>
                  Employee.set_ctc_annual
                    ((Employee.ctc_monthly e + hike_amount) * 12)
                    (Employee.set_ctc_monthly
                       (Employee.ctc_monthly e + hike_amount) e))
               (employees st);
           payroll := payroll st;
           leave_transactions := leave_transactions st |}
    end.
Proof.
  unfold apply_hike.
  destruct (first (is_employee emp_id) (employees st)); reflexivity.
Qed.

(** What [process_individual_payroll] does to the three tables. *)
Lemma process_store
    (current_user : string) (utcnow : Z) (form : Form.t) (st : DB) :
  let st' := snd (process_individual_payroll current_user utcnow form st) in
  match first (is_employee (Form.emp_id form)) (employees st) with
  | None => st' = st
  | Some employee =>
      employees st'
      = update_first (is_employee (Form.emp_id form))
          (Employee.set_leave_balance
             (LeaveInfo.remaining_balance
                (leave_info_of utcnow form employee st)))
          (employees st)
      /\ (exists t : LeaveTransaction.t,
            leave_transactions st' = leave_transactions st ++ [t]
            /\ LeaveTransaction.emp_id t = Form.emp_id form)
      /\ payroll st'
         = match first (is_payroll (Form.emp_id form) (Form.month form)
                          (Form.year form)) (payroll st) with
           | Some _ =>
               update_first
                 (is_payroll (Form.emp_id form) (Form.month form)
                    (Form.year form))
                 (fun _ => payroll_row_of current_user utcnow form employee st)
                 (payroll st)
           | None =>
               payroll st
               ++ [payroll_row_of current_user utcnow form employee st]
           end
  end.
Proof.
  intros st'.
  destruct (first (is_employee (Form.emp_id form)) (employees st))
    as [employee |] eqn:Hfound.
  - pose proof (found_emp_id form st employee Hfound) as Hid.
    split; [| split].
    + subst st'.
      rewrite (processed_employees current_user utcnow form st employee
                 Hfound).
      rewrite settled_store. cbn [employees]. rewrite Hid.
      unfold leave_info_of. rewrite settled_info. reflexivity.
    + subst st'.
      rewrite (processed_leave_transactions current_user utcnow form st
                 employee Hfound).
      rewrite settled_store. cbn [leave_transactions].
      eexists. split; [reflexivity |]. exact Hid.
    + subst st'.
      rewrite (processed_payroll current_user utcnow form st employee Hfound).
      destruct (first _ (payroll st)) eqn:Hold; [| reflexivity].
      apply update_first_ext. intros p Hp.
      apply (assign_existing current_user utcnow form st employee p Hp).
  - subst st'. unfold process_individual_payroll. rewrite Hfound.
    reflexivity.
Qed.

(** *** Employees added from a sheet *)

Section BulkAdding.

Variable re_match : string -> string -> bool.
Variable new_employee_id : list Employee.t -> Z.
Variable current_user : User.t.
Variable utcnow : Z.

(** A row of the sheet is turned away, or appends one employee whose ID
    and email no employee of the session has. *)
Lemma bulk_add_row_cases (st : DB) (row : EmployeeRow.t) :
  let result :=
    bulk_add_row re_match new_employee_id current_user utcnow st row in
  (fst result = false /\ snd result = st)
  \/ (fst result = true
      /\ exists e : Employee.t,
           snd result
           = {| employees := employees st ++ [e];
                payroll := payroll st;
                leave_transactions := leave_transactions st |}
           /\ first (is_employee (Employee.emp_id e)) (employees st) = None
           /\ first (has_email (Employee.email e)) (employees st) = None
           /\ added_by (User.username current_user) e).
Proof.
  intros result. subst result. unfold bulk_add_row.
  destruct (is_empty (EmployeeRow.emp_id row)); [left; split; reflexivity |].
  destruct (is_empty (EmployeeRow.name row)); [left; split; reflexivity |].
  destruct (is_empty (EmployeeRow.email row)); [left; split; reflexivity |].
  destruct (first (is_employee (EmployeeRow.emp_id row)) (employees st))
    eqn:Hid; [left; split; reflexivity |].
  destruct (first (has_email (EmployeeRow.email row)) (employees st))
    eqn:Hemail; [left; split; reflexivity |].
  destruct (EmployeeRow.ctc_monthly row) as [ctc_monthly |];
    [| left; split; reflexivity].
  destruct (Qle_bool ctc_monthly 0); [left; split; reflexivity |].
  destruct (negb (re_match email_pattern (EmployeeRow.email row)));
    [left; split; reflexivity |].
  right. split; [reflexivity |].
  eexists. split; [reflexivity |].
  cbn [Employee.emp_id Employee.email].
  split; [exact Hid |]. split; [exact Hemail |].
  repeat split.
Qed.

Lemma bulk_add_rows_fold
    (rows : list EmployeeRow.t) (s e : nat) (st : DB) :
  let result :=
    fold_left
      (fun '(success_count, error_count, st) row =>
         let '(ok, st) :=
           bulk_add_row re_match new_employee_id current_user utcnow st row in
         if ok then (S success_count, error_count, st)
         else (success_count, S error_count, st))
      rows (s, e, st) in
  exists added : list Employee.t,
    employees (snd result) = employees st ++ added
    /\ payroll (snd result) = payroll st
    /\ leave_transactions (snd result) = leave_transactions st
    /\ Forall (added_by (User.username current_user)) added
    /\ (distinct_employees st -> distinct_employees (snd result))
    /\ fst (fst result) = (s + length added)%nat
    /\ (snd (fst result) + length added = e + length rows)%nat.
Proof.
  revert s e st.
  induction rows as [| row rows IH]; intros s e st; cbn [fold_left].
  - exists []. cbn [fst snd length]. rewrite app_nil_r.
    split; [reflexivity |]. split; [reflexivity |]. split; [reflexivity |].
    split; [constructor |]. split; [intros H; exact H |]. split; lia.
  - destruct (bulk_add_row_cases st row)
      as [[Hok Hst] | [Hok (x & Hst & Hid & Hemail & Hby)]];
      destruct (bulk_add_row re_match new_employee_id current_user utcnow st
                  row) as [ok st1];
      cbn [fst snd] in Hok, Hst; subst ok st1.
    + destruct (IH s (S e) st) as (added & H1 & H2 & H3 & H4 & H5 & H6 & H7).
      exists added. cbn [length].
      split; [exact H1 |]. split; [exact H2 |]. split; [exact H3 |].
      split; [exact H4 |]. split; [exact H5 |]. split; [exact H6 | lia].
    + destruct (IH (S s) e
                  {| employees := employees st ++ [x];
                     payroll := payroll st;
                     leave_transactions := leave_transactions st |})
        as (added & H1 & H2 & H3 & H4 & H5 & H6 & H7).
      cbn [employees payroll leave_transactions] in H1, H2, H3.
      exists (x :: added). cbn [length].
      split; [rewrite H1, <- app_assoc; reflexivity |].
      split; [exact H2 |]. split; [exact H3 |].
      split; [constructor; assumption |].
      split; [| split; lia].
      intros [Hids Hemails]. apply H5.
      unfold distinct_employees. cbn [employees].
      rewrite !map_app. cbn [map].
      split; apply NoDup_snoc; try assumption.
      * exact (first_none_not_in Employee.emp_id _ _ Hid).
      * exact (first_none_not_in Employee.email _ _ Hemail).
Qed.

(** What [bulk_add_employees] leaves of the three tables: employees are
    appended, each created under the name of the user who uploads, and
    nothing else changes. *)
Lemma bulk_add_employees_store (upload : option EmployeeUpload.t) (st : DB) :
  let st' :=
    snd (bulk_add_employees re_match new_employee_id current_user utcnow
           upload st) in
  payroll st' = payroll st
  /\ leave_transactions st' = leave_transactions st
  /\ (distinct_employees st -> distinct_employees st')
  /\ exists added : list Employee.t,
       employees st' = employees st ++ added
       /\ Forall (added_by (User.username current_user)) added.
Proof.
  intros st'. subst st'.
  assert (Hsame : payroll st = payroll st
                  /\ leave_transactions st = leave_transactions st
                  /\ (distinct_employees st -> distinct_employees st)
                  /\ exists added : list Employee.t,
                       employees st = employees st ++ added
                       /\ Forall (added_by (User.username current_user))
                            added).
  { split; [reflexivity |]. split; [reflexivity |].
    split; [intros H; exact H |].
    exists []. rewrite app_nil_r. split; [reflexivity | constructor]. }
  unfold bulk_add_employees.
  destruct upload as [file |]; [| exact Hsame].
  destruct (is_empty (EmployeeUpload.filename file)); [exact Hsame |].
  destruct (negb _); [exact Hsame |].
  destruct (EmployeeUpload.sheet file) as [df |]; [| exact Hsame].
  destruct (filter _ required_columns); [| exact Hsame].
  unfold bulk_add_rows.
  pose proof (bulk_add_rows_fold (Sheet.rows df) 0 0 st) as Hfold.
  cbv zeta in Hfold.
  destruct (fold_left _ (Sheet.rows df) (0%nat, 0%nat, st))
    as [[success_count error_count] session].
  cbn [fst snd] in Hfold |- *.
  destruct Hfold as (added & H1 & H2 & H3 & H4 & H5 & H6 & _).
  destruct (0 <? success_count)%nat; [| exact Hsame].
  split; [exact H2 |]. split; [exact H3 |]. split; [exact H5 |].
  exists added. split; assumption.
Qed.


End BulkAdding.


Lemma payroll_row_of_key
    (current_user : string) (utcnow : Z) (form : Form.t)
    (employee : Employee.t) (st : DB) :
  payroll_key (payroll_row_of current_user utcnow form employee st)
  = (Form.emp_id form, Form.month form, Form.year form).
Proof. unfold payroll_row_of. rewrite assign_payroll_key. reflexivity. Qed.

Lemma payroll_key_emp_id (rows rows' : list Payroll.t) :
  map payroll_key rows' = map payroll_key rows ->
  map Payroll.emp_id rows' = map Payroll.emp_id rows.
Proof.
  intros Hk.
  pose proof (f_equal (map (fun k : string * string * Z => fst (fst k))) Hk)
    as Hk'.
  rewrite !map_map in Hk'. exact Hk'.
Qed.

Section Serving.

Variable float : string -> option Q.
Variable strptime_date : string -> string -> option Z.
Variable re_match : string -> string -> bool.
Variable new_employee_id : list Employee.t -> Z.

(** The routes, with these library functions. *)
Local Abbreviation handle :=
  (serve float strptime_date re_match new_employee_id).
Local Abbreviation handle_all :=
  (serve_all float strptime_date re_match new_employee_id).

(** A request reaches its function exactly when the visitor is logged in
    with one of the route's roles. *)
Lemma serve_eq (current_user : option User.t) (utcnow : Z) (r : post)
    (st : DB) :
  handle current_user utcnow r st
  = match current_user with
    | None => st
    | Some user =>
        if existsb (String.eqb (User.role user)) (allowed_roles r) then
          match r with
          | AddEmployee form =>
              snd (add_employee float strptime_date re_match new_employee_id
                     user utcnow form st)
          | ProcessIndividualPayroll form =>
              snd (process_individual_payroll (User.username user) utcnow
                     form st)
          | BulkProcessPayroll upload month year =>
              snd (bulk_process_payroll user utcnow month year upload st)
          | ApplyHike emp_id hike_amount =>
              snd (apply_hike emp_id hike_amount st)
          | BulkAddEmployees upload =>
              snd (bulk_add_employees re_match new_employee_id user utcnow
                     upload st)
          end
        else st
    end.
Proof.
  unfold serve, role_required, committed.
  destruct current_user as [user |]; [| destruct r; reflexivity].
  destruct r; cbn [allowed_roles];
    destruct (existsb (String.eqb (User.role user)) _); cbn [negb];
    reflexivity.
Qed.

(** X8.  A request changes nothing in the store when the visitor is not
    logged in, or is logged in with a role that the route does not name:
    nobody but an admin can apply a hike, an accounts user cannot add an
    employee, and only the roles admin, hr and accounts can process
    payroll. *)
Theorem unauthorised_requests_change_nothing
    (current_user : option User.t) (utcnow : Z) (r : post) (st : DB) :
  (forall user, current_user = Some user ->
     ~ In (User.role user) (allowed_roles r)) ->
  handle current_user utcnow r st = st.
Proof.
  intros Hrole. rewrite serve_eq.
  destruct current_user as [user |]; [| reflexivity].
  destruct (existsb (String.eqb (User.role user)) (allowed_roles r)) eqn:E;
    [| reflexivity].
  apply existsb_exists in E. destruct E as (role & Hin & Heq).
  apply String.eqb_eq in Heq. subst role.
  destruct (Hrole user eq_refl Hin).
Qed.

(** *** Employee IDs and emails stay distinct *)

Lemma handle_distinct_employees
    (current_user : option User.t) (utcnow : Z) (r : post) (st : DB) :
  distinct_employees st ->
  distinct_employees (handle current_user utcnow r st).
Proof.
  intros Hd. rewrite serve_eq.
  destruct current_user as [user |]; [| exact Hd].
  destruct (existsb _ _); [| exact Hd].
  destruct r
    as [form | form | upload month year | emp_id hike_amount | sheet].
  - destruct (add_employee_cases float strptime_date re_match
                new_employee_id user utcnow form st)
      as [(_ & Hst & _) | (ctc & date & Hacc & Hadded)].
    + rewrite Hst. exact Hd.
    + rewrite Hadded. cbn [snd]. destruct Hd as [Hid Hemail].
      decompose [and] Hacc.
      unfold distinct_employees. cbn [employees].
      rewrite !map_app. cbn [map Employee.emp_id Employee.email].
      split; apply NoDup_snoc; try assumption.
      * apply (first_none_not_in Employee.emp_id). assumption.
      * apply (first_none_not_in Employee.email). assumption.
  - pose proof (process_store (User.username user) utcnow form st) as Hp.
    cbv zeta in Hp.
    destruct (first (is_employee (Form.emp_id form)) (employees st));
      [| rewrite Hp; exact Hd].
    destruct Hp as (He & _ & _). unfold distinct_employees. rewrite He.
    rewrite !map_update_first by (intros e; reflexivity). exact Hd.
  - destruct (bulk_process_payroll_store user utcnow month year upload st)
      as (He & _).
    unfold distinct_employees. rewrite He. exact Hd.
  - rewrite apply_hike_store.
    destruct (first (is_employee emp_id) (employees st)); [| exact Hd].
    unfold distinct_employees. cbn [employees].
    rewrite !map_update_first by (intros e; reflexivity). exact Hd.
  - destruct (bulk_add_employees_store re_match new_employee_id user utcnow
                sheet st) as (Hp & Hl & Hdist & added & He & Hadded).
    exact (Hdist Hd).
Qed.

(** X9.  Through any sequence of requests to the five routes that
    write, by whomever, no two stored employees share an employee ID and
    no two share an email. *)
Theorem employees_stay_distinct (visits : list visit) (st : DB) :
  distinct_employees st -> distinct_employees (handle_all visits st).
Proof.
  revert st. unfold serve_all.
  induction visits as [| v visits IH]; intros st Hd; cbn [fold_left].
  - exact Hd.
  - apply IH, handle_distinct_employees, Hd.
Qed.

(** *** The annual CTC is twelve times the monthly CTC *)

Lemma handle_annual
    (current_user : option User.t) (utcnow : Z) (r : post) (st : DB) :
  annual_is_twelve_months st ->
  annual_is_twelve_months (handle current_user utcnow r st).
Proof.
  intros Ha. rewrite serve_eq.
  destruct current_user as [user |]; [| exact Ha].
  destruct (existsb _ _); [| exact Ha].
  destruct r
    as [form | form | upload month year | emp_id hike_amount | sheet].
  - destruct (add_employee_cases float strptime_date re_match
                new_employee_id user utcnow form st)
      as [(_ & Hst & _) | (ctc & date & Hacc & Hadded)].
    + rewrite Hst. exact Ha.
    + rewrite Hadded. cbn [snd]. intros e He. cbn [employees] in He.
      apply in_app_or in He. destruct He as [He | [<- | []]].
      * apply Ha, He.
      * reflexivity.
  - pose proof (process_store (User.username user) utcnow form st) as Hp.
    cbv zeta in Hp.
    destruct (first (is_employee (Form.emp_id form)) (employees st));
      [| rewrite Hp; exact Ha].
    destruct Hp as (He & _ & _). intros e Hin. rewrite He in Hin.
    apply in_update_first in Hin.
    destruct Hin as [Hin | (e0 & Hin & _ & ->)]; [apply Ha, Hin |].
    cbn [Employee.set_leave_balance Employee.ctc_annual Employee.ctc_monthly].
    apply Ha, Hin.
  - destruct (bulk_process_payroll_store user utcnow month year upload st)
      as (He & _).
    intros e Hin. rewrite He in Hin. apply Ha, Hin.
  - rewrite apply_hike_store.
    destruct (first (is_employee emp_id) (employees st)); [| exact Ha].
    intros e Hin. cbn [employees] in Hin.
    apply in_update_first in Hin.
    destruct Hin as [Hin | (e0 & Hin & _ & ->)]; [apply Ha, Hin |].
    reflexivity.
  - destruct (bulk_add_employees_store re_match new_employee_id user utcnow
                sheet st) as (Hp & Hl & Hdist & added & He & Hadded).
    intros e Hin. rewrite He in Hin. apply in_app_or in Hin.
    destruct Hin as [Hin | Hin]; [apply Ha, Hin |].
    rewrite Forall_forall in Hadded. exact (proj1 (proj2 (Hadded e Hin))).
Qed.

(** X10.  Through any sequence of requests, the stored annual CTC of
    every employee is twelve times the stored monthly CTC: it is set so
    when the employee is added and again by every hike, and nothing else
    writes either of them. *)
Theorem annual_ctc_is_twelve_months (visits : list visit) (st : DB) :
  annual_is_twelve_months st ->
  annual_is_twelve_months (handle_all visits st).
Proof.
  revert st. unfold serve_all.
  induction visits as [| v visits IH]; intros st Ha; cbn [fold_left].
  - exact Ha.
  - apply IH, handle_annual, Ha.
Qed.

(** *** Payroll rows and leave transactions belong to employees *)

Lemma handle_referential
    (current_user : option User.t) (utcnow : Z) (r : post) (st : DB) :
  referential st -> referential (handle current_user utcnow r st).
Proof.
  intros Hr. rewrite serve_eq.
  destruct current_user as [user |]; [| exact Hr].
  destruct (existsb _ _); [| exact Hr].
  destruct r
    as [form | form | upload month year | emp_id hike_amount | sheet].
  - destruct (add_employee_cases float strptime_date re_match
                new_employee_id user utcnow form st)
      as [(_ & Hst & _) | (ctc & date & _ & Hadded)].
    + rewrite Hst. exact Hr.
    + rewrite Hadded. cbn [snd]. destruct Hr as [Hp Hl].
      split; intros x Hx; cbn [employees payroll leave_transactions] in *;
        rewrite map_app; apply in_or_app; left; auto.
  - pose proof (process_store (User.username user) utcnow form st) as Hp.
    cbv zeta in Hp.
    destruct (first (is_employee (Form.emp_id form)) (employees st))
      as [employee |] eqn:Hfound; [| rewrite Hp; exact Hr].
    destruct Hp as (He & (t & Hl & Ht) & Hpay).
    assert (Hin : In (Form.emp_id form)
                    (map Employee.emp_id (employees st)))
      by exact (first_in_map Employee.emp_id _ _ _ Hfound).
    assert (Hrow : Payroll.emp_id
                     (payroll_row_of (User.username user) utcnow form
                        employee st)
                   = Form.emp_id form)
      by exact (f_equal (fun k => fst (fst k))
                  (payroll_row_of_key (User.username user) utcnow form
                     employee st)).
    destruct Hr as [Hrp Hrl].
    split; intros x Hx; rewrite He;
      rewrite map_update_first by (intros e; reflexivity).
    + rewrite Hpay in Hx.
      destruct (first (is_payroll _ _ _) (payroll st)).
      * apply in_update_first in Hx.
        destruct Hx as [Hx | (r0 & _ & _ & ->)];
          [apply Hrp, Hx | rewrite Hrow; exact Hin].
      * apply in_app_or in Hx.
        destruct Hx as [Hx | [<- | []]];
          [apply Hrp, Hx | rewrite Hrow; exact Hin].
    + rewrite Hl in Hx. apply in_app_or in Hx.
      destruct Hx as [Hx | [<- | []]];
        [apply Hrl, Hx | rewrite Ht; exact Hin].
  - destruct (bulk_process_payroll_store user utcnow month year upload st)
      as (He & Hl & Hk).
    apply payroll_key_emp_id in Hk. destruct Hr as [Hrp Hrl].
    split; intros x Hx; rewrite He.
    + apply (in_map Payroll.emp_id) in Hx. rewrite Hk in Hx.
      apply in_map_iff in Hx. destruct Hx as (p & Hpe & Hp).
      rewrite <- Hpe. apply Hrp, Hp.
    + rewrite Hl in Hx. apply Hrl, Hx.
  - rewrite apply_hike_store.
    destruct (first (is_employee emp_id) (employees st)); [| exact Hr].
    destruct Hr as [Hrp Hrl].
    split; intros x Hx; cbn [employees payroll leave_transactions] in *;
      rewrite map_update_first by (intros e; reflexivity); auto.
  - destruct (bulk_add_employees_store re_match new_employee_id user utcnow
                sheet st) as (Hp & Hl & Hdist & added & He & Hadded).
    destruct Hr as [Hrp Hrl].
    split; intros x Hx; rewrite He, map_app; apply in_or_app; left.
    + rewrite Hp in Hx. apply Hrp, Hx.
    + rewrite Hl in Hx. apply Hrl, Hx.
Qed.

(** X11.  Through any sequence of requests, every payroll row and every
    leave transaction carries the employee ID of a stored employee: no
    route writes a row for an employee it did not find, and none removes
    an employee. *)
Theorem rows_belong_to_employees (visits : list visit) (st : DB) :
  referential st -> referential (handle_all visits st).
Proof.
  revert st. unfold serve_all.
  induction visits as [| v visits IH]; intros st Hr; cbn [fold_left].
  - exact Hr.
  - apply IH, handle_referential, Hr.
Qed.

(** *** One payroll row per employee and period *)

Lemma handle_unique_keys
    (current_user : option User.t) (utcnow : Z) (r : post) (st : DB) :
  unique_keys (payroll st) ->
  unique_keys (payroll (handle current_user utcnow r st)).
Proof.
  intros Hu. rewrite serve_eq.
  destruct current_user as [user |]; [| exact Hu].
  destruct (existsb _ _); [| exact Hu].
  destruct r
    as [form | form | upload month year | emp_id hike_amount | sheet].
  - destruct (add_employee_cases float strptime_date re_match
                new_employee_id user utcnow form st)
      as [(_ & Hst & _) | (ctc & date & _ & Hadded)].
    + rewrite Hst. exact Hu.
    + rewrite Hadded. exact Hu.
  - exact (run_unique_keys st
             {| Request.current_user := User.username user;
                Request.utcnow := utcnow;
                Request.form := form |} Hu).
  - destruct (bulk_process_payroll_store user utcnow month year upload st)
      as (_ & _ & Hk).
    unfold unique_keys. rewrite Hk. exact Hu.
  - rewrite apply_hike_store.
    destruct (first (is_employee emp_id) (employees st)); exact Hu.
  - destruct (bulk_add_employees_store re_match new_employee_id user utcnow
                sheet st) as (Hp & Hl & Hdist & added & He & Hadded).
    rewrite Hp. exact Hu.
Qed.

(** X12.  Through any sequence of requests to the five routes that
    write, the payroll table keeps at most one row per (employee, month,
    year): the upload of a payroll sheet, like the individual run, looks
    the row up before it writes. *)
Theorem one_payroll_row_per_period (visits : list visit) (st : DB) :
  unique_keys (payroll st) -> unique_keys (payroll (handle_all visits st)).
Proof.
  revert st. unfold serve_all.
  induction visits as [| v visits IH]; intros st Hu; cbn [fold_left].
  - exact Hu.
  - apply IH, handle_unique_keys, Hu.
Qed.

(** *** What a request can change of an employee *)

Lemma handle_employees_frame {B : Type} (proj : Employee.t -> B)
    (current_user : option User.t) (utcnow : Z) (r : post) (st : DB) :
  (forall x e, proj (Employee.set_leave_balance x e) = proj e) ->
  (is_hike r = true ->
   forall x y e,
     proj (Employee.set_ctc_annual x (Employee.set_ctc_monthly y e))
     = proj e) ->
  exists added,
    map proj (employees (handle current_user utcnow r st))
    = map proj (employees st) ++ added.
Proof.
  intros Hleave Hhike. rewrite serve_eq.
  assert (Hsame : exists added : list B,
            map proj (employees st) = map proj (employees st) ++ added)
    by (exists []; rewrite app_nil_r; reflexivity).
  destruct current_user as [user |]; [| exact Hsame].
  destruct (existsb _ _); [| exact Hsame].
  destruct r
    as [form | form | upload month year | emp_id hike_amount | sheet].
  - destruct (add_employee_cases float strptime_date re_match
                new_employee_id user utcnow form st)
      as [(_ & Hst & _) | (c & date & _ & Hadded)].
    + rewrite Hst. exact Hsame.
    + rewrite Hadded. cbn [snd employees]. rewrite map_app.
      eexists. reflexivity.
  - pose proof (process_store (User.username user) utcnow form st) as Hp.
    cbv zeta in Hp.
    destruct (first (is_employee (Form.emp_id form)) (employees st));
      [| rewrite Hp; exact Hsame].
    destruct Hp as (He & _ & _). rewrite He.
    rewrite map_update_first by (intros e; apply Hleave). exact Hsame.
  - destruct (bulk_process_payroll_store user utcnow month year upload st)
      as (He & _).
    rewrite He. exact Hsame.
  - rewrite apply_hike_store.
    destruct (first (is_employee emp_id) (employees st)); [| exact Hsame].
    cbn [employees].
    rewrite map_update_first by (intros e; apply Hhike; reflexivity).
    exact Hsame.
  - destruct (bulk_add_employees_store re_match new_employee_id user utcnow
                sheet st) as (Hp & Hl & Hdist & added & He & Hadded).
    rewrite He, map_app. eexists. reflexivity.
Qed.

(** X13.  No sequence of requests removes an employee, reorders the
    employees or rewrites who one of them is: the primary key, the
    employee ID, the name, the email, the designation, the department,
    the joining date, the PF option, the creator and the creation time of
    every stored employee stay as they are, and new employees come after
    them.  (The PF option of a payroll form or of an uploaded sheet is
    used for that payroll and not written to the employee.) *)
Theorem employees_are_never_edited (visits : list visit) (st : DB) :
  exists added,
    map particulars (employees (handle_all visits st))
    = map particulars (employees st) ++ added.
Proof.
  revert st. unfold serve_all.
  induction visits as [| v visits IH]; intros st; cbn [fold_left].
  - exists []. rewrite app_nil_r. reflexivity.
  - destruct (IH (handle (visitor v) (clock v) (posted v) st))
      as (later & Hlater).
    destruct (handle_employees_frame particulars (visitor v) (clock v)
                (posted v) st) as (now & Hnow); try reflexivity.
    exists (now ++ later). rewrite Hlater, Hnow, app_assoc. reflexivity.
Qed.

(** X14.  Only a hike changes a CTC: through any sequence of requests
    without a post to [apply_hike], the monthly and the annual CTC of
    every stored employee stay as they are, whatever hike amounts the
    payroll forms carry. *)
Theorem ctc_changes_only_by_hike (visits : list visit) (st : DB) :
  forallb (fun v => negb (is_hike (posted v))) visits = true ->
  exists added,
    map ctc (employees (handle_all visits st))
    = map ctc (employees st) ++ added.
Proof.
  revert st. unfold serve_all.
  induction visits as [| v visits IH]; intros st Hno; cbn [fold_left].
  - exists []. rewrite app_nil_r. reflexivity.
  - cbn [forallb] in Hno. apply andb_prop in Hno. destruct Hno as [Hv Hno].
    destruct (IH (handle (visitor v) (clock v) (posted v) st) Hno)
      as (later & Hlater).
    destruct (handle_employees_frame ctc (visitor v) (clock v)
                (posted v) st) as (now & Hnow).
    + reflexivity.
    + intros Hh. rewrite Hh in Hv. discriminate Hv.
    + exists (now ++ later). rewrite Hlater, Hnow, app_assoc. reflexivity.
Qed.

(** X15.  The first payroll run of an employee who was just added settles
    the leave against 3 days: the 1.5 days that [add_employee] gives plus
    the month's 1.5.  When the store is referential, the new employee
    has no leave transaction, so that: the leave covered is
    min(leaves_taken, 3), the loss of pay max(0, leaves_taken - 3), and
    the balance stored for the employee after the run is what is left of
    the 3 days. *)
Theorem first_run_of_new_employee
    (user : User.t) (now1 : Z) (added : EmployeeForm.t)
    (processor : string) (now2 : Z) (form : Form.t) (st : DB) :
  referential st ->
  fst (add_employee float strptime_date re_match new_employee_id user now1
         added st) = EmployeeAdded ->
  Form.emp_id form = EmployeeForm.emp_id added ->
  let st1 :=
    snd (add_employee float strptime_date re_match new_employee_id user now1
           added st) in
  let st2 := snd (process_individual_payroll processor now2 form st1) in
  exists e e2 : Employee.t,
    first (is_employee (Form.emp_id form)) (employees st1) = Some e
    /\ Employee.leave_balance e = 1.5
    /\ LeaveInfo.leave_balance_used (leave_info_of now2 form e st1)
       == min (Form.leaves_taken form) 3
    /\ LeaveInfo.loss_of_pay_days (leave_info_of now2 form e st1)
       == max 0 (Form.leaves_taken form - 3)
    /\ first (is_employee (Form.emp_id form)) (employees st2) = Some e2
    /\ Employee.leave_balance e2 == 3 - min (Form.leaves_taken form) 3.
Proof.
  intros Href Hadded Hid st1 st2.
  destruct (add_employee_cases float strptime_date re_match
              new_employee_id user now1 added st)
    as [(Hnot & _) | (c & date & Hacc & Heq)]; [destruct (Hnot Hadded) |].
  destruct Hacc as (_ & _ & _ & _ & Hnew & _).
  set (e := {| Employee.id := new_employee_id (employees st);
               Employee.emp_id := EmployeeForm.emp_id added;
               Employee.name := EmployeeForm.name added;
               Employee.email := EmployeeForm.email added;
               Employee.designation := Some (EmployeeForm.designation added);
               Employee.department := Some (EmployeeForm.department added);
               Employee.joining_date := Some date;
               Employee.ctc_monthly := c;
               Employee.ctc_annual := c * 12;
               Employee.pf_opted := EmployeeForm.pf_opted added;
               Employee.leave_balance := 1.5;
               Employee.created_by := User.username user;
               Employee.created_at := now1 |}) in *.
  assert (Hst1 : st1 = {| employees := employees st ++ [e];
                          payroll := payroll st;
                          leave_transactions := leave_transactions st |})
    by (subst st1; rewrite Heq; reflexivity).
  assert (Hmatch : is_employee (Form.emp_id form) e = true)
    by (rewrite Hid; apply String.eqb_refl).
  assert (Hfound : first (is_employee (Form.emp_id form)) (employees st1)
                   = Some e).
  { rewrite Hst1. cbn [employees]. apply first_app_new; [| exact Hmatch].
    rewrite Hid. exact Hnew. }
  assert (Hstart : starting_balance e st1 = 1.5).
  { rewrite (starting_balance_no_transaction e st1); [reflexivity |].
    intros t Ht Heq'. rewrite Hst1 in Ht. cbn [leave_transactions] in Ht.
    apply (first_none_not_in Employee.emp_id _ _ Hnew).
    cbn [Employee.emp_id e] in Heq'. rewrite <- Heq'.
    apply (proj2 Href), Ht. }
  assert (Hused : LeaveInfo.leave_balance_used (leave_info_of now2 form e st1)
                  = min (Form.leaves_taken form) (1.5 + 1.5)).
  { unfold leave_info_of. rewrite settled_info.
    cbn [LeaveInfo.leave_balance_used]. rewrite Hstart. reflexivity. }
  assert (Hlop : LeaveInfo.loss_of_pay_days (leave_info_of now2 form e st1)
                 = max 0 (Form.leaves_taken form - (1.5 + 1.5))).
  { unfold leave_info_of. rewrite settled_info.
    cbn [LeaveInfo.loss_of_pay_days]. rewrite Hstart. reflexivity. }
  assert (Hrem : LeaveInfo.remaining_balance (leave_info_of now2 form e st1)
                 = 1.5 + 1.5 - min (Form.leaves_taken form) (1.5 + 1.5)).
  { unfold leave_info_of. rewrite settled_info.
    cbn [LeaveInfo.remaining_balance]. rewrite Hstart. reflexivity. }
  assert (Hmin : min (Form.leaves_taken form) (1.5 + 1.5)
                 == min (Form.leaves_taken form) 3).
  { destruct (min_cases (Form.leaves_taken form) (1.5 + 1.5))
      as [[H1 E1] | [H1 E1]];
      destruct (min_cases (Form.leaves_taken form) 3)
        as [[H2 E2] | [H2 E2]];
      rewrite E1, E2; lra. }
  exists e, (Employee.set_leave_balance
               (LeaveInfo.remaining_balance (leave_info_of now2 form e st1))
               e).
  split; [exact Hfound |].
  split; [reflexivity |].
  split; [rewrite Hused; exact Hmin |].
  split.
  - rewrite Hlop.
    destruct (max_cases 0 (Form.leaves_taken form - (1.5 + 1.5)))
      as [[H1 E1] | [H1 E1]];
      destruct (max_cases 0 (Form.leaves_taken form - 3))
        as [[H2 E2] | [H2 E2]];
      rewrite E1, E2; lra.
  - pose proof (process_store processor now2 form st1) as Hp.
    cbv zeta in Hp. rewrite Hfound in Hp. destruct Hp as (He & _).
    split.
    + subst st2. rewrite He.
      apply first_update_first; [exact Hfound | exact Hmatch].
    + cbn [Employee.leave_balance Employee.set_leave_balance].
      rewrite Hrem, Hmin. lra.
Qed.

End Serving.

(** An accounts user posts the form that adds Asha: the store stays as
    it was. *)
Lemma unauthorised_requests_change_nothing_witness :
  serve Demo.float Demo.strptime_date Demo.re_match Demo.new_employee_id
    (Some Demo.accounts) 1 (AddEmployee Demo.asha) Demo.january
  = Demo.january.
Proof.
  apply unauthorised_requests_change_nothing.
  intros user [= <-]. cbn. intros [H | [H | []]]; discriminate H.
Defined.

(** The four requests of [Demo.visits], on a store that holds John: Asha
    is added, and the two employees differ in ID and in email. *)
Lemma employees_stay_distinct_witness :
  let st :=
    serve_all Demo.float Demo.strptime_date Demo.re_match
      Demo.new_employee_id Demo.visits (Sample.only (Sample.john 50000 1.5)) in
  distinct_employees st
  /\ map Employee.emp_id (employees st) = ["EMP001"; "EMP002"]%string.
Proof.
  split; [| vm_compute; reflexivity].
  apply employees_stay_distinct.
  split; cbn; (constructor; [intros [] | constructor]).
Defined.

(** After the four requests, with a hike of 5000 for John among them, the
    annual CTC of both employees is twelve times the monthly one. *)
Lemma annual_ctc_is_twelve_months_witness :
  let st :=
    serve_all Demo.float Demo.strptime_date Demo.re_match
      Demo.new_employee_id Demo.visits (Sample.only (Sample.john 50000 1.5)) in
  annual_is_twelve_months st
  /\ map (fun e => Qred (Employee.ctc_monthly e)) (employees st)
     = [55000; 40000].
Proof.
  split; [| vm_compute; reflexivity].
  apply annual_ctc_is_twelve_months.
  intros e [<- | []]. reflexivity.
Defined.

(** After the four requests, the payroll row and the leave transaction
    that the run for January wrote belong to John. *)
Lemma rows_belong_to_employees_witness :
  let st :=
    serve_all Demo.float Demo.strptime_date Demo.re_match
      Demo.new_employee_id Demo.visits (Sample.only (Sample.john 50000 1.5)) in
  referential st
  /\ map Payroll.emp_id (payroll st) = ["EMP001"]%string
  /\ map LeaveTransaction.emp_id (leave_transactions st) = ["EMP001"]%string.
Proof.
  split; [| vm_compute; split; reflexivity].
  apply rows_belong_to_employees.
  split; intros x [].
Defined.

(** After the four requests, of which two write the row of January 2024
    for John, that row is the only one. *)
Lemma one_payroll_row_per_period_witness :
  let st :=
    serve_all Demo.float Demo.strptime_date Demo.re_match
      Demo.new_employee_id Demo.visits (Sample.only (Sample.john 50000 1.5)) in
  unique_keys (payroll st)
  /\ map payroll_key (payroll st) = [("EMP001", "January", 2024%Z)]%string.
Proof.
  split; [| vm_compute; reflexivity].
  apply one_payroll_row_per_period.
  constructor.
Defined.

(** The first three requests of [Demo.visits] post no hike (the CTC of
    John stays 50000 a month), and Asha is added with hers. *)
Lemma ctc_changes_only_by_hike_witness :
  exists added,
    map ctc
      (employees
         (serve_all Demo.float Demo.strptime_date Demo.re_match
            Demo.new_employee_id (firstn 3 Demo.visits)
            (Sample.only (Sample.john 50000 1.5))))
    = map ctc (employees (Sample.only (Sample.john 50000 1.5))) ++ added.
Proof.
  apply ctc_changes_only_by_hike. reflexivity.
Defined.

(** Asha is added to a store that holds John, and January is processed
    for her with 4 days of leave: 3 are covered, 1 is loss of pay, and
    her balance is 0. *)
Lemma first_run_of_new_employee_witness :
  let form :=
    {| Form.emp_id := "EMP002"; Form.leaves_taken := 4;
       Form.month := "January"; Form.year := 2024; Form.pf_opted := true;
       Form.hike_amount := 0; Form.deduction_amount := 0;
       Form.deduction_reason := EmptyString; Form.overtime_amount := 0;
       Form.expenses := 0; Form.bonus := 0 |}%string in
  let st := Sample.only (Sample.john 50000 1.5) in
  let st1 :=
    snd (add_employee Demo.float Demo.strptime_date Demo.re_match
           Demo.new_employee_id Demo.admin 1 Demo.asha st) in
  let st2 := snd (process_individual_payroll "hr" 2 form st1) in
  exists e e2 : Employee.t,
    first (is_employee "EMP002") (employees st1) = Some e
    /\ Employee.leave_balance e = 1.5
    /\ LeaveInfo.leave_balance_used (leave_info_of 2 form e st1) == 3
    /\ LeaveInfo.loss_of_pay_days (leave_info_of 2 form e st1) == 1
    /\ first (is_employee "EMP002") (employees st2) = Some e2
    /\ Employee.leave_balance e2 == 0.
Proof.
  intros form st st1 st2.
  destruct (first_run_of_new_employee Demo.float Demo.strptime_date
              Demo.re_match Demo.new_employee_id Demo.admin 1 Demo.asha
              "hr" 2 form st)
    as (e & e2 & H1 & H2 & H3 & H4 & H5 & H6).
  - split; intros x [].
  - reflexivity.
  - reflexivity.
  - exists e, e2.
    split; [exact H1 |]. split; [exact H2 |].
    split; [exact (Qeq_trans _ _ _ H3 eq_refl) |].
    split; [exact (Qeq_trans _ _ _ H4 eq_refl) |].
    split; [exact H5 |]. exact (Qeq_trans _ _ _ H6 eq_refl).
Defined.

(** ** Who sees a payroll record *)

Lemma first_filter_head {A : Type} (filter_by : A -> bool) (rows : list A)
    (x : A) :
  first filter_by rows = Some x ->
  exists rest, filter filter_by rows = x :: rest.
Proof.
  unfold first. induction rows as [| a rows IH]; simpl; [discriminate |].
  destruct (filter_by a).
  - intros [= ->]. eexists. reflexivity.
  - exact IH.
Qed.

Lemma first_and {A : Type} (p q : A -> bool) (rows : list A) (x : A) :
  first p rows = Some x -> q x = true ->
  first (fun y => p y && q y) rows = Some x.
Proof.
  unfold first. induction rows as [| a rows IH]; simpl; [discriminate |].
  destruct (p a); simpl.
  - intros [= ->] ->. reflexivity.
  - exact IH.
Qed.

Lemma first_ext {A : Type} (p q : A -> bool) (rows : list A) :
  (forall x, p x = q x) -> first p rows = first q rows.
Proof.
  intros Hpq. unfold first.
  induction rows as [| a rows IH]; simpl; [reflexivity |].
  rewrite Hpq, IH. reflexivity.
Qed.

Lemma unique_keys_in (rows : list Payroll.t) (x y : Payroll.t) :
  unique_keys rows -> In x rows -> In y rows ->
  payroll_key x = payroll_key y -> x = y.
Proof.
  unfold unique_keys.
  induction rows as [| a rows IH]; simpl; intros Hu Hx Hy Hk; [destruct Hx |].
  inversion Hu as [| k ks Hnotin Hrest]; subst.
  destruct Hx as [-> | Hx], Hy as [-> | Hy].
  - reflexivity.
  - destruct Hnotin. rewrite Hk. apply in_map. exact Hy.
  - destruct Hnotin. rewrite <- Hk. apply in_map. exact Hx.
  - apply IH; assumption.
Qed.

Section Joined.

Variable pred : Payroll.t -> bool.
Variable es : list Employee.t.

Let joined (ps : list Payroll.t) : list (Payroll.t * Employee.t) :=
  flat_map
    (fun p =>
       map (pair p)
         (filter (fun e => String.eqb (Payroll.emp_id p) (Employee.emp_id e))
            es))
    ps.

Lemma first_skips (a : Payroll.t) (l : list Employee.t)
    (rest : list (Payroll.t * Employee.t)) :
  pred a = false ->
  first (fun pe => pred (fst pe)) (map (pair a) l ++ rest)
  = first (fun pe => pred (fst pe)) rest.
Proof.
  intros Ha. unfold first.
  induction l as [| e l IH]; simpl; [reflexivity |].
  rewrite Ha. exact IH.
Qed.

(** The first joined row whose payroll passes the filter is made of the
    first such payroll row and the first employee with its ID. *)
Lemma first_joined (ps : list Payroll.t) (p : Payroll.t) (e : Employee.t) :
  first pred ps = Some p ->
  first (is_employee (Payroll.emp_id p)) es = Some e ->
  first (fun pe => pred (fst pe)) (joined ps) = Some (p, e).
Proof.
  intros Hp He. subst joined. cbv beta.
  induction ps as [| a ps IH]; [discriminate Hp |].
  cbn [flat_map]. unfold first in Hp. cbn [find] in Hp.
  destruct (pred a) eqn:Ha.
  - injection Hp as ->.
    assert (He' : first (fun e => String.eqb (Payroll.emp_id p)
                                    (Employee.emp_id e)) es = Some e).
    { rewrite <- He. apply first_ext. intros x. apply String.eqb_sym. }
    destruct (first_filter_head _ _ _ He') as (rest & ->).
    unfold first. cbn [map app find fst]. rewrite Ha. reflexivity.
  - rewrite first_skips by exact Ha. apply IH. exact Hp.
Qed.

Lemma first_joined_none (ps : list Payroll.t) :
  first pred ps = None ->
  first (fun pe => pred (fst pe)) (joined ps) = None.
Proof.
  intros Hp. subst joined. cbv beta.
  induction ps as [| a ps IH]; [reflexivity |].
  cbn [flat_map]. unfold first in Hp. cbn [find] in Hp.
  destruct (pred a) eqn:Ha; [discriminate Hp |].
  rewrite first_skips by exact Ha. apply IH. exact Hp.
Qed.

End Joined.

(** X16.  After a payroll run for an employee, [api_payslip] shows the
    row of that run, joined with the employee, to an admin and to the
    user who made the run, and to nobody else.  Since a second run
    overwrites [processed_by], running a period again takes the record
    away from the user who ran it first. *)
Theorem payslip_is_seen_by_admin_and_processor
    (viewer : User.t) (processor : string) (utcnow : Z) (form : Form.t)
    (st : DB) (employee : Employee.t) :
  unique_keys (payroll st) ->
  first (is_employee (Form.emp_id form)) (employees st) = Some employee ->
  let st' := snd (process_individual_payroll processor utcnow form st) in
  let row := payroll_row_of processor utcnow form employee st in
  let seen :=
    api_payslip_record viewer (Form.emp_id form) (Form.month form)
      (Form.year form) st' in
  (is_admin viewer = true \/ User.username viewer = processor ->
   seen = Some (row,
                Employee.set_leave_balance
                  (LeaveInfo.remaining_balance
                     (leave_info_of utcnow form employee st))
                  employee))
  /\ (is_admin viewer = false -> User.username viewer <> processor ->
      seen = None).
Proof.
  intros Hu Hfound st' row seen.
  assert (Hrow : first (is_payroll (Form.emp_id form) (Form.month form)
                          (Form.year form)) (payroll st') = Some row)
    by exact (processed_row processor utcnow form st employee Hfound).
  assert (Hby : Payroll.processed_by row = processor) by reflexivity.
  assert (Hid : Payroll.emp_id row = Form.emp_id form)
    by exact (f_equal (fun k => fst (fst k))
                (payroll_row_of_key processor utcnow form employee st)).
  assert (Hemp : first (is_employee (Payroll.emp_id row)) (employees st')
                 = Some (Employee.set_leave_balance
                           (LeaveInfo.remaining_balance
                              (leave_info_of utcnow form employee st))
                           employee)).
  { rewrite Hid.
    pose proof (process_store processor utcnow form st) as Hp.
    cbv zeta in Hp. rewrite Hfound in Hp. destruct Hp as (He & _).
    subst st'. rewrite He.
    apply first_update_first; [exact Hfound |].
    apply first_some in Hfound. exact (proj2 Hfound). }
  split.
  - intros Hwho. subst seen. unfold api_payslip_record, join_employee.
    destruct (is_admin viewer) eqn:Hadmin.
    + exact (first_joined _ _ _ _ _ Hrow Hemp).
    + destruct Hwho as [Hwho | Hwho]; [discriminate Hwho |].
      apply (first_joined
               (fun p => is_payroll (Form.emp_id form) (Form.month form)
                           (Form.year form) p
                         && String.eqb (Payroll.processed_by p)
                              (User.username viewer)));
        [| exact Hemp].
      apply first_and; [exact Hrow |].
      rewrite Hby, Hwho. apply String.eqb_refl.
  - intros Hadmin Hother. subst seen.
    unfold api_payslip_record, join_employee. rewrite Hadmin.
    apply (first_joined_none
             (fun p => is_payroll (Form.emp_id form) (Form.month form)
                         (Form.year form) p
                       && String.eqb (Payroll.processed_by p)
                            (User.username viewer))).
    destruct (first
                (fun p => is_payroll (Form.emp_id form) (Form.month form)
                            (Form.year form) p
                          && String.eqb (Payroll.processed_by p)
                               (User.username viewer))
                (payroll st')) as [p |] eqn:Hp; [| reflexivity].
    apply first_some in Hp. destruct Hp as [Hin Hp].
    apply andb_prop in Hp. destruct Hp as [Hkey Hname].
    apply String.eqb_eq in Hname.
    assert (Heq : p = row).
    { apply (unique_keys_in (payroll st')).
      - exact (run_unique_keys st
                 {| Request.current_user := processor;
                    Request.utcnow := utcnow;
                    Request.form := form |} Hu).
      - exact Hin.
      - apply first_some in Hrow. exact (proj1 Hrow).
      - apply is_payroll_key in Hkey. rewrite Hkey. symmetry.
        apply payroll_row_of_key. }
    subst p. rewrite Hby in Hname. destruct (Hother (eq_sym Hname)).
Qed.

(** John's January was processed by hr: hr sees the record, accounts
    does not. *)
Lemma payslip_is_seen_by_admin_and_processor_witness :
  (exists pe,
     api_payslip_record Demo.hr "EMP001" "January" 2024 Demo.january
     = Some pe
     /\ Payroll.processed_by (fst pe) = "hr"%string)
  /\ api_payslip_record Demo.accounts "EMP001" "January" 2024 Demo.january
     = None.
Proof.
  assert (Hu : unique_keys (payroll (Sample.only (Sample.john 50000 1.5))))
    by constructor.
  assert (Hfound :
    first (is_employee (Form.emp_id (Sample.form 0 "January")))
      (employees (Sample.only (Sample.john 50000 1.5)))
    = Some (Sample.john 50000 1.5)) by reflexivity.
  split.
  - pose proof (proj1 (payslip_is_seen_by_admin_and_processor Demo.hr "hr" 0
                         (Sample.form 0 "January") _ _ Hu Hfound)
                  (or_intror eq_refl)) as Hseen.
    eexists. split; [exact Hseen | reflexivity].
  - exact (proj2 (payslip_is_seen_by_admin_and_processor Demo.accounts "hr" 0
                    (Sample.form 0 "January") _ _ Hu Hfound)
             eq_refl ltac:(discriminate)).
Defined.

Section Downloads.

Variable float : string -> option Q.
Variable strptime_date : string -> string -> option Z.
Variable re_match : string -> string -> bool.
Variable new_employee_id : list Employee.t -> Z.

Local Abbreviation handle :=
  (serve float strptime_date re_match new_employee_id).
Local Abbreviation handle_all :=
  (serve_all float strptime_date re_match new_employee_id).

(** The creators of the employees after a request: those before, and
    then the name of the visitor for each employee that the request adds,
    which takes the role admin or hr. *)
Lemma handle_creators
    (current_user : option User.t) (utcnow : Z) (r : post) (st : DB) :
  exists added : list string,
    map Employee.created_by (employees (handle current_user utcnow r st))
    = map Employee.created_by (employees st) ++ added
    /\ forall name, In name added ->
         exists user,
           current_user = Some user
           /\ In (User.role user) ["admin"; "hr"]%string
           /\ name = User.username user.
Proof.
  rewrite serve_eq.
  assert (Hsame : exists added : list string,
            map Employee.created_by (employees st)
            = map Employee.created_by (employees st) ++ added
            /\ forall name, In name added ->
                 exists user,
                   current_user = Some user
                   /\ In (User.role user) ["admin"; "hr"]%string
                   /\ name = User.username user).
  { exists []. rewrite app_nil_r. split; [reflexivity | intros n []]. }
  destruct current_user as [user |]; [| exact Hsame].
  destruct (existsb (String.eqb (User.role user)) (allowed_roles r))
    eqn:Hrole; [| exact Hsame].
  apply existsb_exists in Hrole. destruct Hrole as (role & Hin & Heq).
  apply String.eqb_eq in Heq. subst role.
  destruct r
    as [form | form | upload month year | emp_id hike_amount | sheet].
  - destruct (add_employee_cases float strptime_date re_match
                new_employee_id user utcnow form st)
      as [(_ & Hst & _) | (c & date & _ & Hadded)].
    + rewrite Hst. exact Hsame.
    + rewrite Hadded. cbn [snd employees]. rewrite map_app.
      eexists. split; [reflexivity |].
      cbn [map Employee.created_by]. intros n [<- | []].
      exists user. repeat split. exact Hin.
  - pose proof (process_store (User.username user) utcnow form st) as Hp.
    cbv zeta in Hp.
    destruct (first (is_employee (Form.emp_id form)) (employees st));
      [| rewrite Hp; exact Hsame].
    destruct Hp as (He & _ & _). rewrite He.
    rewrite map_update_first by (intros e; reflexivity). exact Hsame.
  - destruct (bulk_process_payroll_store user utcnow month year upload st)
      as (He & _).
    rewrite He. exact Hsame.
  - rewrite apply_hike_store.
    destruct (first (is_employee emp_id) (employees st)); [| exact Hsame].
    cbn [employees].
    rewrite map_update_first by (intros e; reflexivity). exact Hsame.
  - destruct (bulk_add_employees_store re_match new_employee_id user utcnow
                sheet st) as (_ & _ & _ & added & He & Hadded).
    rewrite He, map_app. eexists. split; [reflexivity |].
    intros n Hn. apply in_map_iff in Hn. destruct Hn as (e & <- & He').
    rewrite Forall_forall in Hadded.
    exists user. repeat split; [exact Hin |].
    exact (proj1 (Hadded e He')).
Qed.

(** A request that adds no employee under a name leaves nobody created
    under that name, if there was nobody. *)
Lemma handle_keeps_creators
    (name : string) (current_user : option User.t) (utcnow : Z) (r : post)
    (st : DB) :
  (forall e, In e (employees st) -> Employee.created_by e <> name) ->
  (forall user,
     current_user = Some user -> User.username user = name ->
     length (employees (handle current_user utcnow r st))
     = length (employees st)
     \/ ~ In (User.role user) ["admin"; "hr"]%string) ->
  forall e, In e (employees (handle current_user utcnow r st)) ->
    Employee.created_by e <> name.
Proof.
  intros Hold Hnone e He Hname.
  destruct (handle_creators current_user utcnow r st)
    as (added & Hmap & Hadded).
  apply (in_map Employee.created_by) in He. rewrite Hmap in He.
  apply in_app_or in He. destruct He as [He | He].
  - apply in_map_iff in He. destruct He as (e0 & He0 & Hin0).
    apply (Hold e0 Hin0). rewrite He0. exact Hname.
  - destruct (Hadded _ He) as (user & Huser & Hrole & Hcreator).
    destruct (Hnone user Huser) as [Hlen | Hnot].
    + rewrite <- Hcreator. exact Hname.
    + apply (f_equal (@length string)) in Hmap.
      rewrite length_app, !length_map, Hlen in Hmap.
      destruct added; [destruct He | cbn [length] in Hmap; lia].
    + exact (Hnot Hrole).
Qed.


(** X18.  A user whose role is neither admin nor hr (an accounts user)
    can download no payslip: both routes that add employees turn such a
    user away, so that, when no employee was created under the user's
    name before, none is after any sequence of requests, whatever the
    user posts, and [download_payslip] finds no employee for them. *)
Theorem accounts_cannot_download
    (viewer : User.t) (visits : list visit) (st : DB) :
  is_admin viewer = false ->
  (forall e, In e (employees st) ->
     Employee.created_by e <> User.username viewer) ->
  Forall
    (fun v =>
       forall user,
         visitor v = Some user ->
         User.username user = User.username viewer ->
         ~ In (User.role user) ["admin"; "hr"]%string)
    visits ->
  forall (emp_id month : string) (year : Z),
    download_payslip_records viewer emp_id month year (handle_all visits st)
    = None.
Proof.
  intros Hadmin Hold Hroles emp_id month year.
  assert (Hcreators :
    forall e, In e (employees (handle_all visits st)) ->
      Employee.created_by e <> User.username viewer).
  { revert st Hold. unfold serve_all.
    induction Hroles as [| v visits Hv Hvs IH]; intros st Hold;
      cbn [fold_left].
    - exact Hold.
    - apply IH.
      apply handle_keeps_creators; [exact Hold |].
      intros user Huser Hname. right. exact (Hv user Huser Hname). }
  assert (Hfirst :
    first (fun e => is_employee emp_id e
                    && String.eqb (Employee.created_by e)
                         (User.username viewer))
      (employees (handle_all visits st)) = None).
  { destruct (first _ (employees (handle_all visits st))) as [e |] eqn:He;
      [| reflexivity].
    apply first_some in He. destruct He as [Hin He].
    apply andb_prop in He. destruct He as [_ He].
    apply String.eqb_eq in He. destruct (Hcreators e Hin He). }
  unfold download_payslip_records. rewrite Hadmin, Hfirst. reflexivity.
Qed.

End Downloads.


(** The accounts user posts the form that adds Asha, is turned away, and
    processes January for John: [api_payslip] shows the accounts user
    the record, [download_payslip] does not find it. *)
Lemma accounts_cannot_download_witness :
  let st :=
    serve_all Demo.float Demo.strptime_date Demo.re_match
      Demo.new_employee_id
      [mkVisit (Some Demo.accounts) 1 (AddEmployee Demo.asha);
       mkVisit (Some Demo.accounts) 2
         (ProcessIndividualPayroll (Sample.form 0 "January"))]
      (Sample.only (Sample.john 50000 1.5)) in
  (exists pe,
     api_payslip_record Demo.accounts "EMP001" "January" 2024 st = Some pe)
  /\ download_payslip_records Demo.accounts "EMP001" "January" 2024 st
     = None.
Proof.
  split; [eexists; vm_compute; reflexivity |].
  apply accounts_cannot_download.
  - reflexivity.
  - intros e [<- | []]. discriminate.
  - repeat constructor;
      intros user [= <-] _ [H | [H | []]]; discriminate H.
Defined.
